(** * Clients-and-orders API: a shallow embedding of the route handlers

    The development follows the source files of the repository:
    - [Js]: the JavaScript built-ins the handlers call ([String.prototype.replace]
      with a string pattern, [parseInt], [Math.ceil] of a quotient, truthiness);
    - [Mongoose] and the modules [Client], [Product], [Order], [User]: the part
      of the document store the handlers rely on (ObjectId casting, [findById],
      [findByIdAndDelete], [findByIdAndUpdate], [countDocuments],
      [find().skip().limit()], validation on [save]);
    - one module per route file: [AuthMiddleware], [ClientRoutes], [OrderRoutes]
      (the version that prices the items), [OrderRoutesV1] (the earlier version,
      which stores the total sent by the caller), [ClientOrdersRoutes],
      [AuthRoutes].

    A handler is a function from the database to an answer and a database.
    What the environment chooses for a request is an argument of the handler:
    the time of the request and the id generated for a new document.

    External libraries are interfaces (type classes): the JWT signer and
    verifier, the password hasher, the e-mail validator and the regular
    expression engine. Errors are kept by kind, and the message of an error
    as the message of this error: the texts are the libraries' own. The
    arithmetic of prices and quantities is an interface too ([Numeric]): the
    pricing results use no law of arithmetic, so they do not depend on how
    JavaScript rounds. *)

From Stdlib Require Import List String Ascii ZArith NArith Lia Bool.
Import ListNotations.

Local Open Scope string_scope.
Local Open Scope Z_scope.

(* ------------------------------------------------------------------------- *)
(** ** JavaScript built-ins *)
(* ------------------------------------------------------------------------- *)

Module Js.

(** [!s] on a value that is [undefined] or a string: [undefined] and the empty
    string are falsy. *)
Definition truthy (v : option string) : bool :=
  match v with
  | None => false
  | Some s => negb (String.eqb s "")
  end.

(** [s.replace(pat, rep)] with a string pattern: only the first occurrence of
    [pat] is replaced ([rep] is used here without [$] patterns). *)
Fixpoint drop (n : nat) (s : string) : string :=
  match n, s with
  | S n', String _ s' => drop n' s'
  | _, _ => s
  end.

Fixpoint replace (pat rep s : string) : string :=
  if String.prefix pat s then rep ++ drop (String.length pat) s
  else match s with
       | EmptyString => EmptyString
       | String c s' => String c (replace pat rep s')
       end.

(** [s.includes(pat)] *)
Fixpoint includes (pat s : string) : bool :=
  String.prefix pat s ||
  match s with
  | EmptyString => false
  | String _ s' => includes pat s'
  end.

(** White space skipped by [parseInt] (the ASCII part of it). *)
Definition isWhiteSpace (c : ascii) : bool :=
  let n := nat_of_ascii c in
  (n =? 32)%nat || ((9 <=? n)%nat && (n <=? 13)%nat).

Fixpoint trimStart (s : string) : string :=
  match s with
  | String c s' => if isWhiteSpace c then trimStart s' else s
  | EmptyString => EmptyString
  end.

(** Value of a digit in the given radix (10 or 16). *)
Definition digitVal (radix : Z) (c : ascii) : option Z :=
  let n := Z.of_nat (nat_of_ascii c) in
  let v := if (48 <=? n) && (n <=? 57) then Some (n - 48)
           else if (97 <=? n) && (n <=? 122) then Some (n - 87)
           else if (65 <=? n) && (n <=? 90) then Some (n - 55)
           else None in
  match v with
  | Some d => if d <? radix then Some d else None
  | None => None
  end.

(** Longest prefix of digits; [None] when there is no digit at all. *)
Fixpoint digits (radix : Z) (s : string) (acc : option Z) : option Z :=
  match s with
  | EmptyString => acc
  | String c s' =>
      match digitVal radix c with
      | Some d => digits radix s' (Some (radix * (match acc with Some a => a | None => 0 end) + d))
      | None => acc
      end
  end.

(** The number that holds an integer: the nearest double, ties to the even
    significand, so integers are exact up to 2^53 and rounded to 53 bits
    beyond; [None] when the nearest double is not finite (from 2^1024 on). *)
Definition toDouble (z : Z) : option Z :=
  let a := Z.abs z in
  if a <? 2 ^ 53 then Some z
  else
    let e := Z.log2 a - 52 in
    let q := a / 2 ^ e in
    let r := a mod 2 ^ e in
    let half := 2 ^ (e - 1) in
    let q' := if (half <? r) || ((r =? half) && Z.odd q) then q + 1 else q in
    let v := q' * 2 ^ e in
    if 2 ^ 1024 <=? v then None else Some (Z.sgn z * v).

(** [parseInt(s)]: the number of the longest prefix of digits, after white
    space, a sign and [0x]; [None] when the result is not a finite number:
    [NaN] when there is no digit, [Infinity] when there are too many. *)
Definition parseInt (s : string) : option Z :=
  let s1 := trimStart s in
  let '(neg, s2) :=
    match s1 with
    | String "-" r => (true, r)
    | String "+" r => (false, r)
    | _ => (false, s1)
    end in
  let '(radix, s3) :=
    match s2 with
    | String "0" (String "x" r) => (16, r)
    | String "0" (String "X" r) => (16, r)
    | _ => (10, s2)
    end in
  match digits radix s3 None with
  | Some n => toDouble (if neg then - n else n)
  | None => None
  end.

(** A JavaScript number that came out of integer arithmetic. *)
Inductive Number : Type :=
| Int (z : Z)
| Infinity
| NaN.

(** [Math.ceil(total / limit)] for a count [total] and a parsed [limit]
    (a quotient is exact enough for its ceiling as long as the count is
    below 2^53). *)
Definition ceil_div (total : nat) (limit : option Z) : Number :=
  match limit with
  | None => NaN
  | Some l =>
      if l =? 0 then (if Nat.eqb total 0 then NaN else Infinity)
      else Int (- ((- Z.of_nat total) / l))
  end.

(** [(page - 1) * limit]; a value that is not a finite number is contagious.
    The product is exact here: JavaScript rounds it beyond 2^53. *)
Definition offset (page limit : option Z) : option Z :=
  match page, limit with
  | Some p, Some l => Some ((p - 1) * l)
  | _, _ => None
  end.

End Js.

(** Arithmetic of JavaScript numbers, as far as pricing and the schema need it:
    [0], [1], [+], [*] and [<=]. No law is assumed. (Every value of the type is
    taken to be a number: the store's refusal of [NaN] is not modelled.) *)
Class Numeric (num : Type) : Type := {
  zero : num;
  one : num;
  add : num -> num -> num;
  mul : num -> num -> num;
  leb : num -> num -> bool
}.

#[global] Instance Numeric_Z : Numeric Z := {
  zero := 0; one := 1; add := Z.add; mul := Z.mul; leb := Z.leb
}.

(* ------------------------------------------------------------------------- *)
(** ** The document store *)
(* ------------------------------------------------------------------------- *)

Module Mongoose.

(** A 12-byte ObjectId, as a number below 2^96. *)
Definition ObjectId : Type := N.

Definition hexVal (c : ascii) : option N :=
  match Js.digitVal 16 c with
  | Some d => Some (Z.to_N d)
  | None => None
  end.

Fixpoint parseHex (s : string) (acc : N) : option N :=
  match s with
  | EmptyString => Some acc
  | String c s' =>
      match hexVal c with
      | Some d => parseHex s' (16 * acc + d)%N
      | None => None
      end
  end.

(** Casting a string to an ObjectId: 24 hexadecimal characters, in either
    case. (Twelve-character strings, which some driver versions also
    accept, are not modelled.) *)
Definition castObjectId (s : string) : option ObjectId :=
  if Nat.eqb (String.length s) 24 then parseHex s 0%N else None.

Definition hexDigit (d : N) : ascii :=
  ascii_of_N (if (d <? 10)%N then 48 + d else 87 + d)%N.

Fixpoint toHex (k : nat) (n : N) (acc : string) : string :=
  match k with
  | O => acc
  | S k' => toHex k' (n / 16)%N (String (hexDigit (n mod 16)%N) acc)
  end.

(** [oid.toString()]: 24 lower-case hexadecimal digits. *)
Definition toString (o : ObjectId) : string := toHex 24 o "".

(** Errors thrown by mongoose, by the server and by the language, by kind
    and by what they are about. *)
Inductive Error : Type :=
| CastError (value path model : string)  (* mongoose: a value of a query that does not cast *)
| ValidationError (model : string)       (* mongoose: a document that fails its schema on save *)
| NoModel (fn : string)                  (* mongoose: the function [fn] of a model, called without the model *)
| DuplicateKey (index : string)          (* the server: a unique index refuses the write *)
| BadValue                               (* the server: a skip or a limit that it does not take *)
| TypeError (msg : string)               (* the language *)
| SyntaxError (source : string).         (* the language: [new RegExp(source)] *)

(** [err.message]. The texts are the libraries' own and are not spelled out
    here: a message is kept as the message of its error. *)
Inductive Text : Type :=
| message (e : Error).

(** What is used of the texts: the message of a cast error quotes the value
    that does not cast. *)
Definition quotes (value : string) (t : Text) : bool :=
  match t with
  | message (CastError v _ _) => Js.includes value v
  | message _ => false
  end.

(** Collections are lists of documents in insertion order. *)
Section Collection.
Context {A : Type} (key : A -> ObjectId).

Fixpoint lookup (oid : ObjectId) (docs : list A) : option A :=
  match docs with
  | [] => None
  | d :: rest => if (key d =? oid)%N then Some d else lookup oid rest
  end.

(** Removes the first document with this id. *)
Fixpoint remove (oid : ObjectId) (docs : list A) : list A :=
  match docs with
  | [] => []
  | d :: rest => if (key d =? oid)%N then rest else d :: remove oid rest
  end.

(** Replaces the first document with this id by [f] of it. *)
Fixpoint modify (oid : ObjectId) (f : A -> A) (docs : list A) : list A :=
  match docs with
  | [] => []
  | d :: rest => if (key d =? oid)%N then f d :: rest else d :: modify oid f rest
  end.

(** [cursor.skip(s).limit(l)]: the server rejects a negative skip and
    values that are not finite numbers; a limit of 0 means no limit and a
    negative limit is taken by its absolute value. *)
Definition skip_limit (s l : option Z) (docs : list A) : Error + list A :=
  match s, l with
  | Some s, Some l =>
      if s <? 0 then inl BadValue
      else
        let rest := skipn (Z.to_nat s) docs in
        inr (if l =? 0 then rest else firstn (Z.to_nat (Z.abs l)) rest)
  | _, _ => inl BadValue
  end.
End Collection.

End Mongoose.

Import Mongoose.

(** models/Client.js *)
Module ClientSchema.
Record doc : Type := {
  _id : ObjectId;
  name : string;    (* required *)
  email : string    (* required, unique *)
}.
End ClientSchema.

(** models/Order.js *)
Module OrderSchema.
Inductive Status : Type := pending | shipped | delivered | canceled.

Record item (num : Type) : Type := {
  productId : ObjectId;   (* required *)
  quantity : num          (* required, min: 1 *)
}.

Record doc (num : Type) : Type := {
  _id : ObjectId;
  clientId : ObjectId;    (* required *)
  items : list (item num);
  totalPrice : num;       (* required *)
  status : Status;        (* default: pending *)
  createdAt : Z           (* default: Date.now *)
}.

Arguments productId {num}.
Arguments quantity {num}.
Arguments _id {num}.
Arguments clientId {num}.
Arguments items {num}.
Arguments totalPrice {num}.
Arguments status {num}.
Arguments createdAt {num}.
End OrderSchema.

(** Modelled from the spec: models/Product.js is not among the sources. A
    Product has an id, a name and a price (a number). *)
Module ProductSchema.
Record doc (num : Type) : Type := {
  _id : ObjectId;
  name : string;
  price : num
}.
Arguments _id {num}.
Arguments name {num}.
Arguments price {num}.
End ProductSchema.

(** Modelled from the spec: models/User.js is not among the sources. A User has
    a name, a unique email and a password that is stored as a digest. *)
Module UserSchema.
Record doc : Type := {
  _id : ObjectId;
  name : string;
  email : string;
  password : string   (* the digest, never the plaintext *)
}.
End UserSchema.

(** The database: one collection per model. *)
Record Db (num : Type) : Type := {
  clients : list ClientSchema.doc;
  products : list (ProductSchema.doc num);
  orders : list (OrderSchema.doc num);
  users : list UserSchema.doc
}.
Arguments clients {num}.
Arguments products {num}.
Arguments orders {num}.
Arguments users {num}.

(* ------------------------------------------------------------------------- *)
(** ** Responses and the handlers' control flow *)
(* ------------------------------------------------------------------------- *)

Module Express.

(** The JSON view of a client: [{ id, name, email }]. *)
Record ClientJson : Type := {
  id : string;
  name : string;
  email : string
}.

(** The bodies the handlers send with [res.json]. *)
Inductive Body (num : Type) : Type :=
| Message (message : string)                 (* { message } *)
| MessageError (message : string) (error : Text)   (* { message, error: err.message } *)
| Errors (errors : list string)              (* { errors } *)
| ClientBody (c : ClientJson)
| Page (total : nat) (page limit : option Z) (totalPages : Js.Number)
       (data : list ClientJson)              (* { total, page, limit, totalPages, data } *)
| OrderBody (o : OrderSchema.doc num)
| Token (token : string).                    (* { token } *)

Arguments Message {num}.
Arguments MessageError {num}.
Arguments Errors {num}.
Arguments ClientBody {num}.
Arguments Page {num}.
Arguments OrderBody {num}.
Arguments Token {num}.

Record Response (num : Type) : Type := {
  status : Z;
  body : Body num
}.
Arguments status {num}.
Arguments body {num}.

End Express.

Import Express.

(** An [async] handler body: it reads and writes the database and ends with a
    value, with a thrown error, or with a response already sent
    ([return res.status(..).json(..)]), which skips the rest of the body. *)
Module Async.

Inductive Outcome (num A : Type) : Type :=
| Value (a : A)
| Thrown (e : Error)
| Sent (r : Response num).
Arguments Value {num A}.
Arguments Thrown {num A}.
Arguments Sent {num A}.

Definition M (num A : Type) : Type := Db num -> Outcome num A * Db num.

(** What a route does to the database, and what it answers. *)
Definition Handler (num : Type) : Type := Db num -> Response num * Db num.

Section Ops.
Context {num : Type}.

Definition ret {A} (a : A) : M num A := fun db => (Value a, db).

Definition bind {A B} (m : M num A) (k : A -> M num B) : M num B :=
  fun db =>
    match m db with
    | (Value a, db') => k a db'
    | (Thrown e, db') => (Thrown e, db')
    | (Sent r, db') => (Sent r, db')
    end.

Definition throw {A} (e : Error) : M num A := fun db => (Thrown e, db).

(** A function of a model that a file imports by its name
    ([import Model, { fn } from "../models/Model"]) and calls as [fn(..)]: the
    call has no [this], and mongoose throws before any query is made. *)
Definition detached {A} (fn : string) : M num A := throw (NoModel fn).

(** [return res.status(s).json(b)] *)
Definition send {A} (s : Z) (b : Body num) : M num A :=
  fun db => (Sent {| status := s; body := b |}, db).

Definition get : M num (Db num) := fun db => (Value db, db).

Definition put (db : Db num) : M num unit := fun _ => (Value tt, db).

(** [if (c) return ...;] *)
Definition when_ (c : bool) (m : M num unit) : M num unit :=
  if c then m else ret tt.

(** [try { body } catch (err) { res.status(..).json(..) }]: every path of
    [body] ends with a response or throws. *)
Definition try_catch (body : M num Empty_set) (handler : Error -> Response num)
  : Handler num :=
  fun db =>
    match body db with
    | (Value v, _) => match v with end
    | (Thrown e, db') => (handler e, db')
    | (Sent r, db') => (r, db')
    end.

(** [for (let x of xs) { acc = body(x, acc) }] *)
Fixpoint for_of {A S} (xs : list A) (body : A -> S -> M num S) (acc : S) : M num S :=
  match xs with
  | [] => ret acc
  | x :: rest => bind (body x acc) (fun acc' => for_of rest body acc')
  end.

(** Iterating a value that is [undefined] throws. *)
Definition iterable {A} (what : string) (xs : option (list A)) : M num (list A) :=
  match xs with
  | Some l => ret l
  | None => throw (TypeError (what ++ " is not iterable"))
  end.
End Ops.

Module Notations.
Notation "x <- m ;; k" := (bind m (fun x => k))
  (at level 61, m at next level, right associativity).
Notation "m ;; k" := (bind m (fun _ => k))
  (at level 61, right associativity).
End Notations.

End Async.

Import Async Async.Notations.

(* ------------------------------------------------------------------------- *)
(** ** Views of orders *)
(* ------------------------------------------------------------------------- *)

(** What the reading routes send: orders whose references are replaced by the
    documents they point to ([populate]), or by [null] when there is none. *)
Module Views.

(** [populate("clientId", "name email")]: [{ _id, name, email }]. *)
Module PopulatedClient.
Record t : Type := {
  _id : ObjectId;
  name : string;
  email : string
}.
End PopulatedClient.

(** The same object under the hands of the list route, which writes
    [order.client.id = order.client._id] and deletes [order.client._id]: a
    field that the object does not have is [None]. *)
Module ListedClient.
Record t : Type := {
  _id : option ObjectId;
  id : option ObjectId;
  name : string;
  email : string
}.
End ListedClient.

(** [populate("items.productId", "name price")]: [{ _id, name, price }]. *)
Module PopulatedProduct.
Record t (num : Type) : Type := {
  _id : ObjectId;
  name : string;
  price : num
}.
Arguments _id {num}.
Arguments name {num}.
Arguments price {num}.
End PopulatedProduct.

Module Item.
Record t (num : Type) : Type := {
  productId : option (PopulatedProduct.t num);
  quantity : num
}.
Arguments productId {num}.
Arguments quantity {num}.
End Item.

(** An order read by id: [id] in place of [_id], the client under [clientId]. *)
Module OrderById.
Record t (num : Type) : Type := {
  id : ObjectId;
  clientId : option PopulatedClient.t;
  items : list (Item.t num);
  totalPrice : num;
  status : OrderSchema.Status;
  createdAt : Z
}.
Arguments id {num}.
Arguments clientId {num}.
Arguments items {num}.
Arguments totalPrice {num}.
Arguments status {num}.
Arguments createdAt {num}.
End OrderById.

(** An order of the list: [id] in place of [_id], the client under [client]. *)
Module ListedOrder.
Record t (num : Type) : Type := {
  id : ObjectId;
  client : option ListedClient.t;
  items : list (Item.t num);
  totalPrice : num;
  status : OrderSchema.Status;
  createdAt : Z
}.
Arguments id {num}.
Arguments client {num}.
Arguments items {num}.
Arguments totalPrice {num}.
Arguments status {num}.
Arguments createdAt {num}.
End ListedOrder.

(** An order of a client: only the products are populated. *)
Module ClientOrder.
Record t (num : Type) : Type := {
  _id : ObjectId;
  clientId : ObjectId;
  items : list (Item.t num);
  totalPrice : num;
  status : OrderSchema.Status;
  createdAt : Z
}.
Arguments _id {num}.
Arguments clientId {num}.
Arguments items {num}.
Arguments totalPrice {num}.
Arguments status {num}.
Arguments createdAt {num}.
End ClientOrder.

(** [{ total, page, limit, totalPages, data }] *)
Record Page (A : Type) : Type := {
  total : nat;
  page : option Z;
  limit : option Z;
  totalPages : Js.Number;
  data : list A
}.
Arguments total {A}.
Arguments page {A}.
Arguments limit {A}.
Arguments totalPages {A}.
Arguments data {A}.

(** The answer of a reading route: the view it sends with [res.json], status
    200, or the response of one of its refusals. *)
Inductive Answer (num A : Type) : Type :=
| Json (a : A)
| Refused (r : Response num).
Arguments Json {num A}.
Arguments Refused {num A}.

(** [try { ...; res.json(view) } catch (err) { res.status(..).json(..) }] *)
Definition try_catch_view {num A} (body : M num A) (handler : Error -> Response num)
  : Db num -> Answer num A * Db num :=
  fun db =>
    match body db with
    | (Value a, db') => (Json a, db')
    | (Thrown e, db') => (Refused (handler e), db')
    | (Sent r, db') => (Refused r, db')
    end.

End Views.

(* ------------------------------------------------------------------------- *)
(** ** External libraries, as interfaces *)
(* ------------------------------------------------------------------------- *)

(** The decoded token: [{ userId, iat, exp }]. *)
Record Payload : Type := {
  userId : ObjectId;
  iat : Z;
  exp : Z
}.

Fixpoint no_space (s : string) : bool :=
  match s with
  | EmptyString => true
  | String c s' => negb (Ascii.eqb c " ") && no_space s'
  end.

(** jsonwebtoken: [sign({ userId }, secret, { expiresIn })] at a time [now], and
    [verify(token, secret)] at a time [now] ([None] when it throws). A token
    verifies until it expires, and a token that verifies is in the compact
    form: not empty and without white space. *)
Class Jwt : Type := {
  sign : ObjectId -> string -> Z -> Z -> string;
  verify : string -> string -> Z -> option Payload;
  verify_sign : forall uid secret ttl now t,
    now <= t < now + ttl ->
    exists p, verify (sign uid secret ttl now) secret t = Some p /\ userId p = uid;
  verify_compact : forall token secret t p,
    verify token secret t = Some p -> token <> "" /\ no_space token = true
}.

(** bcryptjs: [hash] and [compare]; the digest of a password matches it. *)
Class Bcrypt : Type := {
  hash : string -> string;
  compare : string -> string -> bool;
  compare_hash : forall password, compare password (hash password) = true
}.

(** express-validator's [isEmail]. *)
Class Validator : Type := {
  isEmail : string -> bool
}.

(** [new RegExp(source, "i")]: [None] when the source is not a regular
    expression (a SyntaxError), else the test it compiles to. *)
Class RegExpEngine : Type := {
  RegExp_i : string -> option (string -> bool)
}.

(* ------------------------------------------------------------------------- *)
(** ** The models: queries and writes *)
(* ------------------------------------------------------------------------- *)

Definition set_clients {num} (db : Db num) (l : list ClientSchema.doc) : Db num :=
  {| clients := l; products := products db; orders := orders db; users := users db |}.

Definition set_orders {num} (db : Db num) (l : list (OrderSchema.doc num)) : Db num :=
  {| clients := clients db; products := products db; orders := l; users := users db |}.

Definition set_users {num} (db : Db num) (l : list UserSchema.doc) : Db num :=
  {| clients := clients db; products := products db; orders := orders db; users := l |}.

(** [mongoose.model("Client", ClientSchema)] *)
Module Client.
Section Ops.
Context {num : Type}.

(** [Client.findById(id)]: [undefined] finds nothing, a string that is not
    an ObjectId throws a CastError. *)
Definition findById (id : option string) : M num (option ClientSchema.doc) :=
  match id with
  | None => ret None
  | Some s =>
      match castObjectId s with
      | None => throw (CastError s "_id" "Client")
      | Some oid =>
          db <- get ;;
          ret (lookup ClientSchema._id oid (clients db))
      end
  end.

(** [Client.findByIdAndDelete(id)] *)
Definition findByIdAndDelete (id : string) : M num (option ClientSchema.doc) :=
  match castObjectId id with
  | None => throw (CastError id "_id" "Client")
  | Some oid =>
      db <- get ;;
      match lookup ClientSchema._id oid (clients db) with
      | None => ret None
      | Some d =>
          put (set_clients db (remove ClientSchema._id oid (clients db))) ;;
          ret (Some d)
      end
  end.

(** The filter object built by the list route: [{ name?, email? }], each a
    compiled regular expression. *)
Record Query : Type := {
  name : option (string -> bool);
  email : option (string -> bool)
}.

Definition test (re : option (string -> bool)) (s : string) : bool :=
  match re with
  | None => true
  | Some f => f s
  end.

Definition matches (q : Query) (c : ClientSchema.doc) : bool :=
  test (name q) (ClientSchema.name c) && test (email q) (ClientSchema.email c).

(** [Client.countDocuments(query)] *)
Definition countDocuments (q : Query) : M num nat :=
  db <- get ;;
  ret (List.length (filter (matches q) (clients db))).

(** [Client.find(query).skip(s).limit(l)] *)
Definition find (q : Query) (s l : option Z) : M num (list ClientSchema.doc) :=
  db <- get ;;
  match skip_limit s l (filter (matches q) (clients db)) with
  | inl e => throw e
  | inr docs => ret docs
  end.
(** [new Client({ name, email }).save()]: both fields are required, and the
    unique index on [email] refuses an email that a stored client has. The
    document gets the id [oid] generated for it. *)
Definition save (oid : ObjectId) (name email : string) : M num ClientSchema.doc :=
  if String.eqb name "" || String.eqb email "" then
    throw (ValidationError "Client")
  else
    db <- get ;;
    if existsb (fun c => String.eqb (ClientSchema.email c) email) (clients db) then
      throw (DuplicateKey "email_1")
    else
      let c := {| ClientSchema._id := oid;
                  ClientSchema.name := name;
                  ClientSchema.email := email |} in
      put (set_clients db (clients db ++ [c])%list) ;;
      ret c.

(** The update [{ name, email }] applied to a client: a field that is
    [undefined] is left out of the update. *)
Definition updated (name email : option string) (c : ClientSchema.doc) : ClientSchema.doc :=
  {| ClientSchema._id := ClientSchema._id c;
     ClientSchema.name := match name with Some n => n | None => ClientSchema.name c end;
     ClientSchema.email := match email with Some e => e | None => ClientSchema.email c end |}.

(** [Client.findByIdAndUpdate(id, { name, email }, { new: true })]: validators
    do not run; the unique index refuses an email that another client has. *)
Definition findByIdAndUpdate (id : string) (name email : option string)
  : M num (option ClientSchema.doc) :=
  match castObjectId id with
  | None => throw (CastError id "_id" "Client")
  | Some oid =>
      db <- get ;;
      match lookup ClientSchema._id oid (clients db) with
      | None => ret None
      | Some c =>
          let c' := updated name email c in
          if existsb (fun d => negb (ClientSchema._id d =? oid)%N
                               && String.eqb (ClientSchema.email d) (ClientSchema.email c'))
                     (clients db) then
            throw (DuplicateKey "email_1")
          else
            put (set_clients db (modify ClientSchema._id oid (updated name email) (clients db))) ;;
            ret (Some c')
      end
  end.
End Ops.
End Client.

(** [mongoose.model("Product", ProductSchema)] *)
Module Product.
Section Ops.
Context {num : Type}.

(** [Product.findById(id)] *)
Definition findById (id : string) : M num (option (ProductSchema.doc num)) :=
  match castObjectId id with
  | None => throw (CastError id "_id" "Product")
  | Some oid =>
      db <- get ;;
      ret (lookup ProductSchema._id oid (products db))
  end.
End Ops.
End Product.

(** [mongoose.model("Order", OrderSchema)] *)
Module Order.
Section Ops.
Context {num : Type} {NN : Numeric num}.

(** An item as it comes in a request body. *)
Record ItemInput : Type := {
  productId : string;
  quantity : num
}.

(** The argument of [new Order({ clientId, items, totalPrice })]; each field
    may be [undefined]. *)
Record Init : Type := {
  clientId : option string;
  items : option (list ItemInput);
  totalPrice : option num
}.

Definition castItem (i : ItemInput) : option (OrderSchema.item num) :=
  match castObjectId (productId i) with
  | Some p => Some {| OrderSchema.productId := p; OrderSchema.quantity := quantity i |}
  | None => None
  end.

Fixpoint castItems (l : list ItemInput) : option (list (OrderSchema.item num)) :=
  match l with
  | [] => Some []
  | i :: rest =>
      match castItem i, castItems rest with
      | Some i', Some rest' => Some (i' :: rest')
      | _, _ => None
      end
  end.

(** The schema's validation, run by [save]: [clientId] and [totalPrice] are
    required, every [productId] is an ObjectId, every [quantity] is at
    least 1. An absent [items] is the empty array. A document that fails gets
    one validation error, whatever the paths that fail. *)
Definition validate (init : Init)
  : Error + (ObjectId * list (OrderSchema.item num) * num) :=
  match clientId init with
  | None => inl (ValidationError "Order")
  | Some c =>
      match castObjectId c with
      | None => inl (ValidationError "Order")
      | Some cid =>
          match castItems (match items init with Some l => l | None => [] end) with
          | None => inl (ValidationError "Order")
          | Some its =>
              if forallb (fun i => leb one (OrderSchema.quantity i)) its then
                match totalPrice init with
                | None => inl (ValidationError "Order")
                | Some t => inr (cid, its, t)
                end
              else inl (ValidationError "Order")
          end
      end
  end.

(** [const o = new Order(init); await o.save()]: the document gets the id
    [oid] generated for it, the default status and the creation time. *)
Definition save (oid : ObjectId) (now : Z) (init : Init) : M num (OrderSchema.doc num) :=
  match validate init with
  | inl e => throw e
  | inr (cid, its, t) =>
      let o := {| OrderSchema._id := oid;
                  OrderSchema.clientId := cid;
                  OrderSchema.items := its;
                  OrderSchema.totalPrice := t;
                  OrderSchema.status := OrderSchema.pending;
                  OrderSchema.createdAt := now |} in
      db <- get ;;
      put (set_orders db (orders db ++ [o])%list) ;;
      ret o
  end.

Definition with_items (its : list (OrderSchema.item num)) (t : num)
           (o : OrderSchema.doc num) : OrderSchema.doc num :=
  {| OrderSchema._id := OrderSchema._id o;
     OrderSchema.clientId := OrderSchema.clientId o;
     OrderSchema.items := its;
     OrderSchema.totalPrice := t;
     OrderSchema.status := OrderSchema.status o;
     OrderSchema.createdAt := OrderSchema.createdAt o |}.

(** [Order.findByIdAndUpdate(id, { items, totalPrice }, { new: true })]: the
    id and the update are cast; validators do not run on updates. *)
Definition findByIdAndUpdate (id : string) (its : list ItemInput) (t : num)
  : M num (option (OrderSchema.doc num)) :=
  match castObjectId id with
  | None => throw (CastError id "_id" "Order")
  | Some oid =>
      match castItems its with
      | None => throw (CastError "items" "items.productId" "Order")
      | Some its' =>
          db <- get ;;
          match lookup OrderSchema._id oid (orders db) with
          | None => ret None
          | Some o =>
              put (set_orders db (modify OrderSchema._id oid (with_items its' t) (orders db))) ;;
              ret (Some (with_items its' t o))
          end
      end
  end.

(** [Order.findByIdAndDelete(id)] *)
Definition findByIdAndDelete (id : string) : M num (option (OrderSchema.doc num)) :=
  match castObjectId id with
  | None => throw (CastError id "_id" "Order")
  | Some oid =>
      db <- get ;;
      match lookup OrderSchema._id oid (orders db) with
      | None => ret None
      | Some o =>
          put (set_orders db (remove OrderSchema._id oid (orders db))) ;;
          ret (Some o)
      end
  end.
(** [Order.findById(id)] *)
Definition findById (id : string) : M num (option (OrderSchema.doc num)) :=
  match castObjectId id with
  | None => throw (CastError id "_id" "Order")
  | Some oid =>
      db <- get ;;
      ret (lookup OrderSchema._id oid (orders db))
  end.

Definition with_status (s : OrderSchema.Status) (o : OrderSchema.doc num)
  : OrderSchema.doc num :=
  {| OrderSchema._id := OrderSchema._id o;
     OrderSchema.clientId := OrderSchema.clientId o;
     OrderSchema.items := OrderSchema.items o;
     OrderSchema.totalPrice := OrderSchema.totalPrice o;
     OrderSchema.status := s;
     OrderSchema.createdAt := OrderSchema.createdAt o |}.

(** [Order.findByIdAndUpdate(id, { status }, { new: true })] for a status of
    the schema. *)
Definition findByIdAndUpdate_status (id : string) (s : OrderSchema.Status)
  : M num (option (OrderSchema.doc num)) :=
  match castObjectId id with
  | None => throw (CastError id "_id" "Order")
  | Some oid =>
      db <- get ;;
      match lookup OrderSchema._id oid (orders db) with
      | None => ret None
      | Some o =>
          put (set_orders db (modify OrderSchema._id oid (with_status s) (orders db))) ;;
          ret (Some (with_status s o))
      end
  end.

(** The text of a status. *)
Definition status_name (s : OrderSchema.Status) : string :=
  match s with
  | OrderSchema.pending => "pending"
  | OrderSchema.shipped => "shipped"
  | OrderSchema.delivered => "delivered"
  | OrderSchema.canceled => "canceled"
  end.

(** The filter of the list route: [{}] or [{ status }]. *)
Definition has_status (status : option string) (o : OrderSchema.doc num) : bool :=
  match status with
  | None => true
  | Some s => String.eqb (status_name (OrderSchema.status o)) s
  end.

(** [Order.countDocuments(query)] *)
Definition countDocuments (status : option string) : M num nat :=
  db <- get ;;
  ret (List.length (filter (has_status status) (orders db))).

(** [Order.find(query).skip(s).limit(l)] *)
Definition find (status : option string) (s l : option Z)
  : M num (list (OrderSchema.doc num)) :=
  db <- get ;;
  match skip_limit s l (filter (has_status status) (orders db)) with
  | inl e => throw e
  | inr docs => ret docs
  end.

(** [Order.find({ clientId })] *)
Definition find_of_client (clientId : string) : M num (list (OrderSchema.doc num)) :=
  match castObjectId clientId with
  | None => throw (CastError clientId "clientId" "Order")
  | Some cid =>
      db <- get ;;
      ret (filter (fun o => (OrderSchema.clientId o =? cid)%N) (orders db))
  end.

(** [populate("items.productId", "name price")] on the items of an order. *)
Definition populate_items (db : Db num) (its : list (OrderSchema.item num))
  : list (Views.Item.t num) :=
  map (fun i =>
         {| Views.Item.productId :=
              match lookup ProductSchema._id (OrderSchema.productId i) (products db) with
              | Some p => Some {| Views.PopulatedProduct._id := ProductSchema._id p;
                                  Views.PopulatedProduct.name := ProductSchema.name p;
                                  Views.PopulatedProduct.price := ProductSchema.price p |}
              | None => None
              end;
            Views.Item.quantity := OrderSchema.quantity i |}) its.

(** [populate("clientId", "name email")] *)
Definition populate_client (db : Db num) (cid : ObjectId) : option Views.PopulatedClient.t :=
  match lookup ClientSchema._id cid (clients db) with
  | Some c => Some {| Views.PopulatedClient._id := ClientSchema._id c;
                      Views.PopulatedClient.name := ClientSchema.name c;
                      Views.PopulatedClient.email := ClientSchema.email c |}
  | None => None
  end.
End Ops.
Arguments ItemInput : clear implicits.
Arguments Init : clear implicits.
End Order.

(** [mongoose.model("User", UserSchema)] *)
Module User.
Section Ops.
Context {num : Type} {BC : Bcrypt}.

(** Modelled from the spec: models/User.js, with the hook that runs before
    a save, is not among the sources. [new User({ name, email, password })]
    followed by [save()] stores the digest of the password, never the
    plaintext; the document gets the id [oid] generated for it. *)
Definition save (oid : ObjectId) (name email password : string) : M num UserSchema.doc :=
  let u := {| UserSchema._id := oid;
              UserSchema.name := name;
              UserSchema.email := email;
              UserSchema.password := hash password |} in
  db <- get ;;
  put (set_users db (users db ++ [u])%list) ;;
  ret u.
End Ops.
End User.

(* ------------------------------------------------------------------------- *)
(** ** The routes *)
(* ------------------------------------------------------------------------- *)

(** Request bodies ([req.body]); every field may be [undefined]. *)
Module RequestBody.
Record order (num : Type) : Type := {
  clientId : option string;
  items : option (list (Order.ItemInput num));
  totalPrice : option num
}.
Arguments clientId {num}.
Arguments items {num}.
Arguments totalPrice {num}.

Record credentials : Type := {
  name : option string;
  email : option string;
  password : option string
}.

(** The body of the client routes: [{ name, email }]. *)
Record client : Type := {
  client_name : option string;
  client_email : option string
}.
End RequestBody.

Definition isNull {A} (v : option A) : bool :=
  match v with
  | None => true
  | Some _ => false
  end.

Definition isEmpty {A} (l : list A) : bool :=
  match l with
  | [] => true
  | _ :: _ => false
  end.

(** middleware/authMiddleware.js *)
Module AuthMiddleware.
Section Routes.
Context {num : Type} {JWT : Jwt}.

Definition SECRET_KEY : string := "your_secret_key".

(** [authorization] is [req.header("Authorization")]; [next] gets the
    decoded token that the middleware stores in [req.user]. *)
Definition authMiddleware (now : Z) (authorization : option string)
           (next : Payload -> Handler num) : Handler num :=
  let token := authorization in
  if negb (Js.truthy token) then
    fun db => ({| status := 401; body := Message "Access denied. No token provided." |}, db)
  else
    match verify (Js.replace "Bearer " "" (match token with Some t => t | None => "" end))
                 SECRET_KEY now with
    | Some decoded => next decoded
    | None => fun db => ({| status := 401; body := Message "Invalid token" |}, db)
    end.

(** The same middleware in front of a route that answers with a view. *)
Definition authMiddleware_view {A : Type} (now : Z) (authorization : option string)
           (next : Payload -> Db num -> Views.Answer num A * Db num)
  : Db num -> Views.Answer num A * Db num :=
  let token := authorization in
  if negb (Js.truthy token) then
    fun db => (Views.Refused {| status := 401;
                                body := Message "Access denied. No token provided." |}, db)
  else
    match verify (Js.replace "Bearer " "" (match token with Some t => t | None => "" end))
                 SECRET_KEY now with
    | Some decoded => next decoded
    | None => fun db => (Views.Refused {| status := 401; body := Message "Invalid token" |}, db)
    end.
End Routes.
End AuthMiddleware.

(** routes/clientRoutes.js *)
Module ClientRoutes.
Section Routes.
Context {num : Type} {RE : RegExpEngine}.

(** [req.query] of the list route. *)
Record ListQuery : Type := {
  page : option string;
  limit : option string;
  name : option string;
  email : option string
}.

Definition formatted (client : ClientSchema.doc) : ClientJson :=
  {| Express.id := toString (ClientSchema._id client);
     Express.name := ClientSchema.name client;
     Express.email := ClientSchema.email client |}.

(** [if (v) query.field = new RegExp(v, "i")] *)
Definition filter_of (v : option string) : M num (option (string -> bool)) :=
  if Js.truthy v then
    match RegExp_i (match v with Some s => s | None => "" end) with
    | Some re => ret (Some re)
    | None => throw (SyntaxError (match v with Some s => s | None => "" end))
    end
  else ret None.

(** [let { v = dflt } = req.query; v = parseInt(v)] *)
Definition parsed (dflt : Z) (v : option string) : option Z :=
  match v with
  | Some s => Js.parseInt s
  | None => Some dflt
  end.

(** [router.get("/")] *)
Definition get_root (q : ListQuery) : Handler num :=
  try_catch
    (let page := parsed 1 (page q) in
     let limit := parsed 10 (limit q) in
     qname <- filter_of (name q) ;;
     qemail <- filter_of (email q) ;;
     let query := {| Client.name := qname; Client.email := qemail |} in
     total <- Client.countDocuments query ;;
     clients <- Client.find query (Js.offset page limit) limit ;;
     let formattedClients := map formatted clients in
     send 200 (Page total page limit (Js.ceil_div total limit) formattedClients))
    (fun err => {| status := 500;
                   body := MessageError "Error fetching clients" (message err) |}).

(** [router.get("/:id")] *)
Definition get_id (id : string) : Handler num :=
  try_catch
    (client <- Client.findById (Some id) ;;
     match client with
     | None => send 404 (Message "Client not found")
     | Some c => send 200 (ClientBody (formatted c))
     end)
    (fun err => {| status := 400; body := Message "Invalid ID format" |}).

(** [router.delete("/:id")] *)
Definition delete_id (id : string) : Handler num :=
  try_catch
    (deletedClient <- Client.findByIdAndDelete id ;;
     when_ (isNull deletedClient) (send 404 (Message "Client not found")) ;;
     send 200 (Message "Client deleted successfully"))
    (fun err => {| status := 400; body := Message "Invalid ID format" |}).

(** The text of a field that passed [if (!name || !email)]. *)
Definition text (v : option string) : string :=
  match v with
  | Some s => s
  | None => ""
  end.

(** [router.post("/")]; [oid] is the id generated for the new document. *)
Definition post_root (oid : ObjectId) (body : RequestBody.client) : Handler num :=
  try_catch
    (let name := RequestBody.client_name body in
     let email := RequestBody.client_email body in
     when_ (negb (Js.truthy name) || negb (Js.truthy email))
           (send 400 (Message "Name and email are required")) ;;
     newClient <- Client.save oid (text name) (text email) ;;
     send 201 (ClientBody (formatted newClient)))
    (fun err => {| status := 400; body := Message "Error creating client" |}).

(** [router.put("/:id")] *)
Definition put_id (id : string) (body : RequestBody.client) : Handler num :=
  try_catch
    (let name := RequestBody.client_name body in
     let email := RequestBody.client_email body in
     updatedClient <- Client.findByIdAndUpdate id name email ;;
     match updatedClient with
     | None => send 404 (Message "Client not found")
     | Some c => send 200 (ClientBody (formatted c))
     end)
    (fun err => {| status := 400; body := Message "Invalid ID format" |}).
End Routes.
End ClientRoutes.

(** The pricing loop, written out in each handler that prices items:
[[
    let totalPrice = 0;
    for (let item of items) {
        const product = await Product.findById(item.productId);
        if (!product) return res.status(400).json({ message: `Invalid product ID: ${item.productId}` });
        totalPrice += product.price * item.quantity;
    }
]] *)
Definition price_item {num} {NN : Numeric num}
           (item : Order.ItemInput num) (totalPrice : num) : M num num :=
  product <- Product.findById (Order.productId item) ;;
  match product with
  | None => send 400 (Message ("Invalid product ID: " ++ Order.productId item))
  | Some p => ret (add totalPrice (mul (ProductSchema.price p) (Order.quantity item)))
  end.

Definition totalPrice_loop {num} {NN : Numeric num}
           (items : list (Order.ItemInput num)) : M num num :=
  for_of items price_item zero.

(** routes/orderRoutes.js, the version that prices the items *)
Module OrderRoutes.
Section Routes.
Context {num : Type} {NN : Numeric num}.

(** [router.post("/")]; [oid] is the id generated for the new document and
    [now] the time of the request. *)
Definition post_root (oid : ObjectId) (now : Z) (body : RequestBody.order num)
  : Handler num :=
  try_catch
    (let clientId := RequestBody.clientId body in
     let items := RequestBody.items body in
     clientExists <- Client.findById clientId ;;
     when_ (isNull clientExists) (send 400 (Message "Invalid client ID")) ;;
     items' <- iterable "items" items ;;
     totalPrice <- totalPrice_loop items' ;;
     newOrder <- Order.save oid now
                   {| Order.clientId := clientId;
                      Order.items := items;
                      Order.totalPrice := Some totalPrice |} ;;
     send 201 (OrderBody newOrder))
    (fun err => {| status := 400;
                   body := MessageError "Error creating order" (message err) |}).

(** [router.put("/:id")] *)
Definition put_id (id : string) (body : RequestBody.order num) : Handler num :=
  try_catch
    (let items := RequestBody.items body in
     items' <- iterable "items" items ;;
     totalPrice <- totalPrice_loop items' ;;
     order <- Order.findByIdAndUpdate id items' totalPrice ;;
     match order with
     | None => send 404 (Message "Order not found")
     | Some o => send 200 (OrderBody o)
     end)
    (fun err => {| status := 400;
                   body := MessageError "Error updating order" (message err) |}).

(** [router.delete("/:id")] *)
Definition delete_id (id : string) : Handler num :=
  try_catch
    (order <- Order.findByIdAndDelete id ;;
     when_ (isNull order) (send 404 (Message "Order not found")) ;;
     send 200 (Message "Order deleted successfully"))
    (fun err => {| status := 400; body := Message "Invalid ID format" |}).

(** [req.query] of the list route. *)
Record ListQuery : Type := {
  page : option string;
  limit : option string;
  status : option string
}.

(** The objects that [populate("clientId", "name email")] puts under
    [clientId]: one object per client, shared by the orders of the page that
    have this client ([populate] does not clone what it assigns). *)
Definition Heap : Type := ObjectId -> option Views.ListedClient.t.

Definition populated (db : Db num) : Heap :=
  fun cid =>
    match Order.populate_client db cid with
    | Some c => Some {| Views.ListedClient._id := Some (Views.PopulatedClient._id c);
                        Views.ListedClient.id := None;
                        Views.ListedClient.name := Views.PopulatedClient.name c;
                        Views.ListedClient.email := Views.PopulatedClient.email c |}
    | None => None
    end.

(** One turn of the first [forEach], as far as it writes to a shared object:
[[
    order.client = order.clientId;
    if (order.client) {
        order.client.id = order.client._id;
        delete order.client._id;
    }
]] *)
Definition rename (h : Heap) (order : OrderSchema.doc num) : Heap :=
  fun cid =>
    if (cid =? OrderSchema.clientId order)%N then
      match h cid with
      | Some c => Some {| Views.ListedClient._id := None;
                          Views.ListedClient.id := Views.ListedClient._id c;
                          Views.ListedClient.name := Views.ListedClient.name c;
                          Views.ListedClient.email := Views.ListedClient.email c |}
      | None => None
      end
    else h cid.

(** An order of the list as it is sent, after both loops: [id] for [_id],
    and under [client] the object that the heap has for its client. *)
Definition listed (h : Heap) (db : Db num) (o : OrderSchema.doc num)
  : Views.ListedOrder.t num :=
  {| Views.ListedOrder.id := OrderSchema._id o;
     Views.ListedOrder.client := h (OrderSchema.clientId o);
     Views.ListedOrder.items := Order.populate_items db (OrderSchema.items o);
     Views.ListedOrder.totalPrice := OrderSchema.totalPrice o;
     Views.ListedOrder.status := OrderSchema.status o;
     Views.ListedOrder.createdAt := OrderSchema.createdAt o |}.

(** [router.get("/")] *)
Definition get_root (q : ListQuery)
  : Db num -> Views.Answer num (Views.Page (Views.ListedOrder.t num)) * Db num :=
  Views.try_catch_view
    (let page := ClientRoutes.parsed 1 (page q) in
     let limit := ClientRoutes.parsed 10 (limit q) in
     let query := if Js.truthy (status q) then status q else None in
     total <- Order.countDocuments query ;;
     orders <- Order.find query (Js.offset page limit) limit ;;
     db <- get ;;
     let heap := fold_left rename orders (populated db) in
     ret {| Views.total := total;
            Views.page := page;
            Views.limit := limit;
            Views.totalPages := Js.ceil_div total limit;
            Views.data := map (listed heap db) orders |})
    (fun err => {| Express.status := 500;
                   body := MessageError "Error fetching orders" (message err) |}).

(** An order read by id, after both [populate]s. *)
Definition by_id (db : Db num) (o : OrderSchema.doc num) : Views.OrderById.t num :=
  {| Views.OrderById.id := OrderSchema._id o;
     Views.OrderById.clientId := Order.populate_client db (OrderSchema.clientId o);
     Views.OrderById.items := Order.populate_items db (OrderSchema.items o);
     Views.OrderById.totalPrice := OrderSchema.totalPrice o;
     Views.OrderById.status := OrderSchema.status o;
     Views.OrderById.createdAt := OrderSchema.createdAt o |}.

(** [router.get("/:id")] *)
Definition get_id (id : string)
  : Db num -> Views.Answer num (Views.OrderById.t num) * Db num :=
  Views.try_catch_view
    (order <- Order.findById id ;;
     match order with
     | None => send 404 (Message "Order not found")
     | Some o =>
         db <- get ;;
         ret (by_id db o)
     end)
    (fun err => {| Express.status := 400; body := Message "Invalid ID format" |}).

(** [router.patch("/:id/cancel")] *)
Definition patch_cancel (id : string) : Handler num :=
  try_catch
    (order <- Order.findByIdAndUpdate_status id OrderSchema.canceled ;;
     match order with
     | None => send 404 (Message "Order not found")
     | Some o => send 200 (OrderBody o)
     end)
    (fun err => {| Express.status := 400;
                   body := MessageError "Error canceling order" (message err) |}).

(** An order of a client, products populated. *)
Definition of_client (db : Db num) (o : OrderSchema.doc num) : Views.ClientOrder.t num :=
  {| Views.ClientOrder._id := OrderSchema._id o;
     Views.ClientOrder.clientId := OrderSchema.clientId o;
     Views.ClientOrder.items := Order.populate_items db (OrderSchema.items o);
     Views.ClientOrder.totalPrice := OrderSchema.totalPrice o;
     Views.ClientOrder.status := OrderSchema.status o;
     Views.ClientOrder.createdAt := OrderSchema.createdAt o |}.

(** [router.get("/clients/:clientId/orders")] *)
Definition get_client_orders (clientId : string)
  : Db num -> Views.Answer num (list (Views.ClientOrder.t num)) * Db num :=
  Views.try_catch_view
    (orders <- Order.find_of_client clientId ;;
     db <- get ;;
     ret (map (of_client db) orders))
    (fun err => {| Express.status := 400;
                   body := MessageError "Error fetching client orders" (message err) |}).
End Routes.
End OrderRoutes.

(** routes/orderRoutes.js, the earlier version: the total comes with the
    request. *)
Module OrderRoutesV1.
Section Routes.
Context {num : Type} {NN : Numeric num}.

(** [router.post("/")] *)
Definition post_root (oid : ObjectId) (now : Z) (body : RequestBody.order num)
  : Handler num :=
  try_catch
    (let clientId := RequestBody.clientId body in
     let items := RequestBody.items body in
     let totalPrice := RequestBody.totalPrice body in
     clientExists <- Client.findById clientId ;;
     when_ (isNull clientExists) (send 400 (Message "Invalid client ID")) ;;
     newOrder <- Order.save oid now
                   {| Order.clientId := clientId;
                      Order.items := items;
                      Order.totalPrice := totalPrice |} ;;
     send 201 (OrderBody newOrder))
    (fun err => {| status := 400; body := Message "Error creating order" |}).
End Routes.
End OrderRoutesV1.

(** routes/clientOrdersRoutes.js *)
Module ClientOrdersRoutes.
Section Routes.
Context {num : Type} {NN : Numeric num} {JWT : Jwt}.

(** [import Order, { find, findOne, findOneAndUpdate, findOneAndDelete }
    from "../models/Order"] and [import { findById } from "../models/Product"]:
    the default import is the model; the others are functions of a model,
    taken off it. *)
Definition find (clientId : string) : M num (list (OrderSchema.doc num)) :=
  detached "find".

Definition findOne (orderId clientId : string) : M num (option (OrderSchema.doc num)) :=
  detached "findOne".

Definition findOneAndUpdate (orderId clientId : string)
           (items : list (Order.ItemInput num)) (totalPrice : num)
  : M num (option (OrderSchema.doc num)) :=
  detached "findOneAndUpdate".

Definition findOneAndDelete (orderId clientId : string)
  : M num (option (OrderSchema.doc num)) :=
  detached "findOneAndDelete".

Definition findById (id : string) : M num (option (ProductSchema.doc num)) :=
  detached "findById".

(** The pricing loop of this file: the same loop, with the [findById] of this
    file. *)
Definition price_item (item : Order.ItemInput num) (totalPrice : num) : M num num :=
  product <- findById (Order.productId item) ;;
  match product with
  | None => send 400 (Message ("Invalid product ID: " ++ Order.productId item))
  | Some p => ret (add totalPrice (mul (ProductSchema.price p) (Order.quantity item)))
  end.

Definition totalPrice_loop (items : list (Order.ItemInput num)) : M num num :=
  for_of items price_item zero.

(** The handler of [router.post("/:clientId/orders", authMiddleware, ...)] *)
Definition post_orders_handler (oid : ObjectId) (now : Z) (clientId : string)
           (body : RequestBody.order num) : Handler num :=
  try_catch
    (let items := RequestBody.items body in
     items' <- iterable "items" items ;;
     totalPrice <- totalPrice_loop items' ;;
     newOrder <- Order.save oid now
                   {| Order.clientId := Some clientId;
                      Order.items := items;
                      Order.totalPrice := Some totalPrice |} ;;
     send 201 (OrderBody newOrder))
    (fun err => {| status := 400;
                   body := MessageError "Error creating order" (message err) |}).

(** [router.post("/:clientId/orders", authMiddleware, handler)] *)
Definition post_orders (oid : ObjectId) (now : Z) (authorization : option string)
           (clientId : string) (body : RequestBody.order num) : Handler num :=
  AuthMiddleware.authMiddleware now authorization
    (fun _ => post_orders_handler oid now clientId body).

(** [router.get("/:clientId/orders", authMiddleware, handler)] *)
Definition get_orders (now : Z) (authorization : option string) (clientId : string)
  : Db num -> Views.Answer num (list (Views.ClientOrder.t num)) * Db num :=
  AuthMiddleware.authMiddleware_view now authorization
    (fun _ =>
       Views.try_catch_view
         (orders <- find clientId ;;
          db <- get ;;
          ret (map (OrderRoutes.of_client db) orders))
         (fun err => {| status := 400;
                        body := MessageError "Error fetching client orders" (message err) |})).

(** [router.get("/:clientId/orders/:orderId", authMiddleware, handler)] *)
Definition get_order (now : Z) (authorization : option string) (clientId orderId : string)
  : Db num -> Views.Answer num (Views.ClientOrder.t num) * Db num :=
  AuthMiddleware.authMiddleware_view now authorization
    (fun _ =>
       Views.try_catch_view
         (order <- findOne orderId clientId ;;
          match order with
          | None => send 404 (Message "Order not found")
          | Some o =>
              db <- get ;;
              ret (OrderRoutes.of_client db o)
          end)
         (fun err => {| status := 400;
                        body := MessageError "Error fetching order" (message err) |})).

(** [router.put("/:clientId/orders/:orderId", authMiddleware, handler)] *)
Definition put_order (now : Z) (authorization : option string) (clientId orderId : string)
           (body : RequestBody.order num) : Handler num :=
  AuthMiddleware.authMiddleware now authorization
    (fun _ =>
       try_catch
         (let items := RequestBody.items body in
          items' <- iterable "items" items ;;
          totalPrice <- totalPrice_loop items' ;;
          order <- findOneAndUpdate orderId clientId items' totalPrice ;;
          match order with
          | None => send 404 (Message "Order not found")
          | Some o => send 200 (OrderBody o)
          end)
         (fun err => {| status := 400;
                        body := MessageError "Error updating order" (message err) |})).

(** [router.delete("/:clientId/orders/:orderId", authMiddleware, handler)] *)
Definition delete_order (now : Z) (authorization : option string)
           (clientId orderId : string) : Handler num :=
  AuthMiddleware.authMiddleware now authorization
    (fun _ =>
       try_catch
         (order <- findOneAndDelete orderId clientId ;;
          when_ (isNull order) (send 404 (Message "Order not found")) ;;
          send 200 (Message "Order deleted successfully"))
         (fun err => {| status := 400;
                        body := MessageError "Error deleting order" (message err) |})).
End Routes.
End ClientOrdersRoutes.

(** routes/authRoutes.js *)
Module AuthRoutes.
Section Routes.
Context {num : Type} {JWT : Jwt} {BC : Bcrypt} {VA : Validator}.

Definition SECRET_KEY : string := "your_secret_key".

(** [import User, { findOne } from "../models/User"]: the default import is
    the model; [findOne] is a function of a model, taken off it. *)
Definition findOne (email : option string) : M num (option UserSchema.doc) :=
  detached "findOne".

(** express-validator reads an absent field as the empty string. *)
Definition field (v : option string) : string :=
  match v with
  | Some s => s
  | None => ""
  end.

Definition check (ok : bool) (msg : string) : list string :=
  if ok then [] else [msg].

Definition notEmpty (v : option string) : bool := negb (String.eqb (field v) "").

Definition isLength_min (n : nat) (v : option string) : bool :=
  Nat.leb n (String.length (field v)).

(** [router.post("/register", [...validators], handler)] *)
Definition register (oid : ObjectId) (body : RequestBody.credentials) : Handler num :=
  let errors :=
    (check (notEmpty (RequestBody.name body)) "Name is required"
     ++ check (isEmail (field (RequestBody.email body))) "Valid email is required"
     ++ check (isLength_min 6 (RequestBody.password body))
              "Password must be at least 6 characters long")%list in
  if negb (isEmpty errors) then
    fun db => ({| status := 400; body := Errors errors |}, db)
  else
    try_catch
      (let name := RequestBody.name body in
       let email := RequestBody.email body in
       let password := RequestBody.password body in
       user <- findOne email ;;
       when_ (negb (isNull user)) (send 400 (Message "Email already in use")) ;;
       User.save oid (field name) (field email) (field password) ;;
       send 201 (Message "User registered successfully"))
      (fun err => {| status := 500;
                     body := MessageError "Server error" (message err) |}).

(** [router.post("/login", [...validators], handler)] *)
Definition login (now : Z) (body : RequestBody.credentials) : Handler num :=
  let errors :=
    (check (isEmail (field (RequestBody.email body))) "Valid email is required"
     ++ check (notEmpty (RequestBody.password body)) "Password is required")%list in
  if negb (isEmpty errors) then
    fun db => ({| status := 400; body := Errors errors |}, db)
  else
    try_catch
      (let email := RequestBody.email body in
       let password := RequestBody.password body in
       user <- findOne email ;;
       match user with
       | None => send 400 (Message "Invalid credentials")
       | Some u =>
           let isMatch := compare (field password) (UserSchema.password u) in
           when_ (negb isMatch) (send 400 (Message "Invalid credentials")) ;;
           let token := sign (UserSchema._id u) SECRET_KEY 3600 now in
           send 200 (Token token)
       end)
      (fun err => {| status := 500;
                     body := MessageError "Server error" (message err) |}).
End Routes.
End AuthRoutes.

(* ------------------------------------------------------------------------- *)
(** ** Vocabulary of the specification *)
(* ------------------------------------------------------------------------- *)

Section Pricing.
Context {num : Type} {NN : Numeric num}.

(** A product id of a request resolves when it is an ObjectId and a product
    with this id is stored. *)
Definition resolve (db : Db num) (pid : string) : option (ProductSchema.doc num) :=
  match castObjectId pid with
  | Some oid => lookup ProductSchema._id oid (products db)
  | None => None
  end.

(** The price of each line (unit price times quantity), in the order of the
    items, when every item resolves. *)
Fixpoint line_totals (db : Db num) (items : list (Order.ItemInput num))
  : option (list num) :=
  match items with
  | [] => Some []
  | i :: rest =>
      match resolve db (Order.productId i), line_totals db rest with
      | Some p, Some ls => Some (mul (ProductSchema.price p) (Order.quantity i) :: ls)
      | _, _ => None
      end
  end.

(** The sum of the lines, added from the first to the last, from zero. *)
Definition sum_in_order (lines : list num) : num := fold_left add lines zero.

(** The response to a request whose item [pid] does not resolve: the
    handler's own message when no product has this id, the store's cast
    error, wrapped by the handler's [catch], when [pid] is not an id. *)
Definition invalid_product (wrapper pid : string) : Response num :=
  match castObjectId pid with
  | Some _ => {| status := 400; body := Message ("Invalid product ID: " ++ pid) |}
  | None => {| status := 400;
               body := MessageError wrapper (message (CastError pid "_id" "Product")) |}
  end.

(** What the pricing loop leaves when an item does not resolve: a response
    already sent, or a cast error on its way to the handler's [catch]. *)
Definition unresolved (pid : string) : Outcome num num :=
  match castObjectId pid with
  | Some _ => Sent {| status := 400; body := Message ("Invalid product ID: " ++ pid) |}
  | None => Thrown (CastError pid "_id" "Product")
  end.

(** The document that [save] stores. *)
Definition created (oid : ObjectId) (now : Z) (cid : ObjectId)
           (its : list (OrderSchema.item num)) (t : num) : OrderSchema.doc num :=
  {| OrderSchema._id := oid;
     OrderSchema.clientId := cid;
     OrderSchema.items := its;
     OrderSchema.totalPrice := t;
     OrderSchema.status := OrderSchema.pending;
     OrderSchema.createdAt := now |}.

End Pricing.

(** A response body names [pid] when [pid] occurs in its message or in the
    message of its error. *)
Definition body_names {num} (pid : string) (b : Body num) : bool :=
  match b with
  | Message m => Js.includes pid m
  | MessageError m e => Js.includes pid m || quotes pid e
  | _ => false
  end.

(** What the list route makes of a filter of the query: nothing when the
    value is absent or empty, else the regular expression it compiles to;
    [None] when it does not compile. *)
Definition compiled {RE : RegExpEngine} (v : option string)
  : option (option (string -> bool)) :=
  if Js.truthy v then
    match RegExp_i (match v with Some s => s | None => "" end) with
    | Some re => Some (Some re)
    | None => None
    end
  else Some None.

(** Each stored document has its own id. *)
Definition unique_ids {A} (key : A -> ObjectId) (docs : list A) : Prop :=
  NoDup (map key docs).

(** *** Vocabulary for the other routes *)

(** A stored client has this email. *)
Definition email_taken {num} (db : Db num) (e : string) : bool :=
  existsb (fun c => String.eqb (ClientSchema.email c) e) (clients db).

(** The client that a creation stores. *)
Definition new_client (oid : ObjectId) (n e : string) : ClientSchema.doc :=
  {| ClientSchema._id := oid; ClientSchema.name := n; ClientSchema.email := e |}.

(** A stored client other than the one of id [oid] has this email. *)
Definition email_of_another {num} (db : Db num) (oid : ObjectId) (e : string) : bool :=
  existsb (fun d => negb (ClientSchema._id d =? oid)%N
                    && String.eqb (ClientSchema.email d) e) (clients db).

(** The clients that meet the compiled filters, in stored order. *)
Definition matching {num} (fn fe : option (string -> bool)) (db : Db num)
  : list ClientSchema.doc :=
  filter (Client.matches {| Client.name := fn; Client.email := fe |}) (clients db).

(** The same list query for another page. *)
Definition with_page (q : ClientRoutes.ListQuery) (s : string) : ClientRoutes.ListQuery :=
  {| ClientRoutes.page := Some s;
     ClientRoutes.limit := ClientRoutes.limit q;
     ClientRoutes.name := ClientRoutes.name q;
     ClientRoutes.email := ClientRoutes.email q |}.

(** The [data] of a page of clients. *)
Definition data_of {num} (r : Response num) : list ClientJson :=
  match body r with
  | Page _ _ _ _ data => data
  | _ => []
  end.

(** What the authentication middleware decides for a header: the 401 it
    answers, or the decoded token it lets through. *)
Definition gate {num} {JWT : Jwt} (now : Z) (authorization : option string)
  : Response num + Payload :=
  if negb (Js.truthy authorization) then
    inl {| status := 401; body := Message "Access denied. No token provided." |}
  else
    match verify (Js.replace "Bearer " "" (match authorization with Some t => t | None => "" end))
                 AuthMiddleware.SECRET_KEY now with
    | Some decoded => inr decoded
    | None => inl {| status := 401; body := Message "Invalid token" |}
    end.

(** The orders that the list route counts for a [status] of the query. *)
Definition with_status_of {num} (status : option string) (db : Db num)
  : list (OrderSchema.doc num) :=
  filter (Order.has_status (if Js.truthy status then status else None)) (orders db).

(** The text is one of the four statuses of the schema. *)
Definition known_status (s : string) : bool :=
  existsb (fun k => String.eqb (Order.status_name k) s)
          [OrderSchema.pending; OrderSchema.shipped; OrderSchema.delivered;
           OrderSchema.canceled].

(** How many of these orders have this client. *)
Definition with_client {num} (cid : ObjectId) (l : list (OrderSchema.doc num)) : nat :=
  List.length (filter (fun o => (OrderSchema.clientId o =? cid)%N) l).

(** No two stored clients share an email. *)
Definition unique_emails (docs : list ClientSchema.doc) : Prop :=
  NoDup (map ClientSchema.email docs).

(** The handlers of the routes that can write: every POST, PUT, PATCH and
    DELETE of the routers, for any parameters and body. *)
Inductive writes {num} {NN : Numeric num} {JWT : Jwt} {BC : Bcrypt} {VA : Validator}
  : Handler num -> Prop :=
| writes_client_post (oid : ObjectId) (body : RequestBody.client) :
    writes (ClientRoutes.post_root oid body)
| writes_client_put (id : string) (body : RequestBody.client) :
    writes (ClientRoutes.put_id id body)
| writes_client_delete (id : string) :
    writes (ClientRoutes.delete_id id)
| writes_order_post (oid : ObjectId) (now : Z) (body : RequestBody.order num) :
    writes (OrderRoutes.post_root oid now body)
| writes_order_post_v1 (oid : ObjectId) (now : Z) (body : RequestBody.order num) :
    writes (OrderRoutesV1.post_root oid now body)
| writes_order_put (id : string) (body : RequestBody.order num) :
    writes (OrderRoutes.put_id id body)
| writes_order_cancel (id : string) :
    writes (OrderRoutes.patch_cancel id)
| writes_order_delete (id : string) :
    writes (OrderRoutes.delete_id id)
| writes_scoped_post (oid : ObjectId) (now : Z) (authorization : option string)
                     (clientId : string) (body : RequestBody.order num) :
    writes (ClientOrdersRoutes.post_orders oid now authorization clientId body)
| writes_scoped_put (now : Z) (authorization : option string) (clientId orderId : string)
                    (body : RequestBody.order num) :
    writes (ClientOrdersRoutes.put_order now authorization clientId orderId body)
| writes_scoped_delete (now : Z) (authorization : option string)
                       (clientId orderId : string) :
    writes (ClientOrdersRoutes.delete_order now authorization clientId orderId)
| writes_register (oid : ObjectId) (body : RequestBody.credentials) :
    writes (AuthRoutes.register oid body)
| writes_login (now : Z) (body : RequestBody.credentials) :
    writes (AuthRoutes.login now body).

(* ------------------------------------------------------------------------- *)
(** ** Reference implementations of the interfaces, and sample data *)
(* ------------------------------------------------------------------------- *)

Module Sample.

(** A token is the letter [t] followed by the user id in unary; it never
    expires and ignores the secret. Enough to run the routes. *)
Fixpoint ones (n : nat) : string :=
  match n with
  | O => EmptyString
  | S n' => String "1" (ones n')
  end.

Fixpoint all_ones (s : string) : bool :=
  match s with
  | EmptyString => true
  | String c s' => Ascii.eqb c "1" && all_ones s'
  end.

Definition unary_sign (uid : ObjectId) (secret : string) (ttl now : Z) : string :=
  String "t" (ones (N.to_nat uid)).

Definition unary_verify (token secret : string) (now : Z) : option Payload :=
  match token with
  | String "t" r =>
      if all_ones r
      then Some {| userId := N.of_nat (String.length r); iat := 0; exp := 0 |}
      else None
  | _ => None
  end.

#[export] Instance unary_jwt : Jwt.
Proof.
  refine {| sign := unary_sign; verify := unary_verify |}.
  - intros uid secret ttl now t _. unfold unary_sign, unary_verify.
    assert (Hones : forall n, all_ones (ones n) = true)
      by (induction n as [|n IH]; simpl; auto).
    assert (Hlen : forall n, String.length (ones n) = n)
      by (induction n as [|n IH]; simpl; auto).
    rewrite Hones, Hlen, N2Nat.id. eexists. split; reflexivity.
  - intros token secret t p. unfold unary_verify.
    assert (Hns : forall s, all_ones s = true -> no_space s = true).
    { induction s as [|c s IH]; simpl; auto.
      intros H. apply andb_true_iff in H. destruct H as [Hc Hs].
      apply Ascii.eqb_eq in Hc. subst c. simpl. auto. }
    destruct token as [|c r]; [discriminate|].
    destruct (Ascii.eqb_spec c "t") as [->|Hc].
    + destruct (all_ones r) eqn:E; [|discriminate].
      intros _. split; [discriminate|].
      simpl. apply Hns. exact E.
    + intros H. exfalso.
      destruct c as [[] [] [] [] [] [] [] []]; try discriminate H.
      apply Hc. reflexivity.
Defined.

(** The digest is the password behind a fixed prefix. *)
#[export] Instance prefix_bcrypt : Bcrypt.
Proof.
  refine {| hash := fun p => "$2a$" ++ p;
            compare := fun p d => String.eqb ("$2a$" ++ p) d |}.
  intros p. apply String.eqb_refl.
Defined.

(** An address is anything with an at sign. *)
#[export] Instance at_validator : Validator := {| isEmail := Js.includes "@" |}.

(** A pattern without operators: a substring test. *)
#[export] Instance substring_regexp : RegExpEngine :=
  {| RegExp_i := fun src => Some (Js.includes src) |}.

Definition john : ClientSchema.doc :=
  {| ClientSchema._id := 1%N; ClientSchema.name := "John Doe";
     ClientSchema.email := "john@example.com" |}.
Definition jane : ClientSchema.doc :=
  {| ClientSchema._id := 2%N; ClientSchema.name := "Jane Smith";
     ClientSchema.email := "jane@example.com" |}.
Definition alice : ClientSchema.doc :=
  {| ClientSchema._id := 3%N; ClientSchema.name := "Alice Brown";
     ClientSchema.email := "alice@example.com" |}.

Definition P1 : ProductSchema.doc Z :=
  {| ProductSchema._id := 16%N; ProductSchema.name := "P1"; ProductSchema.price := 10 |}.

(** The seeded clients and one product; no order, no user. *)
Definition db : Db Z :=
  {| clients := [john; jane; alice]; products := [P1]; orders := []; users := [] |}.

(** A downstream handler. *)
Definition ok_handler : Payload -> Handler Z :=
  fun decoded db => ({| status := 200; body := Message "ok" |}, db).

Definition id1 : string := "000000000000000000000001".
Definition id9 : string := "000000000000000000000009".
Definition idP1 : string := "000000000000000000000010".
Definition idP2 : string := "000000000000000000000011".

(** The second page of pages of one client. *)
Definition second_of_one : ClientRoutes.ListQuery :=
  {| ClientRoutes.page := Some "2"; ClientRoutes.limit := Some "1";
     ClientRoutes.name := None; ClientRoutes.email := None |}.

(** Page zero, default limit. *)
Definition page_zero : ClientRoutes.ListQuery :=
  {| ClientRoutes.page := Some "0"; ClientRoutes.limit := None;
     ClientRoutes.name := None; ClientRoutes.email := None |}.

(** Two units of [P1] for the first client; the caller also sends a total. *)
Definition two_P1 : RequestBody.order Z :=
  {| RequestBody.clientId := Some id1;
     RequestBody.items := Some [ {| Order.productId := idP1; Order.quantity := 2 |} ];
     RequestBody.totalPrice := Some 999 |}.

(** A client and a product that are not stored. *)
Definition unknown_client_and_product : RequestBody.order Z :=
  {| RequestBody.clientId := Some id9;
     RequestBody.items := Some [ {| Order.productId := idP2; Order.quantity := 1 |} ];
     RequestBody.totalPrice := None |}.

(** A product that is not stored, after one that is. *)
Definition known_then_unknown_product : RequestBody.order Z :=
  {| RequestBody.clientId := Some id1;
     RequestBody.items := Some [ {| Order.productId := idP1; Order.quantity := 2 |};
                                 {| Order.productId := idP2; Order.quantity := 1 |} ];
     RequestBody.totalPrice := None |}.

(** No item at all. *)
Definition no_item : RequestBody.order Z :=
  {| RequestBody.clientId := Some id1;
     RequestBody.items := Some [];
     RequestBody.totalPrice := None |}.

(** A client to create. *)
Definition ann : RequestBody.client :=
  {| RequestBody.client_name := Some "Ann";
     RequestBody.client_email := Some "ann@example.com" |}.

(** An order of John, pending, and an order of Jane, delivered. *)
Definition order100 : OrderSchema.doc Z :=
  created 100%N 5 1%N [ {| OrderSchema.productId := 16%N; OrderSchema.quantity := 2 |} ] 20.

Definition order101 : OrderSchema.doc Z :=
  Order.with_status OrderSchema.delivered
    (created 101%N 6 2%N [ {| OrderSchema.productId := 16%N; OrderSchema.quantity := 1 |} ] 10).

Definition db_orders : Db Z := set_orders db [order100; order101].

(** A second order of John, and the three orders together. *)
Definition order102 : OrderSchema.doc Z := created 102%N 7 1%N [] 0.

Definition db_two_of_john : Db Z := set_orders db [order100; order101; order102].

(** The first page of all orders. *)
Definition all_orders : OrderRoutes.ListQuery :=
  {| OrderRoutes.page := None; OrderRoutes.limit := None; OrderRoutes.status := None |}.

Definition id2 : string := "000000000000000000000002".
Definition id100 : string := "000000000000000000000064".
Definition id101 : string := "000000000000000000000065".

(** The orders of a status, first page. *)
Definition of_status (s : string) : OrderRoutes.ListQuery :=
  {| OrderRoutes.page := None; OrderRoutes.limit := None; OrderRoutes.status := Some s |}.

(** A list query for a limit, without filters. *)
Definition limited (l : string) : ClientRoutes.ListQuery :=
  {| ClientRoutes.page := None; ClientRoutes.limit := Some l;
     ClientRoutes.name := None; ClientRoutes.email := None |}.

(** One item for a stored product, with the quantity zero. *)
Definition none_of_P1 : RequestBody.order Z :=
  {| RequestBody.clientId := Some id1;
     RequestBody.items := Some [ {| Order.productId := idP1; Order.quantity := 0 |} ];
     RequestBody.totalPrice := None |}.

(** The credentials of a registration and of the login that follows it. *)
Definition ann_credentials : RequestBody.credentials :=
  {| RequestBody.name := Some "Ann"; RequestBody.email := Some "ann@example.com";
     RequestBody.password := Some "secret1" |}.

End Sample.

(* ------------------------------------------------------------------------- *)
(** ** Facts about the built-ins and about collections *)
(* ------------------------------------------------------------------------- *)

Lemma replace_unfold (pat rep s : string) :
  Js.replace pat rep s =
  if String.prefix pat s then rep ++ Js.drop (String.length pat) s
  else match s with
       | EmptyString => EmptyString
       | String c s' => String c (Js.replace pat rep s')
       end.
Proof. destruct s; reflexivity. Qed.

Lemma prefix_app (p s : string) : String.prefix p (p ++ s) = true.
Proof.
  induction p as [|c p IH]; simpl.
  - destruct s; reflexivity.
  - destruct (ascii_dec c c) as [_|N]; [exact IH | contradiction].
Qed.

Lemma prefix_split (p s : string) :
  String.prefix p s = true -> exists r, s = p ++ r.
Proof.
  revert s. induction p as [|c p IH]; intros s H.
  - exists s. reflexivity.
  - destruct s as [|d s]; simpl in H; [discriminate|].
    destruct (ascii_dec c d) as [->|_]; [|discriminate].
    destruct (IH s H) as [r ->]. exists r. reflexivity.
Qed.

Lemma drop_app (p s : string) : Js.drop (String.length p) (p ++ s) = s.
Proof. induction p as [|c p IH]; simpl; [destruct s; reflexivity | exact IH]. Qed.

(** Replacing at the very start: whatever follows is left as it is. *)
Lemma replace_at_start (pat s : string) : Js.replace pat "" (pat ++ s) = s.
Proof. rewrite replace_unfold, prefix_app, drop_app. reflexivity. Qed.

Lemma no_space_app (s1 s2 : string) :
  no_space (s1 ++ s2) = no_space s1 && no_space s2.
Proof.
  induction s1 as [|c s1 IH]; simpl; [reflexivity|].
  rewrite IH. apply andb_assoc.
Qed.

Lemma bearer_has_space (s : string) :
  String.prefix "Bearer " s = true -> no_space s = false.
Proof.
  intros H. destruct (prefix_split _ _ H) as [r ->].
  rewrite no_space_app. reflexivity.
Qed.

(** A text without a space has no occurrence of the pattern. *)
Lemma replace_no_space (s : string) :
  no_space s = true -> Js.replace "Bearer " "" s = s.
Proof.
  induction s as [|c s IH]; intros H.
  - reflexivity.
  - rewrite replace_unfold.
    destruct (String.prefix "Bearer " (String c s)) eqn:E.
    + apply bearer_has_space in E. congruence.
    + simpl in H. apply andb_true_iff in H. destruct H as [_ H].
      rewrite (IH H). reflexivity.
Qed.

Lemma prefix_cons_eqb (c d : ascii) (p s : string) :
  String.prefix (String c p) (String d s) = Ascii.eqb c d && String.prefix p s.
Proof.
  simpl. destruct (ascii_dec c d) as [->|N].
  - rewrite Ascii.eqb_refl. reflexivity.
  - apply Ascii.eqb_neq in N. rewrite N. reflexivity.
Qed.

(** One character of a prefix test against a text that starts with a known
    or an unknown character. *)
Ltac peel E :=
  cbn [String.append] in E;
  rewrite prefix_cons_eqb in E; apply andb_true_iff in E;
  let e := fresh "e" in
  destruct E as [e E]; apply Ascii.eqb_eq in e;
  first [discriminate e | subst].

(** The first occurrence is the one that goes. *)
Lemma replace_first_occurrence (before after : string) :
  no_space before = true ->
  Js.replace "Bearer " "" (before ++ "Bearer " ++ after) = before ++ after.
Proof.
  induction before as [|c before IH]; intros H.
  - apply (replace_at_start "Bearer " after).
  - rewrite replace_unfold.
    destruct (String.prefix "Bearer " (String c before ++ "Bearer " ++ after)) eqn:E.
    + exfalso. clear IH.
      change (String c before ++ "Bearer " ++ after)
        with (String c (before ++ "Bearer " ++ after)) in E.
      peel E.
      do 6 (destruct before as [|? before]; [solve [peel E] | peel E]).
      simpl in H. discriminate H.
    + simpl in H. apply andb_true_iff in H. destruct H as [_ H].
      change (String c before ++ "Bearer " ++ after)
        with (String c (before ++ "Bearer " ++ after)).
      cbv beta iota. rewrite (IH H). reflexivity.
Qed.

Section CollectionFacts.
Context {A : Type} (key : A -> ObjectId).

Lemma lookup_absent (oid : ObjectId) (docs : list A) :
  ~ In oid (map key docs) -> lookup key oid docs = None.
Proof.
  induction docs as [|d docs IH]; simpl; intros H; [reflexivity|].
  destruct (N.eqb_spec (key d) oid) as [E|_].
  - exfalso. apply H. left. exact E.
  - apply IH. intros HI. apply H. right. exact HI.
Qed.

Lemma lookup_found (oid : ObjectId) (docs : list A) (d : A) :
  lookup key oid docs = Some d -> In d docs /\ key d = oid.
Proof.
  induction docs as [|x docs IH]; simpl; [discriminate|].
  destruct (N.eqb_spec (key x) oid) as [E|_].
  - intros [= <-]. split; [left; reflexivity | exact E].
  - intros H. destruct (IH H) as [HI HK]. split; [right; exact HI | exact HK].
Qed.

(** Once the document with an id is removed, no document has this id. *)
Lemma lookup_remove (oid : ObjectId) (docs : list A) :
  unique_ids key docs -> lookup key oid (remove key oid docs) = None.
Proof.
  unfold unique_ids.
  induction docs as [|d docs IH]; simpl; intros H; [reflexivity|].
  inversion H as [|k ks Hnotin Hrest]; subst.
  destruct (N.eqb_spec (key d) oid) as [E|N].
  - apply lookup_absent. rewrite <- E. exact Hnotin.
  - simpl. destruct (N.eqb_spec (key d) oid) as [E|_]; [contradiction|].
    apply IH. exact Hrest.
Qed.

Lemma lookup_modify (oid : ObjectId) (f : A -> A) (docs : list A) :
  (forall d, key (f d) = key d) ->
  lookup key oid (modify key oid f docs) = option_map f (lookup key oid docs).
Proof.
  intros Hf. induction docs as [|d docs IH]; simpl; [reflexivity|].
  destruct (N.eqb_spec (key d) oid) as [E|N]; simpl.
  - rewrite Hf. rewrite (proj2 (N.eqb_eq _ _) E). reflexivity.
  - rewrite (proj2 (N.eqb_neq _ _) N). exact IH.
Qed.
End CollectionFacts.

(** Unfolds a handler down to the tests it makes. *)
Ltac run :=
  unfold try_catch, bind, ret, get, put, throw, send, when_, iterable; cbn.

(* ------------------------------------------------------------------------- *)
(** ** The authentication middleware *)
(* ------------------------------------------------------------------------- *)

Section AuthMiddlewareFacts.
Context {num : Type} {JWT : Jwt}.

Lemma truthy_nonempty (s : string) : s <> "" -> Js.truthy (Some s) = true.
Proof. destruct s; [contradiction | reflexivity]. Qed.

(** C5, amended. A header that is absent or empty is answered 401 with
    "Access denied. No token provided."; a non-empty header whose token,
    once the first "Bearer " is removed, fails verification is answered 401
    with "Invalid token"; in both cases the answer and the database do not
    depend on the downstream handler, which is not run. When verification
    succeeds the downstream handler runs, with the decoded token as the
    request's user. *)
Theorem authMiddleware_gate (now : Z) (authorization : option string)
        (next : Payload -> Handler num) (db : Db num) :
  (authorization = None \/ authorization = Some "" ->
   AuthMiddleware.authMiddleware now authorization next db =
   ({| status := 401; body := Message "Access denied. No token provided." |}, db))
  /\ (forall token,
         authorization = Some token -> token <> "" ->
         verify (Js.replace "Bearer " "" token) AuthMiddleware.SECRET_KEY now = None ->
         AuthMiddleware.authMiddleware now authorization next db =
         ({| status := 401; body := Message "Invalid token" |}, db))
  /\ (forall token decoded,
         authorization = Some token -> token <> "" ->
         verify (Js.replace "Bearer " "" token) AuthMiddleware.SECRET_KEY now = Some decoded ->
         AuthMiddleware.authMiddleware now authorization next db = next decoded db).
Proof.
  unfold AuthMiddleware.authMiddleware. repeat split.
  - intros [-> | ->]; reflexivity.
  - intros token -> Hne Hv. rewrite (truthy_nonempty _ Hne). simpl.
    rewrite Hv. reflexivity.
  - intros token decoded -> Hne Hv. rewrite (truthy_nonempty _ Hne). simpl.
    rewrite Hv. reflexivity.
Qed.

(** C10. A token that verifies is accepted as the whole header, without
    the "Bearer " prefix, exactly as it is accepted behind the prefix: in both
    cases the downstream handler runs with the same decoded token. Only the
    first occurrence of "Bearer " is removed: what follows an occurrence at
    the start is kept whatever it is, and an occurrence after a text without
    spaces is the one removed. *)
Theorem bearer_prefix_not_required (now : Z) (t : string) (decoded : Payload)
        (next : Payload -> Handler num) (db : Db num) :
  verify t AuthMiddleware.SECRET_KEY now = Some decoded ->
  AuthMiddleware.authMiddleware now (Some t) next db = next decoded db
  /\ AuthMiddleware.authMiddleware now (Some ("Bearer " ++ t)) next db = next decoded db
  /\ (forall rest, Js.replace "Bearer " "" ("Bearer " ++ rest) = rest)
  /\ (forall before after,
         no_space before = true ->
         Js.replace "Bearer " "" (before ++ "Bearer " ++ after) = before ++ after).
Proof.
  intros Hv. destruct (verify_compact _ _ _ _ Hv) as [Hne Hns].
  unfold AuthMiddleware.authMiddleware. repeat split.
  - rewrite (truthy_nonempty _ Hne). simpl.
    rewrite (replace_no_space _ Hns), Hv. reflexivity.
  - change (Js.truthy (Some ("Bearer " ++ t))) with true. simpl negb. cbv iota.
    rewrite (replace_at_start "Bearer " t), Hv. reflexivity.
  - intros rest. apply (replace_at_start "Bearer " rest).
  - intros before after. apply replace_first_occurrence.
Qed.
End AuthMiddlewareFacts.

Lemma authMiddleware_gate_witness :
  AuthMiddleware.authMiddleware (JWT := Sample.unary_jwt) 0 None Sample.ok_handler Sample.db =
  ({| status := 401; body := Message "Access denied. No token provided." |}, Sample.db)
  /\ AuthMiddleware.authMiddleware (JWT := Sample.unary_jwt) 0 (Some "Bearer x") Sample.ok_handler Sample.db =
     ({| status := 401; body := Message "Invalid token" |}, Sample.db)
  /\ AuthMiddleware.authMiddleware (JWT := Sample.unary_jwt) 0 (Some "Bearer t1") Sample.ok_handler Sample.db =
     Sample.ok_handler {| userId := 1%N; iat := 0; exp := 0 |} Sample.db.
Proof.
  split; [|split].
  - apply (proj1 (authMiddleware_gate (JWT := Sample.unary_jwt) 0 None Sample.ok_handler Sample.db)).
    left. reflexivity.
  - apply (proj1 (proj2 (authMiddleware_gate (JWT := Sample.unary_jwt) 0 (Some "Bearer x")
                           Sample.ok_handler Sample.db)) "Bearer x");
      [reflexivity | discriminate | reflexivity].
  - apply (proj2 (proj2 (authMiddleware_gate (JWT := Sample.unary_jwt) 0 (Some "Bearer t1")
                           Sample.ok_handler Sample.db)) "Bearer t1");
      [reflexivity | discriminate | reflexivity].
Defined.

(** C5 as stated fails for a header that is present and empty: its token does
    not verify, yet the answer is the one for a missing header, not
    "Invalid token". *)
Lemma empty_authorization_header :
  verify (Jwt := Sample.unary_jwt) (Js.replace "Bearer " "" "") AuthMiddleware.SECRET_KEY 0 = None
  /\ AuthMiddleware.authMiddleware (JWT := Sample.unary_jwt) 0 (Some "") Sample.ok_handler Sample.db =
     ({| status := 401; body := Message "Access denied. No token provided." |}, Sample.db)
  /\ AuthMiddleware.authMiddleware (JWT := Sample.unary_jwt) 0 (Some "") Sample.ok_handler Sample.db <>
     ({| status := 401; body := Message "Invalid token" |}, Sample.db).
Proof. split; [|split]; [reflexivity | reflexivity | discriminate]. Qed.

Lemma bearer_prefix_not_required_witness :
  verify (Jwt := Sample.unary_jwt) "t1" AuthMiddleware.SECRET_KEY 0
  = Some {| userId := 1%N; iat := 0; exp := 0 |}
  /\ AuthMiddleware.authMiddleware (JWT := Sample.unary_jwt) 0 (Some "t1") Sample.ok_handler Sample.db
     = Sample.ok_handler {| userId := 1%N; iat := 0; exp := 0 |} Sample.db
  /\ AuthMiddleware.authMiddleware (JWT := Sample.unary_jwt) 0 (Some "Bearer t1") Sample.ok_handler Sample.db
     = Sample.ok_handler {| userId := 1%N; iat := 0; exp := 0 |} Sample.db.
Proof.
  split; [reflexivity|].
  pose proof (bearer_prefix_not_required (JWT := Sample.unary_jwt) 0 "t1"
                {| userId := 1%N; iat := 0; exp := 0 |} Sample.ok_handler Sample.db eq_refl)
    as [H1 [H2 _]].
  split; [exact H1 | exact H2].
Defined.

(* ------------------------------------------------------------------------- *)
(** ** Reading and deleting by id *)
(* ------------------------------------------------------------------------- *)

Section ByIdFacts.
Context {num : Type}.

(** C8. Reading a client by id tells the two failures apart: an id that is
    an ObjectId but is the id of no stored client is answered 404
    "Client not found"; a text that is not an ObjectId is answered 400
    "Invalid ID format". Neither changes the database. *)
Theorem get_id_not_found_or_invalid (id : string) (db : Db num) :
  (forall oid,
      castObjectId id = Some oid ->
      lookup ClientSchema._id oid (clients db) = None ->
      ClientRoutes.get_id id db =
      ({| status := 404; body := Message "Client not found" |}, db))
  /\ (castObjectId id = None ->
      ClientRoutes.get_id id db =
      ({| status := 400; body := Message "Invalid ID format" |}, db)).
Proof.
  unfold ClientRoutes.get_id, Client.findById. split.
  - intros oid Hc Hl. run. rewrite Hc. cbn. rewrite Hl. reflexivity.
  - intros Hc. run. rewrite Hc. reflexivity.
Qed.

Lemma client_delete_absent (id : string) (oid : ObjectId) (db : Db num) :
  castObjectId id = Some oid ->
  lookup ClientSchema._id oid (clients db) = None ->
  ClientRoutes.delete_id id db =
  ({| status := 404; body := Message "Client not found" |}, db).
Proof.
  intros Hc Hl. unfold ClientRoutes.delete_id, Client.findByIdAndDelete. run.
  rewrite Hc. cbn. rewrite Hl. reflexivity.
Qed.

Lemma order_delete_absent (id : string) (oid : ObjectId) (db : Db num) :
  castObjectId id = Some oid ->
  lookup OrderSchema._id oid (orders db) = None ->
  OrderRoutes.delete_id id db =
  ({| status := 404; body := Message "Order not found" |}, db).
Proof.
  intros Hc Hl. unfold OrderRoutes.delete_id, Order.findByIdAndDelete. run.
  rewrite Hc. cbn. rewrite Hl. reflexivity.
Qed.

(** C9. For an id that is an ObjectId, in a store where each document has
    its own id: whatever the first delete answers, a second delete of the
    same id is answered 404 and leaves the database as it found it, for
    clients and for orders; and a delete of an id that no stored document has
    is answered 404, not with an error, and changes nothing. *)
Theorem delete_twice_not_found (id : string) (oid : ObjectId) (db : Db num) :
  castObjectId id = Some oid ->
  unique_ids ClientSchema._id (clients db) ->
  unique_ids OrderSchema._id (orders db) ->
  (forall r db1,
      ClientRoutes.delete_id id db = (r, db1) ->
      ClientRoutes.delete_id id db1 =
      ({| status := 404; body := Message "Client not found" |}, db1))
  /\ (forall r db1,
         OrderRoutes.delete_id id db = (r, db1) ->
         OrderRoutes.delete_id id db1 =
         ({| status := 404; body := Message "Order not found" |}, db1))
  /\ (lookup ClientSchema._id oid (clients db) = None ->
      ClientRoutes.delete_id id db =
      ({| status := 404; body := Message "Client not found" |}, db))
  /\ (lookup OrderSchema._id oid (orders db) = None ->
      OrderRoutes.delete_id id db =
      ({| status := 404; body := Message "Order not found" |}, db)).
Proof.
  intros Hc Uc Uo. repeat split.
  - intros r db1 H. apply (client_delete_absent id oid db1 Hc).
    revert H. unfold ClientRoutes.delete_id, Client.findByIdAndDelete. run.
    rewrite Hc. cbn.
    destruct (lookup ClientSchema._id oid (clients db)) as [d|] eqn:Hl; cbn;
      intros [= _ <-]; cbn.
    + apply lookup_remove. exact Uc.
    + exact Hl.
  - intros r db1 H. apply (order_delete_absent id oid db1 Hc).
    revert H. unfold OrderRoutes.delete_id, Order.findByIdAndDelete. run.
    rewrite Hc. cbn.
    destruct (lookup OrderSchema._id oid (orders db)) as [d|] eqn:Hl; cbn;
      intros [= _ <-]; cbn.
    + apply lookup_remove. exact Uo.
    + exact Hl.
  - apply client_delete_absent. exact Hc.
  - apply order_delete_absent. exact Hc.
Qed.
End ByIdFacts.

Lemma get_id_not_found_or_invalid_witness :
  ClientRoutes.get_id Sample.id9 Sample.db =
  ({| status := 404; body := Message "Client not found" |}, Sample.db)
  /\ ClientRoutes.get_id "not-an-id" Sample.db =
     ({| status := 400; body := Message "Invalid ID format" |}, Sample.db).
Proof.
  split.
  - apply (proj1 (get_id_not_found_or_invalid Sample.id9 Sample.db) 9%N); reflexivity.
  - apply (proj2 (get_id_not_found_or_invalid "not-an-id" Sample.db)); reflexivity.
Defined.

Lemma delete_twice_not_found_witness :
  ClientRoutes.delete_id Sample.id1 Sample.db =
  ({| status := 200; body := Message "Client deleted successfully" |},
   set_clients Sample.db [Sample.jane; Sample.alice])
  /\ ClientRoutes.delete_id Sample.id1 (set_clients Sample.db [Sample.jane; Sample.alice]) =
     ({| status := 404; body := Message "Client not found" |},
      set_clients Sample.db [Sample.jane; Sample.alice])
  /\ OrderRoutes.delete_id Sample.id1 Sample.db =
     ({| status := 404; body := Message "Order not found" |}, Sample.db).
Proof.
  assert (Uc : unique_ids ClientSchema._id (clients Sample.db)).
  { unfold unique_ids. simpl. repeat constructor; simpl; intuition discriminate. }
  assert (Uo : unique_ids OrderSchema._id (orders (num := Z) Sample.db)).
  { unfold unique_ids. simpl. constructor. }
  pose proof (delete_twice_not_found Sample.id1 1%N Sample.db eq_refl Uc Uo)
    as [H1 [_ [_ H4]]].
  split; [reflexivity|]. split.
  - apply (H1 {| status := 200; body := Message "Client deleted successfully" |}).
    reflexivity.
  - apply H4. reflexivity.
Defined.

(* ------------------------------------------------------------------------- *)
(** ** Pricing *)
(* ------------------------------------------------------------------------- *)

Lemma includes_unfold (pat s : string) :
  Js.includes pat s =
  String.prefix pat s || match s with
                         | EmptyString => false
                         | String _ s' => Js.includes pat s'
                         end.
Proof. destruct s; reflexivity. Qed.

Lemma includes_here (pat after : string) : Js.includes pat (pat ++ after) = true.
Proof. rewrite includes_unfold, prefix_app. reflexivity. Qed.

Lemma includes_later (pat before s : string) :
  Js.includes pat s = true -> Js.includes pat (before ++ s) = true.
Proof.
  intros H. induction before as [|c before IH]; [exact H|].
  change (String c before ++ s) with (String c (before ++ s)).
  rewrite includes_unfold, IH. apply orb_true_r.
Qed.

Lemma append_empty_r (s : string) : s ++ "" = s.
Proof. induction s as [|c s IH]; cbn; [reflexivity | rewrite IH; reflexivity]. Qed.

Section PricingFacts.
Context {num : Type} {NN : Numeric num}.

Lemma loop_step_resolved (db : Db num) (i : Order.ItemInput num)
      (rest : list (Order.ItemInput num)) (p : ProductSchema.doc num) (acc : num) :
  resolve db (Order.productId i) = Some p ->
  for_of (i :: rest) price_item acc db =
  for_of rest price_item (add acc (mul (ProductSchema.price p) (Order.quantity i))) db.
Proof.
  unfold resolve. intros H. cbn [for_of].
  unfold bind at 1. unfold price_item, Product.findById.
  destruct (castObjectId (Order.productId i)) as [oid|]; [|discriminate].
  unfold bind, get, ret. rewrite H. reflexivity.
Qed.

Lemma loop_step_unresolved (db : Db num) (i : Order.ItemInput num)
      (rest : list (Order.ItemInput num)) (acc : num) :
  resolve db (Order.productId i) = None ->
  for_of (i :: rest) price_item acc db = (unresolved (Order.productId i), db).
Proof.
  unfold resolve, unresolved. intros H. cbn [for_of].
  unfold bind at 1. unfold price_item, Product.findById.
  destruct (castObjectId (Order.productId i)) as [oid|].
  - unfold bind, get, ret. rewrite H. reflexivity.
  - reflexivity.
Qed.

(** When every item resolves the loop ends with the sum of the lines, added
    in order to the starting value, and the database as it was. *)
Lemma loop_all_resolved (db : Db num) (items : list (Order.ItemInput num)) :
  forall (lines : list num) (acc : num),
    line_totals db items = Some lines ->
    for_of items price_item acc db = (Value (fold_left add lines acc), db).
Proof.
  induction items as [|i rest IH]; intros lines acc H.
  - injection H as <-. reflexivity.
  - cbn [line_totals] in H.
    destruct (resolve db (Order.productId i)) as [p|] eqn:Hp; [|discriminate].
    destruct (line_totals db rest) as [ls|] eqn:Hl; [|discriminate].
    injection H as <-.
    rewrite (loop_step_resolved db i rest p acc Hp).
    cbn [fold_left]. apply IH. reflexivity.
Qed.

(** The loop stops at the first item that does not resolve. *)
Lemma loop_first_unresolved (db : Db num) (pre : list (Order.ItemInput num))
      (bad : Order.ItemInput num) (post : list (Order.ItemInput num)) :
  forall (lines : list num) (acc : num),
    line_totals db pre = Some lines ->
    resolve db (Order.productId bad) = None ->
    for_of (pre ++ bad :: post)%list price_item acc db =
    (unresolved (Order.productId bad), db).
Proof.
  induction pre as [|i pre IH]; intros lines acc H Hbad.
  - apply loop_step_unresolved. exact Hbad.
  - cbn [line_totals] in H.
    destruct (resolve db (Order.productId i)) as [p|] eqn:Hp; [|discriminate].
    destruct (line_totals db pre) as [ls|] eqn:Hl; [|discriminate].
    change ((i :: pre) ++ bad :: post)%list with (i :: (pre ++ bad :: post))%list.
    rewrite (loop_step_resolved db i _ p acc Hp).
    apply (IH ls). reflexivity. exact Hbad.
Qed.

(** The loop only reads. *)
Lemma loop_reads_only (db : Db num) (items : list (Order.ItemInput num)) :
  forall (acc : num), snd (for_of items price_item acc db) = db.
Proof.
  induction items as [|i rest IH]; intros acc; [reflexivity|].
  destruct (resolve db (Order.productId i)) as [p|] eqn:Hp.
  - rewrite (loop_step_resolved db i rest p acc Hp). apply IH.
  - rewrite (loop_step_unresolved db i rest acc Hp). reflexivity.
Qed.

(** Items that resolve are items that the schema can cast, quantities
    untouched. *)
Lemma resolved_items_cast (db : Db num) (items : list (Order.ItemInput num)) :
  forall lines,
    line_totals db items = Some lines ->
    exists its,
      Order.castItems items = Some its
      /\ map OrderSchema.quantity its = map Order.quantity items.
Proof.
  induction items as [|i rest IH]; intros lines H.
  - exists []. split; reflexivity.
  - cbn [line_totals] in H. unfold resolve in H.
    destruct (castObjectId (Order.productId i)) as [oid|] eqn:Hc; [|discriminate].
    destruct (lookup ProductSchema._id oid (products db)); [|discriminate].
    destruct (line_totals db rest) as [ls|]; [|discriminate].
    destruct (IH ls eq_refl) as [its [Hits Hq]].
    eexists. cbn [Order.castItems]. unfold Order.castItem. rewrite Hc, Hits.
    split; [reflexivity|]. cbn. rewrite Hq. reflexivity.
Qed.

(** Both answers to an item that does not resolve carry its id. *)
Lemma invalid_product_names (wrapper pid : string) :
  body_names pid (body (invalid_product (num := num) wrapper pid)) = true.
Proof.
  unfold invalid_product. destruct (castObjectId pid).
  - change (Js.includes pid ("Invalid product ID: " ++ pid) = true).
    apply includes_later. rewrite <- (append_empty_r pid) at 2.
    apply includes_here.
  - change (Js.includes pid wrapper || Js.includes pid pid = true).
    apply orb_true_iff. right.
    rewrite <- (append_empty_r pid) at 2. apply includes_here.
Qed.
End PricingFacts.

(* ------------------------------------------------------------------------- *)
(** ** Creating and updating orders *)
(* ------------------------------------------------------------------------- *)

Section MonadFacts.
Context {num : Type}.

Lemma bind_value {A B} (m : M num A) (k : A -> M num B) (db db' : Db num) (a : A) :
  m db = (Value a, db') -> bind m k db = k a db'.
Proof. unfold bind. intros ->. reflexivity. Qed.

Lemma bind_thrown {A B} (m : M num A) (k : A -> M num B) (db db' : Db num) (e : Error) :
  m db = (Thrown e, db') -> bind m k db = (Thrown e, db').
Proof. unfold bind. intros ->. reflexivity. Qed.

Lemma bind_sent {A B} (m : M num A) (k : A -> M num B) (db db' : Db num)
      (r : Response num) :
  m db = (Sent r, db') -> bind m k db = (Sent r, db').
Proof. unfold bind. intros ->. reflexivity. Qed.

(** A client id that resolves. *)
Lemma client_found (c : string) (cid : ObjectId) (cl : ClientSchema.doc) (db : Db num) :
  castObjectId c = Some cid ->
  lookup ClientSchema._id cid (clients db) = Some cl ->
  Client.findById (Some c) db = (Value (Some cl), db).
Proof.
  intros Hc Hl. unfold Client.findById. rewrite Hc.
  unfold bind, get, ret. rewrite Hl. reflexivity.
Qed.
End MonadFacts.

Section OrderFacts.
Context {num : Type} {NN : Numeric num}.

Lemma validate_accepts (init : Order.Init num) (cid : ObjectId)
      (its : list (OrderSchema.item num)) (t : num) :
  Order.validate init = inr (cid, its, t) ->
  Order.totalPrice init = Some t
  /\ forallb (fun i => leb one (OrderSchema.quantity i)) its = true.
Proof.
  unfold Order.validate.
  destruct (Order.clientId init) as [c|]; [|discriminate].
  destruct (castObjectId c); [|discriminate].
  destruct (Order.castItems _); [|discriminate].
  destruct (forallb _ _) eqn:Hq; [|discriminate].
  destruct (Order.totalPrice init); [|discriminate].
  intros [= _ <- <-]. split; [reflexivity | exact Hq].
Qed.

Lemma validate_priced (c : string) (cid : ObjectId) (items : list (Order.ItemInput num))
      (its : list (OrderSchema.item num)) (t : num) :
  castObjectId c = Some cid ->
  Order.castItems items = Some its ->
  Order.validate {| Order.clientId := Some c; Order.items := Some items;
                    Order.totalPrice := Some t |} =
  if forallb (fun i => leb one (OrderSchema.quantity i)) its
  then inr (cid, its, t) else inl (ValidationError "Order").
Proof. intros Hc Hi. unfold Order.validate. cbn. rewrite Hc, Hi. reflexivity. Qed.

Lemma save_cases (oid : ObjectId) (now : Z) (init : Order.Init num) (db : Db num) :
  Order.save oid now init db =
  match Order.validate init with
  | inl e => (Thrown e, db)
  | inr (cid, its, t) =>
      (Value (created oid now cid its t),
       set_orders db (orders db ++ [created oid now cid its t])%list)
  end.
Proof.
  unfold Order.save. destruct (Order.validate init) as [e|[[cid its] t]]; reflexivity.
Qed.

(** *** The top-level create route *)

(** A client id that does not resolve stops the request before any item is
    looked at and before anything is stored: an absent id and an ObjectId that
    no client has find no client, a text that is not an ObjectId does not
    cast. *)
Lemma post_root_client_cases (oid : ObjectId) (now : Z)
      (body : RequestBody.order num) (db : Db num) :
  match RequestBody.clientId body with
  | None =>
      OrderRoutes.post_root oid now body db =
      ({| status := 400; body := Message "Invalid client ID" |}, db)
  | Some c =>
      match castObjectId c with
      | Some cid =>
          lookup ClientSchema._id cid (clients db) = None ->
          OrderRoutes.post_root oid now body db =
          ({| status := 400; body := Message "Invalid client ID" |}, db)
      | None =>
          OrderRoutes.post_root oid now body db =
          ({| status := 400;
              body := MessageError "Error creating order"
                        (message (CastError c "_id" "Client")) |}, db)
      end
  end.
Proof.
  unfold OrderRoutes.post_root, try_catch. cbv zeta.
  destruct (RequestBody.clientId body) as [c|]; cbn.
  - unfold Client.findById. destruct (castObjectId c) as [cid|] eqn:Hc.
    + intros Hl. unfold bind at 1. unfold bind at 1. unfold get, ret.
      rewrite Hl. reflexivity.
    + reflexivity.
  - reflexivity.
Qed.

Lemma post_root_unknown_client (oid : ObjectId) (now : Z)
      (body : RequestBody.order num) (db : Db num) :
  match RequestBody.clientId body with
  | None => True
  | Some c =>
      match castObjectId c with
      | Some cid => lookup ClientSchema._id cid (clients db) = None
      | None => True
      end
  end ->
  exists r, OrderRoutes.post_root oid now body db = (r, db) /\ status r = 400.
Proof.
  intros H. pose proof (post_root_client_cases oid now body db) as Hc.
  destruct (RequestBody.clientId body) as [c|].
  - destruct (castObjectId c) as [cid|].
    + rewrite (Hc H). eexists. split; reflexivity.
    + rewrite Hc. eexists. split; reflexivity.
  - rewrite Hc. eexists. split; reflexivity.
Qed.

Lemma post_root_known_client (oid : ObjectId) (now : Z) (body : RequestBody.order num)
      (db : Db num) (c : string) (cid : ObjectId) (cl : ClientSchema.doc)
      (items : list (Order.ItemInput num)) :
  RequestBody.clientId body = Some c ->
  castObjectId c = Some cid ->
  lookup ClientSchema._id cid (clients db) = Some cl ->
  RequestBody.items body = Some items ->
  OrderRoutes.post_root oid now body db =
  match totalPrice_loop items db with
  | (Value t, _) =>
      match Order.validate {| Order.clientId := Some c; Order.items := Some items;
                              Order.totalPrice := Some t |} with
      | inl e => ({| status := 400;
                     body := MessageError "Error creating order" (message e) |}, db)
      | inr (cid', its, t') =>
          ({| status := 201; body := OrderBody (created oid now cid' its t') |},
           set_orders db (orders db ++ [created oid now cid' its t'])%list)
      end
  | (Thrown e, _) => ({| status := 400;
                         body := MessageError "Error creating order" (message e) |}, db)
  | (Sent r, _) => (r, db)
  end.
Proof.
  intros Hb Hc Hl Hi.
  unfold OrderRoutes.post_root, try_catch. cbv zeta. rewrite Hb, Hi.
  rewrite (bind_value _ _ _ _ _ (client_found c cid cl db Hc Hl)).
  cbn [isNull when_]. unfold bind at 1. unfold ret at 1.
  unfold iterable. unfold bind at 1. unfold ret at 1.
  unfold bind at 1.
  pose proof (loop_reads_only db items zero) as Hdb.
  unfold totalPrice_loop.
  destruct (for_of items price_item zero db) as [out db1]. cbn in Hdb. subst db1.
  destruct out as [t|e|r]; [|reflexivity|reflexivity].
  unfold bind at 1. rewrite save_cases.
  destruct (Order.validate _) as [e|[[cid' its] t']]; reflexivity.
Qed.

(** *** The update route *)

Lemma put_id_cases (id : string) (body : RequestBody.order num) (db : Db num)
      (items : list (Order.ItemInput num)) :
  RequestBody.items body = Some items ->
  OrderRoutes.put_id id body db =
  match totalPrice_loop items db with
  | (Value t, _) =>
      match castObjectId id with
      | None => ({| status := 400;
                    body := MessageError "Error updating order"
                              (message (CastError id "_id" "Order")) |}, db)
      | Some oid =>
          match Order.castItems items with
          | None => ({| status := 400;
                        body := MessageError "Error updating order"
                                  (message (CastError "items" "items.productId" "Order")) |}, db)
          | Some its =>
              match lookup OrderSchema._id oid (orders db) with
              | None => ({| status := 404; body := Message "Order not found" |}, db)
              | Some o =>
                  ({| status := 200; body := OrderBody (Order.with_items its t o) |},
                   set_orders db (modify OrderSchema._id oid (Order.with_items its t) (orders db)))
              end
          end
      end
  | (Thrown e, _) => ({| status := 400;
                         body := MessageError "Error updating order" (message e) |}, db)
  | (Sent r, _) => (r, db)
  end.
Proof.
  intros Hi.
  unfold OrderRoutes.put_id, try_catch. cbv zeta. rewrite Hi.
  unfold iterable. unfold bind at 1. unfold ret at 1.
  unfold bind at 1.
  pose proof (loop_reads_only db items zero) as Hdb.
  unfold totalPrice_loop.
  destruct (for_of items price_item zero db) as [out db1]. cbn in Hdb. subst db1.
  destruct out as [t|e|r]; [|reflexivity|reflexivity].
  unfold bind at 1. unfold Order.findByIdAndUpdate.
  destruct (castObjectId id) as [oid|]; [|reflexivity].
  destruct (Order.castItems items) as [its|]; [|reflexivity].
  unfold bind at 1. unfold get at 1.
  destruct (lookup OrderSchema._id oid (orders db)) as [o|]; reflexivity.
Qed.

(** When the loop ends with a total, every item resolved and the total is
    the sum of the lines in order. *)
Lemma loop_value_inv (db : Db num) (items : list (Order.ItemInput num)) :
  forall (acc t : num) (db' : Db num),
    for_of items price_item acc db = (Value t, db') ->
    exists lines, line_totals db items = Some lines /\ t = fold_left add lines acc.
Proof.
  induction items as [|i rest IH]; intros acc t db' H.
  - injection H as <- _. exists []. split; reflexivity.
  - destruct (resolve db (Order.productId i)) as [p|] eqn:Hp.
    + rewrite (loop_step_resolved db i rest p acc Hp) in H.
      destruct (IH _ _ _ H) as [ls [Hls ->]].
      exists (mul (ProductSchema.price p) (Order.quantity i) :: ls).
      cbn [line_totals]. rewrite Hp, Hls. split; reflexivity.
    + rewrite (loop_step_unresolved db i rest acc Hp) in H.
      unfold unresolved in H. destruct (castObjectId (Order.productId i)); discriminate.
Qed.

(** A response sent from inside the loop is a 400. *)
Lemma loop_sent_400 (db : Db num) (items : list (Order.ItemInput num)) :
  forall (acc : num) (r : Response num) (db' : Db num),
    for_of items price_item acc db = (Sent r, db') -> status r = 400.
Proof.
  induction items as [|i rest IH]; intros acc r db' H; [discriminate|].
  destruct (resolve db (Order.productId i)) as [p|] eqn:Hp.
  - rewrite (loop_step_resolved db i rest p acc Hp) in H. apply (IH _ _ _ H).
  - rewrite (loop_step_unresolved db i rest acc Hp) in H.
    unfold unresolved in H. destruct (castObjectId (Order.productId i)).
    + injection H as <- _. reflexivity.
    + discriminate.
Qed.

(** Whatever the request, the create route either leaves the database as it
    is, or answers 201 and adds one order: the one it answers with, whose
    quantities pass the schema's minimum and whose total is the sum of the
    lines of the request's items. *)
Lemma post_root_stores (oid : ObjectId) (now : Z) (body : RequestBody.order num)
      (db : Db num) (r : Response num) (db' : Db num) :
  OrderRoutes.post_root oid now body db = (r, db') ->
  (db' = db /\ status r = 400)
  \/ exists cid its items lines,
      let o := created oid now cid its (sum_in_order lines) in
      r = {| status := 201; body := OrderBody o |}
      /\ db' = set_orders db (orders db ++ [o])%list
      /\ RequestBody.items body = Some items
      /\ line_totals db items = Some lines
      /\ Order.castItems items = Some its
      /\ forallb (fun i => leb one (OrderSchema.quantity i)) its = true.
Proof.
  intros H.
  assert (Hunknown :
            match RequestBody.clientId body with
            | None => True
            | Some c =>
                match castObjectId c with
                | Some cid => lookup ClientSchema._id cid (clients db) = None
                | None => True
                end
            end -> db' = db /\ status r = 400).
  { intros Hu. destruct (post_root_unknown_client oid now body db Hu) as [r' [E Hs]].
    rewrite E in H. injection H as <- <-. split; [reflexivity | exact Hs]. }
  destruct (RequestBody.clientId body) as [c|] eqn:Hb; [|left; apply Hunknown; exact I].
  destruct (castObjectId c) as [cid|] eqn:Hc; [|left; apply Hunknown; exact I].
  destruct (lookup ClientSchema._id cid (clients db)) as [cl|] eqn:Hl;
    [|left; apply Hunknown; reflexivity].
  clear Hunknown.
  destruct (RequestBody.items body) as [items|] eqn:Hi.
  2:{ left. revert H. unfold OrderRoutes.post_root, try_catch. cbv zeta.
      rewrite Hb, Hi.
      rewrite (bind_value _ _ _ _ _ (client_found c cid cl db Hc Hl)).
      cbn. intros [= <- <-]. split; reflexivity. }
  rewrite (post_root_known_client oid now body db c cid cl items Hb Hc Hl Hi) in H.
  unfold totalPrice_loop in H.
  destruct (for_of items price_item zero db) as [[t|e|r'] db1] eqn:Hloop.
  - destruct (loop_value_inv db items zero t db1 Hloop) as [lines [Hlines ->]].
    destruct (Order.validate _) as [e|[[cid' its] t']] eqn:Hv.
    + left. injection H as <- <-. split; reflexivity.
    + right. destruct (validate_accepts _ _ _ _ Hv) as [Ht Hq].
      cbn in Ht. injection Ht as <-.
      destruct (resolved_items_cast db items lines Hlines) as [its0 [Hcast _]].
      rewrite (validate_priced c cid items its0 _ Hc Hcast) in Hv.
      destruct (forallb _ its0) eqn:Hq0; [|discriminate].
      injection Hv as <- <-.
      injection H as <- <-.
      exists cid, its0, items, lines. cbv zeta.
      repeat split; try reflexivity; assumption.
  - left. injection H as <- <-. split; reflexivity.
  - left. injection H as <- <-. split; [reflexivity|].
    apply (loop_sent_400 db items zero _ db1 Hloop).
Qed.
End OrderFacts.

(* ------------------------------------------------------------------------- *)
(** ** Orders: what is priced, what is stored *)
(* ------------------------------------------------------------------------- *)

Section OrderClaims.
Context {num : Type} {NN : Numeric num}.

(** C1, amended. For an update request, and for a create request whose
    client resolves: if some item does not resolve, the request is answered
    400 for the first such item, with a body that carries its product id (the
    handler's "Invalid product ID" message, or the message of the cast error
    when the id is not an ObjectId), and the database is left as it was; if
    every item resolves, the total that is stored and returned is the sum, in
    the order of the items and from zero, of unit price times quantity. The
    create then stores the order unless a quantity is below the schema's
    minimum, which is a validation error answered 400 with nothing stored,
    and the update stores new items and total in the order of the given id
    when there is one. A create request whose client id is absent, or is an
    ObjectId that no client has, is answered 400 "Invalid client ID", and one
    whose client id is not an ObjectId is answered 400 "Error creating order";
    neither looks at an item or stores anything. *)
Theorem pricing_all_or_nothing (oid : ObjectId) (now : Z) (id : string)
        (body : RequestBody.order num) (db : Db num)
        (items : list (Order.ItemInput num)) :
  (RequestBody.items body = Some items ->
   (forall pre bad post lines,
      items = (pre ++ bad :: post)%list ->
      line_totals db pre = Some lines ->
      resolve db (Order.productId bad) = None ->
      let pid := Order.productId bad in
      OrderRoutes.put_id id body db = (invalid_product "Error updating order" pid, db)
      /\ body_names pid (Express.body (invalid_product (num := num) "Error updating order" pid)) = true
      /\ body_names pid (Express.body (invalid_product (num := num) "Error creating order" pid)) = true
      /\ (forall c cid cl,
             RequestBody.clientId body = Some c ->
             castObjectId c = Some cid ->
             lookup ClientSchema._id cid (clients db) = Some cl ->
             OrderRoutes.post_root oid now body db =
             (invalid_product "Error creating order" pid, db)))
   /\ (forall lines,
         line_totals db items = Some lines ->
         exists its,
           Order.castItems items = Some its
           /\ (forall c cid cl,
                  RequestBody.clientId body = Some c ->
                  castObjectId c = Some cid ->
                  lookup ClientSchema._id cid (clients db) = Some cl ->
                  OrderRoutes.post_root oid now body db =
                  if forallb (fun i => leb one (OrderSchema.quantity i)) its
                  then ({| status := 201;
                           body := OrderBody (created oid now cid its (sum_in_order lines)) |},
                        set_orders db (orders db ++ [created oid now cid its (sum_in_order lines)])%list)
                  else ({| status := 400;
                           body := MessageError "Error creating order"
                                     (message (ValidationError "Order")) |}, db))
           /\ OrderRoutes.put_id id body db =
              match castObjectId id with
              | None => ({| status := 400;
                            body := MessageError "Error updating order"
                                      (message (CastError id "_id" "Order")) |}, db)
              | Some oid' =>
                  match lookup OrderSchema._id oid' (orders db) with
                  | None => ({| status := 404; body := Message "Order not found" |}, db)
                  | Some o =>
                      ({| status := 200;
                          body := OrderBody (Order.with_items its (sum_in_order lines) o) |},
                       set_orders db
                         (modify OrderSchema._id oid'
                                 (Order.with_items its (sum_in_order lines)) (orders db)))
                  end
              end))
  /\ match RequestBody.clientId body with
     | None =>
         OrderRoutes.post_root oid now body db =
         ({| status := 400; body := Message "Invalid client ID" |}, db)
     | Some c =>
         match castObjectId c with
         | Some cid =>
             lookup ClientSchema._id cid (clients db) = None ->
             OrderRoutes.post_root oid now body db =
             ({| status := 400; body := Message "Invalid client ID" |}, db)
         | None =>
             OrderRoutes.post_root oid now body db =
             ({| status := 400;
                 body := MessageError "Error creating order"
                           (message (CastError c "_id" "Client")) |}, db)
         end
     end.
Proof.
  split; [intros Hi; split|].
  - intros pre bad post lines -> Hpre Hbad pid. subst pid.
    pose proof (loop_first_unresolved db pre bad post lines zero Hpre Hbad) as Hloop.
    split; [|split; [|split]].
    + rewrite (put_id_cases id body db _ Hi). unfold totalPrice_loop.
      rewrite Hloop.
      unfold unresolved, invalid_product.
      destruct (castObjectId (Order.productId bad)); reflexivity.
    + apply invalid_product_names.
    + apply invalid_product_names.
    + intros c cid cl Hb Hc Hl.
      rewrite (post_root_known_client oid now body db c cid cl _ Hb Hc Hl Hi).
      unfold totalPrice_loop. rewrite Hloop.
      unfold unresolved, invalid_product.
      destruct (castObjectId (Order.productId bad)); reflexivity.
  - intros lines Hlines.
    destruct (resolved_items_cast db items lines Hlines) as [its [Hcast _]].
    exists its. split; [exact Hcast|].
    pose proof (loop_all_resolved db items lines zero Hlines) as Hloop.
    split.
    + intros c cid cl Hb Hc Hl.
      rewrite (post_root_known_client oid now body db c cid cl _ Hb Hc Hl Hi).
      unfold totalPrice_loop. rewrite Hloop.
      rewrite (validate_priced c cid items its _ Hc Hcast).
      destruct (forallb _ its); reflexivity.
    + rewrite (put_id_cases id body db _ Hi). unfold totalPrice_loop.
      rewrite Hloop, Hcast. reflexivity.
  - apply post_root_client_cases.
Qed.

(** The earlier create route: what it stores carries the total of the
    request. *)
Lemma v1_post_root_stores (oid : ObjectId) (now : Z) (body : RequestBody.order num)
      (db : Db num) (o : OrderSchema.doc num) (db' : Db num) :
  OrderRoutesV1.post_root oid now body db =
  ({| status := 201; body := OrderBody o |}, db') ->
  RequestBody.totalPrice body = Some (OrderSchema.totalPrice o)
  /\ orders db' = (orders db ++ [o])%list.
Proof.
  unfold OrderRoutesV1.post_root, try_catch. cbv zeta.
  unfold bind at 1. unfold Client.findById.
  destruct (RequestBody.clientId body) as [c|]; [|discriminate].
  destruct (castObjectId c) as [cid|]; [|discriminate].
  unfold bind at 1. unfold get at 1. unfold ret at 1.
  destruct (lookup ClientSchema._id cid (clients db)) as [cl|]; [|discriminate].
  cbn [isNull when_]. unfold bind at 1. unfold ret at 1.
  unfold bind at 1. rewrite save_cases.
  destruct (Order.validate _) as [e|[[cid' its] t']] eqn:Hv; [discriminate|].
  destruct (validate_accepts _ _ _ _ Hv) as [Ht _]. cbn in Ht.
  intros [= <- <-]. split; [exact Ht | reflexivity].
Qed.

(** C2, amended. In the pricing version of the create route the total sent
    by the caller is never used: two requests that differ only by it get the
    same answer and leave the same database, and an order that the route
    stores carries the sum, in order, of unit price times quantity over the
    request's items, each price looked up in the stored products. In the
    earlier version of the create route the stored total is the one sent by
    the caller. *)
Theorem totalPrice_from_product_lookups (oid : ObjectId) (now : Z)
        (c : option string) (i : option (list (Order.ItemInput num)))
        (t t' : option num) (db : Db num) :
  OrderRoutes.post_root oid now
    {| RequestBody.clientId := c; RequestBody.items := i; RequestBody.totalPrice := t |} db =
  OrderRoutes.post_root oid now
    {| RequestBody.clientId := c; RequestBody.items := i; RequestBody.totalPrice := t' |} db
  /\ (forall o db',
         OrderRoutes.post_root oid now
           {| RequestBody.clientId := c; RequestBody.items := i; RequestBody.totalPrice := t |} db =
         ({| status := 201; body := OrderBody o |}, db') ->
         exists items lines,
           i = Some items
           /\ line_totals db items = Some lines
           /\ OrderSchema.totalPrice o = sum_in_order lines
           /\ orders db' = (orders db ++ [o])%list)
  /\ (forall o db',
         OrderRoutesV1.post_root oid now
           {| RequestBody.clientId := c; RequestBody.items := i; RequestBody.totalPrice := t |} db =
         ({| status := 201; body := OrderBody o |}, db') ->
         t = Some (OrderSchema.totalPrice o)
         /\ orders db' = (orders db ++ [o])%list).
Proof.
  split; [reflexivity|]. split.
  - intros o db' H.
    destruct (post_root_stores _ _ _ _ _ _ H)
      as [[_ Hs] | (cid & its & items & lines & Hr & -> & Hi & Hl & _ & _)].
    + discriminate Hs.
    + injection Hr as ->. exists items, lines. cbn in Hi.
      repeat split; try assumption; reflexivity.
  - intros o db' H. apply (v1_post_root_stores _ _ _ _ _ _ H).
Qed.

(** C7, amended. An order that the create route stores has, for every item,
    a quantity that passes the schema's minimum of 1; the list of items may
    be empty. A create request with an empty list of items and a client that
    resolves is answered 201 and stores an order without items, with the
    total zero; an update request with an empty list of items, for the id of
    a stored order, is answered 200 and leaves that order without items, with
    the total zero. *)
Theorem quantities_checked_emptiness_not (oid : ObjectId) (now : Z) (id : string)
        (body : RequestBody.order num) (db : Db num) :
  (forall r db',
      OrderRoutes.post_root oid now body db = (r, db') ->
      orders db' <> orders db ->
      exists o,
        orders db' = (orders db ++ [o])%list
        /\ r = {| status := 201; body := OrderBody o |}
        /\ Forall (fun i => leb one (OrderSchema.quantity i) = true) (OrderSchema.items o))
  /\ (RequestBody.items body = Some [] ->
      (forall c cid cl,
          RequestBody.clientId body = Some c ->
          castObjectId c = Some cid ->
          lookup ClientSchema._id cid (clients db) = Some cl ->
          OrderRoutes.post_root oid now body db =
          ({| status := 201; body := OrderBody (created oid now cid [] zero) |},
           set_orders db (orders db ++ [created oid now cid [] zero])%list))
      /\ (forall oid' o,
             castObjectId id = Some oid' ->
             lookup OrderSchema._id oid' (orders db) = Some o ->
             OrderRoutes.put_id id body db =
             ({| status := 200; body := OrderBody (Order.with_items [] zero o) |},
              set_orders db
                (modify OrderSchema._id oid' (Order.with_items [] zero) (orders db))))).
Proof.
  split.
  - intros r db' H Hne.
    destruct (post_root_stores _ _ _ _ _ _ H)
      as [[-> _] | (cid & its & items & lines & -> & -> & _ & _ & _ & Hq)].
    + contradiction Hne. reflexivity.
    + eexists. split; [reflexivity|]. split; [reflexivity|].
      cbn. apply Forall_forall. intros i Hin.
      rewrite forallb_forall in Hq. apply Hq. exact Hin.
  - intros Hi. split.
    + intros c cid cl Hb Hc Hl.
      rewrite (post_root_known_client oid now body db c cid cl [] Hb Hc Hl Hi).
      change (totalPrice_loop [] db) with (@Value num num zero, db).
      cbv beta iota.
      rewrite (validate_priced c cid [] [] zero Hc eq_refl). reflexivity.
    + intros oid' o Hc Hl.
      rewrite (put_id_cases id body db [] Hi).
      change (totalPrice_loop [] db) with (@Value num num zero, db).
      cbv beta iota. rewrite Hc. cbn [Order.castItems]. rewrite Hl. reflexivity.
Qed.
End OrderClaims.

(** *** The claims on the sample data *)

Lemma pricing_all_or_nothing_witness :
  OrderRoutes.post_root 100%N 5 Sample.known_then_unknown_product Sample.db =
  ({| status := 400; body := Message ("Invalid product ID: " ++ Sample.idP2) |}, Sample.db)
  /\ OrderRoutes.post_root 100%N 5 Sample.two_P1 Sample.db =
     ({| status := 201;
         body := OrderBody (created 100%N 5 1%N
                   [ {| OrderSchema.productId := 16%N; OrderSchema.quantity := 2 |} ] 20) |},
      set_orders Sample.db
        [ created 100%N 5 1%N
            [ {| OrderSchema.productId := 16%N; OrderSchema.quantity := 2 |} ] 20 ]).
Proof.
  split.
  - destruct (pricing_all_or_nothing 100%N 5 Sample.id1 Sample.known_then_unknown_product
                Sample.db
                [ {| Order.productId := Sample.idP1; Order.quantity := 2 |};
                  {| Order.productId := Sample.idP2; Order.quantity := 1 |} ])
      as [Hitems _].
    destruct (Hitems eq_refl) as [H _].
    destruct (H [ {| Order.productId := Sample.idP1; Order.quantity := 2 |} ]
                {| Order.productId := Sample.idP2; Order.quantity := 1 |} []
                [20] eq_refl eq_refl eq_refl) as [_ [_ [_ Hpost]]].
    exact (Hpost Sample.id1 1%N Sample.john eq_refl eq_refl eq_refl).
  - destruct (pricing_all_or_nothing 100%N 5 Sample.id1 Sample.two_P1 Sample.db
                [ {| Order.productId := Sample.idP1; Order.quantity := 2 |} ])
      as [Hitems _].
    destruct (Hitems eq_refl) as [_ H].
    destruct (H [20] eq_refl) as [its [Hcast [Hpost _]]].
    injection Hcast as <-.
    exact (Hpost Sample.id1 1%N Sample.john eq_refl eq_refl eq_refl).
Defined.

(** C1 as stated fails for a create request whose client does not resolve
    either: the answer is about the client and does not carry the id of the
    product that does not resolve. *)
Lemma unknown_client_answered_first :
  resolve Sample.db Sample.idP2 = None
  /\ OrderRoutes.post_root 100%N 5 Sample.unknown_client_and_product Sample.db =
     ({| status := 400; body := Message "Invalid client ID" |}, Sample.db)
  /\ body_names Sample.idP2 (Message (num := Z) "Invalid client ID") = false.
Proof. split; [|split]; reflexivity. Qed.

Lemma totalPrice_from_product_lookups_witness :
  OrderRoutes.post_root 100%N 5 Sample.two_P1 Sample.db =
  ({| status := 201;
      body := OrderBody (created 100%N 5 1%N
                [ {| OrderSchema.productId := 16%N; OrderSchema.quantity := 2 |} ] 20) |},
   set_orders Sample.db
     [ created 100%N 5 1%N
         [ {| OrderSchema.productId := 16%N; OrderSchema.quantity := 2 |} ] 20 ])
  /\ exists items lines,
      RequestBody.items Sample.two_P1 = Some items
      /\ line_totals Sample.db items = Some lines
      /\ 20 = sum_in_order lines.
Proof.
  split; [reflexivity|].
  destruct (totalPrice_from_product_lookups 100%N 5
              (RequestBody.clientId Sample.two_P1) (RequestBody.items Sample.two_P1)
              (RequestBody.totalPrice Sample.two_P1) None Sample.db) as [_ [H _]].
  destruct (H _ _ eq_refl) as (items & lines & Hi & Hl & Ht & _).
  exists items, lines. repeat split; assumption.
Defined.

(** C2 as stated fails for the earlier create route: the stored total is the
    999 of the request, not the 20 that the items are worth. *)
Lemma v1_stores_the_total_of_the_request :
  OrderRoutesV1.post_root 100%N 5 Sample.two_P1 Sample.db =
  ({| status := 201;
      body := OrderBody (created 100%N 5 1%N
                [ {| OrderSchema.productId := 16%N; OrderSchema.quantity := 2 |} ] 999) |},
   set_orders Sample.db
     [ created 100%N 5 1%N
         [ {| OrderSchema.productId := 16%N; OrderSchema.quantity := 2 |} ] 999 ])
  /\ option_map sum_in_order
       (line_totals Sample.db [ {| Order.productId := Sample.idP1; Order.quantity := 2 |} ])
     = Some 20
  /\ 999 <> 20.
Proof. split; [|split]; [reflexivity | reflexivity | discriminate]. Qed.

Lemma quantities_checked_emptiness_not_witness :
  OrderRoutes.post_root 100%N 5 Sample.no_item Sample.db =
  ({| status := 201; body := OrderBody (created 100%N 5 1%N [] 0) |},
   set_orders Sample.db [ created 100%N 5 1%N [] 0 ])
  /\ Forall (fun i => leb one (OrderSchema.quantity i) = true)
       (OrderSchema.items (created 100%N 5 1%N
          [ {| OrderSchema.productId := 16%N; OrderSchema.quantity := 2 |} ] 20)).
Proof.
  split.
  - destruct (quantities_checked_emptiness_not 100%N 5 Sample.id1 Sample.no_item Sample.db)
      as [_ H].
    destruct (H eq_refl) as [Hpost _].
    exact (Hpost Sample.id1 1%N Sample.john eq_refl eq_refl eq_refl).
  - destruct (quantities_checked_emptiness_not 100%N 5 Sample.id1 Sample.two_P1 Sample.db)
      as [H _].
    destruct (H _ _ eq_refl) as (o & Ho & Hr & Hq).
    + cbn. discriminate.
    + injection Hr as <-. exact Hq.
Defined.

(** C7 as stated fails for a create request without items: it is accepted and
    an order with an empty list of items is stored. *)
Lemma order_without_items_is_stored :
  RequestBody.items Sample.no_item = Some []
  /\ OrderRoutes.post_root 100%N 5 Sample.no_item Sample.db =
     ({| status := 201; body := OrderBody (created 100%N 5 1%N [] 0) |},
      set_orders Sample.db [ created 100%N 5 1%N [] 0 ])
  /\ OrderSchema.items (created (num := Z) 100%N 5 1%N [] 0) = [].
Proof. split; [|split]; reflexivity. Qed.

(* ------------------------------------------------------------------------- *)
(** ** Registration and login *)
(* ------------------------------------------------------------------------- *)

Section AuthRoutesFacts.
Context {num : Type} {JWT : Jwt} {BC : Bcrypt} {VA : Validator}.

Lemma long_enough_not_empty (v : option string) :
  AuthRoutes.isLength_min 6 v = true -> AuthRoutes.notEmpty v = true.
Proof.
  unfold AuthRoutes.isLength_min, AuthRoutes.notEmpty.
  destruct (AuthRoutes.field v); [discriminate | reflexivity].
Qed.

(** Whatever the body, a registration is answered by the validators or by
    the [catch], and stores nothing. *)
Lemma register_cases (oid : ObjectId) (creds : RequestBody.credentials) (db : Db num) :
  exists r,
    AuthRoutes.register oid creds db = (r, db)
    /\ (status r = 400 \/
        r = {| status := 500;
               body := MessageError "Server error" (message (NoModel "findOne")) |}).
Proof.
  unfold AuthRoutes.register. cbv zeta.
  destruct (negb (isEmpty _)).
  - eexists. split; [reflexivity|]. left. reflexivity.
  - eexists. split; [reflexivity|]. right. reflexivity.
Qed.

(** The same for a login. *)
Lemma login_cases (now : Z) (creds : RequestBody.credentials) (db : Db num) :
  exists r,
    AuthRoutes.login now creds db = (r, db)
    /\ ((status r = 400 /\ exists errors, body r = Errors errors) \/
        r = {| status := 500;
               body := MessageError "Server error" (message (NoModel "findOne")) |}).
Proof.
  unfold AuthRoutes.login. cbv zeta.
  destruct (negb (isEmpty _)).
  - eexists. split; [reflexivity|]. left. split; [reflexivity|]. eexists. reflexivity.
  - eexists. split; [reflexivity|]. right. reflexivity.
Qed.

(** C6 on the code as written. Both routes call [findOne] as a function
    imported by name from the User model, without the model, and the call
    throws. So a registration with a name, a valid email and a password of
    six characters or more is answered 500 "Server error" and stores no user,
    and the login with the same email and password is answered 500 as well.
    No registration is answered 201 or stores anything, and no login is
    answered with a token, whatever the password. *)
Theorem register_and_login_answer_500 (oid : ObjectId) (now : Z)
        (creds : RequestBody.credentials) (db : Db num) :
  AuthRoutes.notEmpty (RequestBody.name creds) = true ->
  isEmail (AuthRoutes.field (RequestBody.email creds)) = true ->
  AuthRoutes.isLength_min 6 (RequestBody.password creds) = true ->
  AuthRoutes.register oid creds db =
  ({| status := 500;
      body := MessageError "Server error" (message (NoModel "findOne")) |}, db)
  /\ AuthRoutes.login now creds db =
     ({| status := 500;
         body := MessageError "Server error" (message (NoModel "findOne")) |}, db)
  /\ (forall oid' creds' r db',
         AuthRoutes.register oid' creds' db = (r, db') ->
         db' = db /\ status r <> 201)
  /\ (forall now' creds' r db',
         AuthRoutes.login now' creds' db = (r, db') ->
         db' = db /\ forall token, body r <> Token token).
Proof.
  intros Hn He Hp. split; [|split; [|split]].
  - unfold AuthRoutes.register. cbv zeta. rewrite Hn, He, Hp. reflexivity.
  - unfold AuthRoutes.login. cbv zeta.
    rewrite He, (long_enough_not_empty _ Hp). reflexivity.
  - intros oid' creds' r db' H.
    destruct (register_cases oid' creds' db) as [r0 [E Hr]].
    rewrite E in H. injection H as <- <-. split; [reflexivity|].
    destruct Hr as [Hs | ->]; [rewrite Hs|]; discriminate.
  - intros now' creds' r db' H.
    destruct (login_cases now' creds' db) as [r0 [E Hr]].
    rewrite E in H. injection H as <- <-. split; [reflexivity|].
    intros token. destruct Hr as [[_ [errors ->]] | ->]; discriminate.
Qed.
End AuthRoutesFacts.

Lemma register_and_login_answer_500_witness :
  AuthRoutes.register (BC := Sample.prefix_bcrypt) (VA := Sample.at_validator)
    7%N Sample.ann_credentials Sample.db =
  ({| status := 500;
      body := MessageError "Server error" (message (NoModel "findOne")) |}, Sample.db)
  /\ AuthRoutes.login (JWT := Sample.unary_jwt) (BC := Sample.prefix_bcrypt)
       (VA := Sample.at_validator) 0 Sample.ann_credentials Sample.db =
     ({| status := 500;
         body := MessageError "Server error" (message (NoModel "findOne")) |}, Sample.db).
Proof.
  destruct (register_and_login_answer_500 (JWT := Sample.unary_jwt)
              (BC := Sample.prefix_bcrypt) (VA := Sample.at_validator)
              7%N 0 Sample.ann_credentials Sample.db eq_refl eq_refl eq_refl)
    as [Hr [Hl _]].
  split; assumption.
Defined.

(* ------------------------------------------------------------------------- *)
(** ** Listing clients *)
(* ------------------------------------------------------------------------- *)

(** The quotient rounded up, for a positive divisor: the least [k] with
    [total <= k * l]. *)
Lemma ceil_div_spec (total : nat) (l : Z) :
  1 <= l ->
  exists k,
    Js.ceil_div total (Some l) = Js.Int k
    /\ (k - 1) * l < Z.of_nat total <= k * l.
Proof.
  intros Hl. unfold Js.ceil_div.
  destruct (Z.eqb_spec l 0) as [E|_]; [lia|].
  eexists. split; [reflexivity|].
  pose proof (Z.div_mod (- Z.of_nat total) l ltac:(lia)) as Hdm.
  pose proof (Z.mod_pos_bound (- Z.of_nat total) l ltac:(lia)) as Hb.
  nia.
Qed.

Section ListFacts.
Context {num : Type} {RE : RegExpEngine}.

Lemma filter_of_compiled (v : option string) (f : option (string -> bool)) (db : Db num) :
  compiled v = Some f -> ClientRoutes.filter_of v db = (Value f, db).
Proof.
  unfold compiled, ClientRoutes.filter_of.
  destruct (Js.truthy v).
  - destruct (RegExp_i _); [|discriminate]. intros [= <-]. reflexivity.
  - intros [= <-]. reflexivity.
Qed.

(** C4, amended. For a list query whose page and limit, parsed or
    defaulted to 1 and 10, are integers from 1 to 2^53 with an offset
    (page - 1) * limit of at most 2^53 (the range in which JavaScript's
    arithmetic on them is exact), and whose filters compile: the answer is 200
    with the number of matching clients as total, page and limit echoed, the
    clients from offset (page - 1) * limit on, at most limit of them, in
    their JSON view, and totalPages the quotient of total by limit rounded
    up; the database is not changed. In particular page 2 with limit 1 over
    three matching clients gives exactly one client, total 3 and
    totalPages 3. *)
Theorem list_is_a_page (q : ClientRoutes.ListQuery) (db : Db num) (p l : Z)
        (fn fe : option (string -> bool)) :
  ClientRoutes.parsed 1 (ClientRoutes.page q) = Some p ->
  ClientRoutes.parsed 10 (ClientRoutes.limit q) = Some l ->
  1 <= p <= 2 ^ 53 ->
  1 <= l <= 2 ^ 53 ->
  (p - 1) * l <= 2 ^ 53 ->
  compiled (ClientRoutes.name q) = Some fn ->
  compiled (ClientRoutes.email q) = Some fe ->
  let matching :=
    filter (Client.matches {| Client.name := fn; Client.email := fe |}) (clients db) in
  let total := List.length matching in
  let slice := firstn (Z.to_nat l) (skipn (Z.to_nat ((p - 1) * l)) matching) in
  exists k,
    ClientRoutes.get_root q db =
    ({| status := 200;
        body := Page total (Some p) (Some l) (Js.Int k) (map ClientRoutes.formatted slice) |},
     db)
    /\ (List.length (map ClientRoutes.formatted slice) <= Z.to_nat l)%nat
    /\ (k - 1) * l < Z.of_nat total <= k * l
    /\ (ClientRoutes.page q = None -> p = 1)
    /\ (ClientRoutes.limit q = None -> l = 10)
    /\ (p = 2 -> l = 1 -> total = 3%nat ->
        List.length (map ClientRoutes.formatted slice) = 1%nat /\ k = 3).
Proof.
  intros Hp Hl [Hp1 _] [Hl1 _] _ Hn He matching total slice.
  destruct (ceil_div_spec total l Hl1) as [k [Hk Hbounds]].
  exists k. split; [|split; [|split; [|split; [|split]]]].
  - unfold ClientRoutes.get_root, try_catch. cbv zeta.
    rewrite Hp, Hl.
    rewrite (bind_value _ _ _ _ _ (filter_of_compiled _ _ db Hn)).
    rewrite (bind_value _ _ _ _ _ (filter_of_compiled _ _ db He)).
    unfold bind at 1. unfold Client.countDocuments at 1.
    unfold bind at 1. unfold get at 1. unfold ret at 1.
    unfold bind at 1. unfold Client.find at 1.
    unfold bind at 1. unfold get at 1.
    unfold Js.offset, skip_limit.
    destruct (Z.ltb_spec ((p - 1) * l) 0) as [Hneg|_]; [nia|].
    destruct (Z.eqb_spec l 0) as [E|_]; [lia|].
    rewrite (Z.abs_eq l) by lia.
    unfold ret at 1. unfold send.
    fold matching. fold total. rewrite Hk. reflexivity.
  - rewrite length_map. apply firstn_le_length.
  - exact Hbounds.
  - intros E. rewrite E in Hp. injection Hp as <-. reflexivity.
  - intros E. rewrite E in Hl. injection Hl as <-. reflexivity.
  - intros -> -> Ht. split.
    + rewrite length_map. unfold slice. rewrite length_firstn, length_skipn.
      fold total. rewrite Ht. reflexivity.
    + rewrite Ht in Hbounds. lia.
Qed.
End ListFacts.

Lemma list_is_a_page_witness :
  ClientRoutes.get_root (RE := Sample.substring_regexp) Sample.second_of_one Sample.db =
  ({| status := 200;
      body := Page 3 (Some 2) (Some 1) (Js.Int 3)
                [ {| Express.id := "000000000000000000000002";
                     Express.name := "Jane Smith";
                     Express.email := "jane@example.com" |} ] |},
   Sample.db).
Proof.
  destruct (list_is_a_page (RE := Sample.substring_regexp) Sample.second_of_one Sample.db
              2 1 None None eq_refl eq_refl ltac:(lia) ltac:(lia) ltac:(lia) eq_refl eq_refl)
    as [k [Hget [_ [_ [_ [_ Hthree]]]]]].
  destruct (Hthree eq_refl eq_refl eq_refl) as [_ ->].
  exact Hget.
Defined.

(** C4 as stated fails for page 0: the offset is negative, the store refuses
    it, and the answer is a 500 without total, page or data. *)
Lemma page_zero_is_an_error :
  ClientRoutes.parsed 1 (ClientRoutes.page Sample.page_zero) = Some 0
  /\ ClientRoutes.get_root (RE := Sample.substring_regexp) Sample.page_zero Sample.db =
     ({| status := 500;
         body := MessageError "Error fetching clients" (message BadValue) |},
      Sample.db).
Proof. split; reflexivity. Qed.

(* ------------------------------------------------------------------------- *)
(** ** The ids stay unique *)
(* ------------------------------------------------------------------------- *)

Section UniqueIds.
Context {num : Type} {NN : Numeric num}.

Lemma remove_subset {A} (key : A -> ObjectId) (oid k : ObjectId) (docs : list A) :
  In k (map key (remove key oid docs)) -> In k (map key docs).
Proof.
  induction docs as [|d docs IH]; simpl; [tauto|].
  destruct (key d =? oid)%N; simpl.
  - intros H. right. exact H.
  - intros [H|H]; [left; exact H | right; apply IH; exact H].
Qed.

Lemma remove_unique_ids {A} (key : A -> ObjectId) (oid : ObjectId) (docs : list A) :
  unique_ids key docs -> unique_ids key (remove key oid docs).
Proof.
  unfold unique_ids. induction docs as [|d docs IH]; simpl; intros H; [exact H|].
  inversion H as [|k ks Hnotin Hrest]; subst.
  destruct (key d =? oid)%N; simpl; [exact Hrest|].
  constructor.
  - intros Hin. apply Hnotin. apply (remove_subset key oid). exact Hin.
  - apply IH. exact Hrest.
Qed.

(** Deleting a client keeps the ids of the clients unique. *)
Lemma client_delete_keeps_unique_ids (id : string) (db : Db num) (r : Response num)
      (db' : Db num) :
  ClientRoutes.delete_id id db = (r, db') ->
  unique_ids ClientSchema._id (clients db) ->
  unique_ids ClientSchema._id (clients db').
Proof.
  unfold ClientRoutes.delete_id, Client.findByIdAndDelete. run.
  destruct (castObjectId id) as [oid|]; cbn.
  - destruct (lookup ClientSchema._id oid (clients db)); cbn; intros [= _ <-] H.
    + cbn. apply remove_unique_ids. exact H.
    + exact H.
  - intros [= _ <-] H. exact H.
Qed.

(** Creating an order under an id that no stored order has keeps the ids of
    the orders unique. *)
Lemma create_keeps_unique_ids (oid : ObjectId) (now : Z) (body : RequestBody.order num)
      (db : Db num) (r : Response num) (db' : Db num) :
  OrderRoutes.post_root oid now body db = (r, db') ->
  ~ In oid (map OrderSchema._id (orders db)) ->
  unique_ids OrderSchema._id (orders db) ->
  unique_ids OrderSchema._id (orders db').
Proof.
  intros H Hfresh Hu.
  destruct (post_root_stores _ _ _ _ _ _ H)
    as [[-> _] | (cid & its & items & lines & _ & -> & _)]; [exact Hu|].
  unfold unique_ids in *. cbn [orders set_orders].
  rewrite map_app. cbn [map created OrderSchema._id].
  apply NoDup_app.
  - exact Hu.
  - repeat constructor. intros [].
  - intros k Hk [<-|[]]. apply Hfresh. exact Hk.
Qed.
End UniqueIds.

(* ------------------------------------------------------------------------- *)
(** ** Ids as texts *)
(* ------------------------------------------------------------------------- *)

Lemma hexVal_hexDigit (d : N) : (d < 16)%N -> hexVal (hexDigit d) = Some d.
Proof.
  intros H. rewrite <- (N2Nat.id d).
  assert (Hn : (N.to_nat d < 16)%nat) by lia.
  revert Hn. generalize (N.to_nat d). intros n Hn.
  do 16 (destruct n as [|n]; [reflexivity|]). lia.
Qed.

Lemma parseHex_toHex (k : nat) :
  forall (n : N) (rest : string) (a : N),
    parseHex (toHex k n rest) a = parseHex rest (a * 16 ^ N.of_nat k + n mod 16 ^ N.of_nat k)%N.
Proof.
  induction k as [|k IH]; intros n rest a.
  - cbn [toHex]. change (N.of_nat 0) with 0%N. rewrite N.pow_0_r, N.mod_1_r.
    f_equal. lia.
  - cbn [toHex]. rewrite IH. cbn [parseHex].
    rewrite hexVal_hexDigit by (apply N.mod_lt; lia).
    f_equal. rewrite Nat2N.inj_succ, N.pow_succ_r'.
    rewrite (N.Div0.mod_mul_r n 16 (16 ^ N.of_nat k)). lia.
Qed.

Lemma length_toHex (k : nat) :
  forall (n : N) (rest : string),
    String.length (toHex k n rest) = (k + String.length rest)%nat.
Proof.
  induction k as [|k IH]; intros n rest; cbn [toHex]; [reflexivity|].
  rewrite IH. cbn. lia.
Qed.

(** The text of an id casts back to the id. *)
Lemma cast_toString (oid : ObjectId) :
  (oid < 2 ^ 96)%N -> castObjectId (toString oid) = Some oid.
Proof.
  intros H. unfold castObjectId, toString.
  rewrite length_toHex. cbn [String.length Nat.add Nat.eqb].
  rewrite parseHex_toHex. cbn [parseHex]. f_equal.
  change (16 ^ N.of_nat 24)%N with (2 ^ 96)%N.
  rewrite N.mod_small by exact H. reflexivity.
Qed.

(* ------------------------------------------------------------------------- *)
(** ** Creating and updating clients *)
(* ------------------------------------------------------------------------- *)

Section MoreCollectionFacts.
Context {A : Type} (key : A -> ObjectId).

Lemma lookup_app_fresh (oid : ObjectId) (docs : list A) (d : A) :
  ~ In oid (map key docs) -> key d = oid -> lookup key oid (docs ++ [d]) = Some d.
Proof.
  intros Hfresh Hd. induction docs as [|x docs IH]; cbn.
  - rewrite Hd, N.eqb_refl. reflexivity.
  - destruct (N.eqb_spec (key x) oid) as [E|_].
    + exfalso. apply Hfresh. left. exact E.
    + apply IH. intros Hin. apply Hfresh. right. exact Hin.
Qed.

Lemma lookup_app_other (oid : ObjectId) (docs : list A) (d : A) :
  key d <> oid -> lookup key oid (docs ++ [d]) = lookup key oid docs.
Proof.
  intros Hd. induction docs as [|x docs IH]; cbn.
  - destruct (N.eqb_spec (key d) oid); [contradiction | reflexivity].
  - destruct (key x =? oid)%N; [reflexivity | exact IH].
Qed.

Lemma remove_app_fresh (oid : ObjectId) (docs : list A) (d : A) :
  ~ In oid (map key docs) -> key d = oid -> remove key oid (docs ++ [d]) = docs.
Proof.
  intros Hfresh Hd. induction docs as [|x docs IH]; cbn.
  - rewrite Hd, N.eqb_refl. reflexivity.
  - destruct (N.eqb_spec (key x) oid) as [E|_].
    + exfalso. apply Hfresh. left. exact E.
    + f_equal. apply IH. intros Hin. apply Hfresh. right. exact Hin.
Qed.

Lemma lookup_modify_other (oid k : ObjectId) (f : A -> A) (docs : list A) :
  (forall d, key (f d) = key d) -> k <> oid ->
  lookup key k (modify key oid f docs) = lookup key k docs.
Proof.
  intros Hf Hk. induction docs as [|d docs IH]; cbn; [reflexivity|].
  destruct (N.eqb_spec (key d) oid) as [E|N]; cbn.
  - rewrite Hf. destruct (N.eqb_spec (key d) k) as [E'|_]; [congruence | reflexivity].
  - destruct (key d =? k)%N; [reflexivity | exact IH].
Qed.

Lemma modify_keeps_ids (oid : ObjectId) (f : A -> A) (docs : list A) :
  (forall d, key (f d) = key d) ->
  map key (modify key oid f docs) = map key docs.
Proof.
  intros Hf. induction docs as [|d docs IH]; cbn; [reflexivity|].
  destruct (key d =? oid)%N; cbn; [rewrite Hf; reflexivity | rewrite IH; reflexivity].
Qed.

Lemma length_modify (oid : ObjectId) (f : A -> A) (docs : list A) :
  List.length (modify key oid f docs) = List.length docs.
Proof.
  induction docs as [|d docs IH]; cbn; [reflexivity|].
  destruct (key d =? oid)%N; cbn; [reflexivity | rewrite IH; reflexivity].
Qed.

(** Applying twice a function that repeats itself is applying it once. *)
Lemma modify_twice (oid : ObjectId) (f : A -> A) (docs : list A) :
  (forall d, key (f d) = key d) -> (forall d, f (f d) = f d) ->
  modify key oid f (modify key oid f docs) = modify key oid f docs.
Proof.
  intros Hk Hf. induction docs as [|d docs IH]; cbn; [reflexivity|].
  destruct (N.eqb_spec (key d) oid) as [E|N]; cbn.
  - rewrite Hk. rewrite (proj2 (N.eqb_eq _ _) E). rewrite Hf. reflexivity.
  - rewrite (proj2 (N.eqb_neq _ _) N). rewrite IH. reflexivity.
Qed.
End MoreCollectionFacts.

Lemma existsb_false_not_in {A} (f : A -> string) (e : string) (l : list A) :
  existsb (fun x => String.eqb (f x) e) l = false -> ~ In e (map f l).
Proof.
  induction l as [|x l IH]; cbn; [tauto|].
  intros H. apply orb_false_iff in H. destruct H as [Hx Hl].
  intros [E|Hin].
  - rewrite E, String.eqb_refl in Hx. discriminate.
  - apply (IH Hl Hin).
Qed.

Section ClientWrites.
Context {num : Type} {RE : RegExpEngine}.

Lemma client_save_new (oid : ObjectId) (n e : string) (db : Db num) :
  n <> "" -> e <> "" -> email_taken db e = false ->
  Client.save oid n e db =
  (Value (new_client oid n e), set_clients db (clients db ++ [new_client oid n e])%list).
Proof.
  intros Hn He Ht. unfold Client.save.
  rewrite (proj2 (String.eqb_neq _ _) Hn), (proj2 (String.eqb_neq _ _) He).
  cbn [orb]. unfold bind at 1. unfold get at 1. unfold email_taken in Ht. rewrite Ht.
  reflexivity.
Qed.

Lemma truthy_text (v : option string) :
  Js.truthy v = true -> v = Some (ClientRoutes.text v) /\ ClientRoutes.text v <> "".
Proof.
  destruct v as [s|]; cbn; [|discriminate].
  destruct s; cbn; [discriminate|]. intros _. split; [reflexivity | discriminate].
Qed.

Lemma post_root_created (oid : ObjectId) (body : RequestBody.client) (db : Db num) :
  Js.truthy (RequestBody.client_name body) = true ->
  Js.truthy (RequestBody.client_email body) = true ->
  email_taken db (ClientRoutes.text (RequestBody.client_email body)) = false ->
  let c := new_client oid (ClientRoutes.text (RequestBody.client_name body))
                      (ClientRoutes.text (RequestBody.client_email body)) in
  ClientRoutes.post_root oid body db =
  ({| status := 201; body := ClientBody (ClientRoutes.formatted c) |},
   set_clients db (clients db ++ [c])%list).
Proof.
  intros Hn He Ht c. unfold ClientRoutes.post_root, try_catch. cbv zeta.
  rewrite Hn, He. cbn [negb orb when_]. unfold bind at 1. unfold ret at 1.
  rewrite (bind_value _ _ _ _ _
             (client_save_new oid _ _ db (proj2 (truthy_text _ Hn))
                              (proj2 (truthy_text _ He)) Ht)).
  reflexivity.
Qed.

(** X1. A client created with a name and an email that no stored client has,
    under a fresh id, is answered 201 with its id, name and email; reading
    the client by the id of the answer gives the same three values. *)
Theorem client_create_then_get (oid : ObjectId) (n e : string) (db : Db num) :
  n <> "" -> e <> "" ->
  email_taken db e = false ->
  ~ In oid (map ClientSchema._id (clients db)) ->
  (oid < 2 ^ 96)%N ->
  let view := {| Express.id := toString oid; Express.name := n; Express.email := e |} in
  exists db',
    ClientRoutes.post_root oid
      {| RequestBody.client_name := Some n; RequestBody.client_email := Some e |} db =
    ({| status := 201; body := ClientBody view |}, db')
    /\ ClientRoutes.get_id (Express.id view) db' =
       ({| status := 200; body := ClientBody view |}, db').
Proof.
  intros Hn He Ht Hfresh Hoid view.
  assert (Tn : Js.truthy (Some n) = true) by (destruct n; [contradiction | reflexivity]).
  assert (Te : Js.truthy (Some e) = true) by (destruct e; [contradiction | reflexivity]).
  eexists. split.
  - apply (post_root_created oid
             {| RequestBody.client_name := Some n; RequestBody.client_email := Some e |} db
             Tn Te Ht).
  - unfold ClientRoutes.get_id, try_catch, Client.findById. cbn [Express.id view].
    rewrite (cast_toString oid Hoid).
    unfold bind at 1. unfold bind at 1. unfold get, ret.
    cbn [clients set_clients RequestBody.client_name RequestBody.client_email ClientRoutes.text].
    rewrite (lookup_app_fresh ClientSchema._id oid (clients db) (new_client oid n e)
               Hfresh eq_refl).
    reflexivity.
Qed.

Lemma post_root_missing (oid : ObjectId) (body : RequestBody.client) (db : Db num) :
  Js.truthy (RequestBody.client_name body) = false
  \/ Js.truthy (RequestBody.client_email body) = false ->
  ClientRoutes.post_root oid body db =
  ({| status := 400; body := Message "Name and email are required" |}, db).
Proof.
  unfold ClientRoutes.post_root, try_catch. cbv zeta.
  intros [H|H]; rewrite H; cbn [negb orb]; [reflexivity|].
  rewrite orb_true_r. reflexivity.
Qed.

Lemma post_root_taken (oid : ObjectId) (body : RequestBody.client) (db : Db num) :
  Js.truthy (RequestBody.client_name body) = true ->
  Js.truthy (RequestBody.client_email body) = true ->
  email_taken db (ClientRoutes.text (RequestBody.client_email body)) = true ->
  ClientRoutes.post_root oid body db =
  ({| status := 400; body := Message "Error creating client" |}, db).
Proof.
  unfold ClientRoutes.post_root, try_catch. cbv zeta.
  intros Hn He Ht. rewrite Hn, He. cbn [negb orb when_].
  unfold bind at 1. unfold ret at 1. unfold bind at 1. unfold Client.save.
  destruct (truthy_text _ Hn) as [_ Hn']. destruct (truthy_text _ He) as [_ He'].
  rewrite (proj2 (String.eqb_neq _ _) Hn'), (proj2 (String.eqb_neq _ _) He').
  cbn [orb]. unfold bind at 1. unfold get at 1.
  unfold email_taken in Ht. rewrite Ht. reflexivity.
Qed.

(** X2. A client is not created, and nothing is stored, when the name or the
    email is absent or empty (400 "Name and email are required") or when a
    stored client already has the email (400 "Error creating client"). *)
Theorem client_create_refusals (oid : ObjectId) (body : RequestBody.client) (db : Db num) :
  (Js.truthy (RequestBody.client_name body) = false
   \/ Js.truthy (RequestBody.client_email body) = false ->
   ClientRoutes.post_root oid body db =
   ({| status := 400; body := Message "Name and email are required" |}, db))
  /\ (Js.truthy (RequestBody.client_name body) = true ->
      Js.truthy (RequestBody.client_email body) = true ->
      email_taken db (ClientRoutes.text (RequestBody.client_email body)) = true ->
      ClientRoutes.post_root oid body db =
      ({| status := 400; body := Message "Error creating client" |}, db)).
Proof.
  split; [apply post_root_missing | apply post_root_taken].
Qed.

(** What the update route does, case by case. *)
Lemma client_put_id_cases (id : string) (body : RequestBody.client) (db : Db num) :
  ClientRoutes.put_id id body db =
  match castObjectId id with
  | None => ({| status := 400; body := Message "Invalid ID format" |}, db)
  | Some oid =>
      match lookup ClientSchema._id oid (clients db) with
      | None => ({| status := 404; body := Message "Client not found" |}, db)
      | Some c =>
          let f := Client.updated (RequestBody.client_name body)
                                  (RequestBody.client_email body) in
          if email_of_another db oid (ClientSchema.email (f c))
          then ({| status := 400; body := Message "Invalid ID format" |}, db)
          else ({| status := 200; body := ClientBody (ClientRoutes.formatted (f c)) |},
                set_clients db (modify ClientSchema._id oid f (clients db)))
      end
  end.
Proof.
  unfold ClientRoutes.put_id, try_catch, Client.findByIdAndUpdate. cbv zeta.
  destruct (castObjectId id) as [oid|]; [|reflexivity].
  unfold bind at 1. unfold bind at 1. unfold get at 1.
  destruct (lookup ClientSchema._id oid (clients db)) as [c|]; [|reflexivity].
  unfold email_of_another.
  destruct (existsb _ (clients db)); reflexivity.
Qed.

Lemma email_of_another_false (db : Db num) (oid : ObjectId) (e : string) :
  email_of_another db oid e = false ->
  forall d, In d (clients db) -> ClientSchema._id d <> oid -> ClientSchema.email d <> e.
Proof.
  unfold email_of_another. intros H d Hin Hid He.
  assert (X : existsb (fun d => negb (ClientSchema._id d =? oid)%N
                                && String.eqb (ClientSchema.email d) e) (clients db) = true).
  { apply existsb_exists. exists d. split; [exact Hin|].
    rewrite (proj2 (N.eqb_neq _ _) Hid), He, String.eqb_refl. reflexivity. }
  congruence.
Qed.

Lemma in_modify (oid : ObjectId) (f : ClientSchema.doc -> ClientSchema.doc)
      (x : ClientSchema.doc) (docs : list ClientSchema.doc) :
  In x (modify ClientSchema._id oid f docs) ->
  In x docs \/ exists d, In d docs /\ x = f d.
Proof.
  induction docs as [|d docs IH]; cbn; [tauto|].
  destruct (ClientSchema._id d =? oid)%N; cbn.
  - intros [<-|Hin]; [right; exists d; split; [left|]; reflexivity | left; right; exact Hin].
  - intros [<-|Hin]; [left; left; reflexivity|].
    destruct (IH Hin) as [H|[d' [H1 H2]]]; [left; right; exact H|].
    right. exists d'. split; [right; exact H1 | exact H2].
Qed.

(** Replacing the one client of an id by a client whose email no other
    client has keeps the emails distinct. *)
Lemma modify_unique_emails (oid : ObjectId) (f : ClientSchema.doc -> ClientSchema.doc)
      (e : string) (docs : list ClientSchema.doc) :
  (forall d, ClientSchema.email (f d) = e) ->
  unique_ids ClientSchema._id docs ->
  unique_emails docs ->
  (forall d, In d docs -> ClientSchema._id d <> oid -> ClientSchema.email d <> e) ->
  unique_emails (modify ClientSchema._id oid f docs).
Proof.
  unfold unique_ids, unique_emails. intros Hf.
  induction docs as [|d docs IH]; cbn; intros Hi He Hother; [constructor|].
  inversion Hi as [|? ? Hi1 Hi2]; subst. inversion He as [|? ? He1 He2]; subst.
  destruct (N.eqb_spec (ClientSchema._id d) oid) as [E|N]; cbn.
  - constructor; [|exact He2]. rewrite Hf. intros Hin.
    apply in_map_iff in Hin. destruct Hin as [x [Hx Hin]].
    apply (Hother x); [right; exact Hin | | exact Hx].
    intros Ex. apply Hi1. rewrite E, <- Ex. apply in_map. exact Hin.
  - constructor.
    + intros Hin. apply in_map_iff in Hin. destruct Hin as [x [Hx Hin]].
      destruct (in_modify _ _ _ _ Hin) as [H|[d' [_ ->]]].
      * apply He1. rewrite <- Hx. apply in_map. exact H.
      * rewrite Hf in Hx. apply (Hother d); [left; reflexivity | exact N | congruence].
    + apply IH; try assumption. intros z Hz. apply Hother. right. exact Hz.
Qed.

Lemma remove_keeps_NoDup {B} (g : ClientSchema.doc -> B) (oid : ObjectId)
      (docs : list ClientSchema.doc) :
  NoDup (map g docs) -> NoDup (map g (remove ClientSchema._id oid docs)).
Proof.
  induction docs as [|d docs IH]; cbn; intros H; [exact H|].
  inversion H as [|? ? H1 H2]; subst.
  destruct (ClientSchema._id d =? oid)%N; cbn; [exact H2|].
  constructor; [|apply IH; exact H2].
  intros Hin. apply H1. clear IH H H1 H2.
  induction docs as [|y docs IHd]; cbn in *; [tauto|].
  destruct (ClientSchema._id y =? oid)%N; cbn in Hin.
  - right. exact Hin.
  - destruct Hin as [E|Hin]; [left; exact E | right; apply IHd; exact Hin].
Qed.

(** X3. The three writes on clients keep the stored clients well-formed: as
    long as a new client gets an id that no stored client has, ids stay
    distinct and emails stay distinct after a creation, an update and a
    deletion, whatever the request and whatever the answer. *)
Theorem client_writes_keep_ids_and_emails_unique (oid : ObjectId) (id : string)
        (body : RequestBody.client) (db : Db num) (r : Response num) (db' : Db num) :
  unique_ids ClientSchema._id (clients db) ->
  unique_emails (clients db) ->
  (~ In oid (map ClientSchema._id (clients db)) /\ ClientRoutes.post_root oid body db = (r, db'))
  \/ ClientRoutes.put_id id body db = (r, db')
  \/ ClientRoutes.delete_id id db = (r, db') ->
  unique_ids ClientSchema._id (clients db') /\ unique_emails (clients db').
Proof.
  intros Hi He [[Hfresh H] | [H | H]].
  - destruct (Js.truthy (RequestBody.client_name body)) eqn:Tn.
    2:{ rewrite (post_root_missing oid body db (or_introl Tn)) in H.
        injection H as _ <-. split; assumption. }
    destruct (Js.truthy (RequestBody.client_email body)) eqn:Te.
    2:{ rewrite (post_root_missing oid body db (or_intror Te)) in H.
        injection H as _ <-. split; assumption. }
    destruct (email_taken db (ClientRoutes.text (RequestBody.client_email body))) eqn:Ht.
    + rewrite (post_root_taken oid body db Tn Te Ht) in H.
      injection H as _ <-. split; assumption.
    + rewrite (post_root_created oid body db Tn Te Ht) in H.
      injection H as _ <-. cbn [clients set_clients].
      unfold unique_ids, unique_emails in *. rewrite !map_app. cbn [map new_client].
      assert (Hone : forall (B : Type) (b : B), NoDup [b])
        by (intros B b; constructor; [intros [] | constructor]).
      split; apply NoDup_app; try assumption; try apply Hone.
      * intros k Hk [<-|[]]. apply Hfresh. exact Hk.
      * intros k Hk [<-|[]].
        apply (existsb_false_not_in ClientSchema.email _ (clients db) Ht). exact Hk.
  - rewrite client_put_id_cases in H.
    destruct (castObjectId id) as [o|]; [|injection H as _ <-; split; assumption].
    destruct (lookup ClientSchema._id o (clients db)) as [c|] eqn:Hl;
      [|injection H as _ <-; split; assumption].
    cbv zeta in H.
    destruct (email_of_another db o _) eqn:Ho; [injection H as _ <-; split; assumption|].
    injection H as _ <-. cbn [clients set_clients]. split.
    + unfold unique_ids. rewrite modify_keeps_ids; [exact Hi | reflexivity].
    + destruct (lookup_found _ _ _ _ Hl) as [Hin Hid].
      destruct (RequestBody.client_email body) as [e|] eqn:Eb.
      * apply (modify_unique_emails o _ e); try assumption; [reflexivity|].
        apply (email_of_another_false db o e). exact Ho.
      * (* the email is left as it is *)
        assert (Hsame : map ClientSchema.email
                          (modify ClientSchema._id o
                             (Client.updated (RequestBody.client_name body) None) (clients db))
                        = map ClientSchema.email (clients db)).
        { clear. induction (clients db) as [|d l IH]; cbn; [reflexivity|].
          destruct (ClientSchema._id d =? o)%N; cbn; [reflexivity | rewrite IH; reflexivity]. }
        unfold unique_emails. rewrite Hsame. exact He.
  - pose proof (client_delete_keeps_unique_ids id db r db' H Hi) as Hi'.
    split; [exact Hi'|].
    revert H. unfold ClientRoutes.delete_id, Client.findByIdAndDelete. run.
    destruct (castObjectId id) as [o|]; cbn.
    + destruct (lookup ClientSchema._id o (clients db)); cbn; intros [= _ <-].
      * cbn. apply remove_keeps_NoDup. exact He.
      * exact He.
    + intros [= _ <-]. exact He.
Qed.

(** X4. An update with a name and an email that no other client has, for the
    id of a stored client, is answered 200 with the id and the new values;
    afterwards the client of this id has the new name and email, every
    other client is as it was, the number of clients is the same, and
    orders, products and users are untouched. *)
Theorem client_update_changes_one (id : string) (oid : ObjectId) (c : ClientSchema.doc)
        (n e : string) (db : Db num) :
  castObjectId id = Some oid ->
  lookup ClientSchema._id oid (clients db) = Some c ->
  email_of_another db oid e = false ->
  exists db',
    ClientRoutes.put_id id
      {| RequestBody.client_name := Some n; RequestBody.client_email := Some e |} db =
    ({| status := 200;
        body := ClientBody {| Express.id := toString oid; Express.name := n;
                              Express.email := e |} |}, db')
    /\ lookup ClientSchema._id oid (clients db') = Some (new_client oid n e)
    /\ (forall k, k <> oid ->
                  lookup ClientSchema._id k (clients db') = lookup ClientSchema._id k (clients db))
    /\ List.length (clients db') = List.length (clients db)
    /\ orders db' = orders db /\ products db' = products db /\ users db' = users db.
Proof.
  intros Hc Hl Ho. destruct (lookup_found _ _ _ _ Hl) as [_ Hid].
  exists (set_clients db (modify ClientSchema._id oid (Client.updated (Some n) (Some e))
                                 (clients db))).
  split; [|split; [|split; [|split; [|split; [|split]]]]]; try reflexivity.
  - rewrite client_put_id_cases, Hc, Hl. cbv zeta.
    cbn [RequestBody.client_name RequestBody.client_email].
    unfold Client.updated at 1. cbn [ClientSchema.email].
    rewrite Ho. unfold ClientRoutes.formatted, Client.updated.
    cbn [ClientSchema._id ClientSchema.name ClientSchema.email]. rewrite Hid. reflexivity.
  - cbn [clients set_clients]. rewrite lookup_modify by reflexivity. rewrite Hl.
    unfold Client.updated. cbn [option_map]. rewrite Hid. reflexivity.
  - intros k Hk. cbn [clients set_clients].
    apply lookup_modify_other; [reflexivity | exact Hk].
  - cbn [clients set_clients]. apply length_modify.
Qed.

(** X5. An update changes nothing when it is refused: 400 "Invalid ID format"
    for a text that is not an id, 404 "Client not found" for an id that no
    client has, and, for an email that another client already has, the same
    400 "Invalid ID format" as for a text that is not an id. *)
Theorem client_update_refusals (id : string) (body : RequestBody.client) (db : Db num) :
  (castObjectId id = None ->
   ClientRoutes.put_id id body db =
   ({| status := 400; body := Message "Invalid ID format" |}, db))
  /\ (forall oid,
         castObjectId id = Some oid ->
         lookup ClientSchema._id oid (clients db) = None ->
         ClientRoutes.put_id id body db =
         ({| status := 404; body := Message "Client not found" |}, db))
  /\ (forall oid c e,
         castObjectId id = Some oid ->
         lookup ClientSchema._id oid (clients db) = Some c ->
         RequestBody.client_email body = Some e ->
         email_of_another db oid e = true ->
         ClientRoutes.put_id id body db =
         ({| status := 400; body := Message "Invalid ID format" |}, db)).
Proof.
  rewrite client_put_id_cases. split; [|split].
  - intros ->. reflexivity.
  - intros oid -> ->. reflexivity.
  - intros oid c e -> -> He Ho. cbv zeta. rewrite He.
    cbn [Client.updated ClientSchema.email]. rewrite Ho. reflexivity.
Qed.
End ClientWrites.

(* ------------------------------------------------------------------------- *)
(** ** Pages of clients *)
(* ------------------------------------------------------------------------- *)

Lemma firstn_plus {A} (a b : nat) (xs : list A) :
  firstn (a + b) xs = (firstn a xs ++ firstn b (skipn a xs))%list.
Proof.
  revert xs. induction a as [|a IH]; intros xs; [reflexivity|].
  destruct xs as [|x xs]; cbn.
  - destruct b; reflexivity.
  - rewrite IH. reflexivity.
Qed.

(** Slices of [L] elements, one after the other, make up the start of the
    list. *)
Lemma concat_slices {A} (L : nat) (xs : list A) (k : nat) :
  List.concat (map (fun i => firstn L (skipn (i * L) xs)) (seq 0 k)) = firstn (k * L) xs.
Proof.
  induction k as [|k IH]; [reflexivity|].
  rewrite seq_S, map_app, concat_app, IH. cbn [map List.concat Nat.add].
  rewrite app_nil_r, <- firstn_plus. f_equal. lia.
Qed.

Lemma map_through {S I B C} (g : S -> B) (h : I -> B) (F : S -> C) (G : I -> C) :
  forall (ss : list S) (js : list I),
    (forall s i, In i js -> g s = h i -> F s = G i) ->
    map g ss = map h js -> map F ss = map G js.
Proof.
  induction ss as [|s ss IH]; intros [|i js] H E; try discriminate; [reflexivity|].
  cbn in E. injection E as E1 E2. cbn.
  rewrite (H s i (or_introl eq_refl) E1), (IH js); [reflexivity | | exact E2].
  intros s' i' Hin. apply H. right. exact Hin.
Qed.

Section Pages.
Context {num : Type} {RE : RegExpEngine}.

(** The answer of the list route whenever the offset is not negative. *)
Lemma get_root_answer (q : ClientRoutes.ListQuery) (db : Db num) (p l : Z)
      (fn fe : option (string -> bool)) :
  ClientRoutes.parsed 1 (ClientRoutes.page q) = Some p ->
  ClientRoutes.parsed 10 (ClientRoutes.limit q) = Some l ->
  0 <= (p - 1) * l ->
  compiled (ClientRoutes.name q) = Some fn ->
  compiled (ClientRoutes.email q) = Some fe ->
  ClientRoutes.get_root q db =
  ({| status := 200;
      body := Page (List.length (matching fn fe db)) (Some p) (Some l)
                (Js.ceil_div (List.length (matching fn fe db)) (Some l))
                (map ClientRoutes.formatted
                   (let rest := skipn (Z.to_nat ((p - 1) * l)) (matching fn fe db) in
                    if l =? 0 then rest else firstn (Z.to_nat (Z.abs l)) rest)) |},
   db).
Proof.
  intros Hp Hl Hoff Hn He.
  unfold ClientRoutes.get_root, try_catch. cbv zeta. rewrite Hp, Hl.
  rewrite (bind_value _ _ _ _ _ (filter_of_compiled _ _ db Hn)).
  rewrite (bind_value _ _ _ _ _ (filter_of_compiled _ _ db He)).
  unfold bind at 1. unfold Client.countDocuments at 1.
  unfold bind at 1. unfold get at 1. unfold ret at 1.
  unfold bind at 1. unfold Client.find at 1.
  unfold bind at 1. unfold get at 1.
  unfold Js.offset, skip_limit.
  destruct (Z.ltb_spec ((p - 1) * l) 0) as [Hneg|_]; [lia|].
  reflexivity.
Qed.

(** X6. Pages 1 to k of the same list query, for a limit of at least 1 and
    enough pages to reach the total, put one after the other, are the whole
    list of matching clients: every client once, in stored order. *)
Theorem pages_cover_the_list (q : ClientRoutes.ListQuery) (db : Db num) (l : Z)
        (fn fe : option (string -> bool)) (pages : list string) (k : nat) :
  ClientRoutes.parsed 10 (ClientRoutes.limit q) = Some l ->
  1 <= l ->
  compiled (ClientRoutes.name q) = Some fn ->
  compiled (ClientRoutes.email q) = Some fe ->
  map Js.parseInt pages = map (fun i => Some (Z.of_nat i)) (seq 1 k) ->
  (List.length (matching fn fe db) <= k * Z.to_nat l)%nat ->
  List.concat (map (fun s => data_of (fst (ClientRoutes.get_root (with_page q s) db))) pages)
  = map ClientRoutes.formatted (matching fn fe db).
Proof.
  intros Hl Hl1 Hn He Hpages Hk.
  rewrite (map_through Js.parseInt (fun i => Some (Z.of_nat i))
             (fun s => data_of (fst (ClientRoutes.get_root (with_page q s) db)))
             (fun i => map ClientRoutes.formatted
                         (firstn (Z.to_nat l)
                                 (skipn ((i - 1) * Z.to_nat l) (matching fn fe db))))
             pages (seq 1 k)); [| |exact Hpages].
  - rewrite <- seq_shift, map_map.
    rewrite (map_ext _ (fun i => map ClientRoutes.formatted
                                   (firstn (Z.to_nat l)
                                           (skipn (i * Z.to_nat l) (matching fn fe db))))).
    2:{ intros i. do 3 f_equal. lia. }
    rewrite <- (map_map (fun i => firstn (Z.to_nat l) (skipn (i * Z.to_nat l) (matching fn fe db)))
                        (map ClientRoutes.formatted)).
    rewrite <- concat_map, concat_slices. f_equal.
    apply firstn_all2. exact Hk.
  - intros s i Hin Hs. apply in_seq in Hin.
    rewrite (get_root_answer (with_page q s) db (Z.of_nat i) l fn fe);
      [| exact Hs | exact Hl | nia | exact Hn | exact He].
    cbn [fst data_of body]. destruct (Z.eqb_spec l 0) as [E|_]; [lia|].
    cbv zeta. rewrite (Z.abs_eq l) by lia. do 3 f_equal. nia.
Qed.

(** X7. A limit of 0 is no limit: for every page from 1 to 2^53, the answer
    is 200 with every matching client, and [totalPages] is not a number of
    pages (Infinity, or NaN when nothing matches). *)
Theorem limit_zero_lifts_the_limit (q : ClientRoutes.ListQuery) (db : Db num) (p : Z)
        (fn fe : option (string -> bool)) :
  ClientRoutes.parsed 1 (ClientRoutes.page q) = Some p ->
  ClientRoutes.parsed 10 (ClientRoutes.limit q) = Some 0 ->
  1 <= p <= 2 ^ 53 ->
  compiled (ClientRoutes.name q) = Some fn ->
  compiled (ClientRoutes.email q) = Some fe ->
  ClientRoutes.get_root q db =
  ({| status := 200;
      body := Page (List.length (matching fn fe db)) (Some p) (Some 0)
                (match matching fn fe db with [] => Js.NaN | _ :: _ => Js.Infinity end)
                (map ClientRoutes.formatted (matching fn fe db)) |},
   db).
Proof.
  intros Hp Hl _ Hn He.
  rewrite (get_root_answer q db p 0 fn fe Hp Hl ltac:(lia) Hn He).
  replace ((p - 1) * 0) with 0 by lia. cbn [Z.to_nat skipn Z.eqb].
  unfold Js.ceil_div. cbn [Z.eqb].
  destruct (matching fn fe db); reflexivity.
Qed.

(** X8. A page that starts at or after the end of the matching clients is
    answered 200 with the total and an empty [data], not with an error; page
    and limit are integers from 1 to 2^53 whose offset (page - 1) * limit is
    at most 2^53. *)
Theorem page_past_the_end_is_empty (q : ClientRoutes.ListQuery) (db : Db num) (p l : Z)
        (fn fe : option (string -> bool)) :
  ClientRoutes.parsed 1 (ClientRoutes.page q) = Some p ->
  ClientRoutes.parsed 10 (ClientRoutes.limit q) = Some l ->
  1 <= p <= 2 ^ 53 ->
  1 <= l <= 2 ^ 53 ->
  (p - 1) * l <= 2 ^ 53 ->
  Z.of_nat (List.length (matching fn fe db)) <= (p - 1) * l ->
  compiled (ClientRoutes.name q) = Some fn ->
  compiled (ClientRoutes.email q) = Some fe ->
  ClientRoutes.get_root q db =
  ({| status := 200;
      body := Page (List.length (matching fn fe db)) (Some p) (Some l)
                (Js.ceil_div (List.length (matching fn fe db)) (Some l)) [] |},
   db).
Proof.
  intros Hp Hl _ [Hl1 _] _ Hpast Hn He.
  rewrite (get_root_answer q db p l fn fe Hp Hl ltac:(lia) Hn He).
  destruct (Z.eqb_spec l 0) as [E|_]; [lia|]. cbv zeta.
  rewrite skipn_all2 by lia. rewrite firstn_nil. reflexivity.
Qed.
End Pages.

(* ------------------------------------------------------------------------- *)
(** ** Orders: cancelling, updating, and the routes of a client *)
(* ------------------------------------------------------------------------- *)

Section Gate.
Context {num : Type} {JWT : Jwt}.

Lemma authMiddleware_gate_cases (now : Z) (authorization : option string)
      (next : Payload -> Handler num) (db : Db num) :
  AuthMiddleware.authMiddleware now authorization next db =
  match gate now authorization with
  | inl r => (r, db)
  | inr decoded => next decoded db
  end.
Proof.
  unfold AuthMiddleware.authMiddleware, gate.
  destruct (negb (Js.truthy authorization)); [reflexivity|].
  destruct (verify _ _ _); reflexivity.
Qed.

Lemma authMiddleware_view_cases {A} (now : Z) (authorization : option string)
      (next : Payload -> Db num -> Views.Answer num A * Db num) (db : Db num) :
  AuthMiddleware.authMiddleware_view now authorization next db =
  match gate now authorization with
  | inl r => (Views.Refused r, db)
  | inr decoded => next decoded db
  end.
Proof.
  unfold AuthMiddleware.authMiddleware_view, gate.
  destruct (negb (Js.truthy authorization)); [reflexivity|].
  destruct (verify _ _ _); reflexivity.
Qed.

Lemma gate_refusal_401 (now : Z) (authorization : option string) (r : Response num) :
  gate now authorization = inl r -> status r = 401.
Proof.
  unfold gate. destruct (negb (Js.truthy authorization)); [intros [= <-]; reflexivity|].
  destruct (verify _ _ _); [discriminate | intros [= <-]; reflexivity].
Qed.
End Gate.

Section OrderMore.
Context {num : Type} {NN : Numeric num} {JWT : Jwt}.

Lemma patch_cancel_cases (id : string) (db : Db num) :
  OrderRoutes.patch_cancel id db =
  match castObjectId id with
  | None => ({| status := 400;
                body := MessageError "Error canceling order"
                          (message (CastError id "_id" "Order")) |}, db)
  | Some oid =>
      match lookup OrderSchema._id oid (orders db) with
      | None => ({| status := 404; body := Message "Order not found" |}, db)
      | Some o =>
          ({| status := 200; body := OrderBody (Order.with_status OrderSchema.canceled o) |},
           set_orders db (modify OrderSchema._id oid
                                 (Order.with_status OrderSchema.canceled) (orders db)))
      end
  end.
Proof.
  unfold OrderRoutes.patch_cancel, try_catch, Order.findByIdAndUpdate_status.
  destruct (castObjectId id) as [oid|]; [|reflexivity].
  unfold bind at 1. unfold bind at 1. unfold get at 1.
  destruct (lookup OrderSchema._id oid (orders db)); reflexivity.
Qed.

(** X9. Cancelling the order of an id sets its status to canceled whatever
    the status was, is answered 200 with the order, and leaves every other
    order as it was; cancelling again gives the same answer and the same
    database. An id that no order has is answered 404 and changes nothing. *)
Theorem cancel_is_unconditional_and_idempotent (id : string) (oid : ObjectId) (db : Db num) :
  castObjectId id = Some oid ->
  (forall o,
      lookup OrderSchema._id oid (orders db) = Some o ->
      exists db',
        OrderRoutes.patch_cancel id db =
        ({| status := 200; body := OrderBody (Order.with_status OrderSchema.canceled o) |}, db')
        /\ lookup OrderSchema._id oid (orders db') = Some (Order.with_status OrderSchema.canceled o)
        /\ (forall k, k <> oid ->
                      lookup OrderSchema._id k (orders db') = lookup OrderSchema._id k (orders db))
        /\ OrderRoutes.patch_cancel id db' =
           ({| status := 200; body := OrderBody (Order.with_status OrderSchema.canceled o) |}, db'))
  /\ (lookup OrderSchema._id oid (orders db) = None ->
      OrderRoutes.patch_cancel id db =
      ({| status := 404; body := Message "Order not found" |}, db)).
Proof.
  intros Hc. split.
  - intros o Hl.
    exists (set_orders db (modify OrderSchema._id oid
                                  (Order.with_status OrderSchema.canceled) (orders db))).
    assert (Hl' : lookup OrderSchema._id oid
                    (modify OrderSchema._id oid (Order.with_status OrderSchema.canceled)
                            (orders db))
                  = Some (Order.with_status OrderSchema.canceled o)).
    { rewrite lookup_modify by reflexivity. rewrite Hl. reflexivity. }
    split; [|split; [|split]].
    + rewrite patch_cancel_cases, Hc, Hl. reflexivity.
    + exact Hl'.
    + intros k Hk. cbn [orders set_orders].
      apply lookup_modify_other; [reflexivity | exact Hk].
    + rewrite patch_cancel_cases, Hc. cbn [orders set_orders]. rewrite Hl'.
      rewrite modify_twice by reflexivity. reflexivity.
  - intros Hl. rewrite patch_cancel_cases, Hc, Hl. reflexivity.
Qed.

(** X10. An update of the items of a stored order, when every item resolves,
    changes the items and the total of this order only: its id, client,
    status and creation time stay, every other order is as it was, and
    clients, products and users are untouched. *)
Theorem order_update_changes_items_only (id : string) (oid : ObjectId)
        (o : OrderSchema.doc num) (body : RequestBody.order num) (db : Db num)
        (items : list (Order.ItemInput num)) (lines : list num) :
  RequestBody.items body = Some items ->
  line_totals db items = Some lines ->
  castObjectId id = Some oid ->
  lookup OrderSchema._id oid (orders db) = Some o ->
  exists o' db',
    OrderRoutes.put_id id body db = ({| status := 200; body := OrderBody o' |}, db')
    /\ lookup OrderSchema._id oid (orders db') = Some o'
    /\ Order.castItems items = Some (OrderSchema.items o')
    /\ OrderSchema.totalPrice o' = sum_in_order lines
    /\ OrderSchema._id o' = OrderSchema._id o
    /\ OrderSchema.clientId o' = OrderSchema.clientId o
    /\ OrderSchema.status o' = OrderSchema.status o
    /\ OrderSchema.createdAt o' = OrderSchema.createdAt o
    /\ (forall k, k <> oid ->
                  lookup OrderSchema._id k (orders db') = lookup OrderSchema._id k (orders db))
    /\ clients db' = clients db /\ products db' = products db /\ users db' = users db.
Proof.
  intros Hi Hlines Hc Hl.
  destruct (resolved_items_cast db items lines Hlines) as [its [Hcast _]].
  exists (Order.with_items its (sum_in_order lines) o).
  exists (set_orders db (modify OrderSchema._id oid
                                (Order.with_items its (sum_in_order lines)) (orders db))).
  split; [|split; [|split; [|repeat split]]].
  - rewrite (put_id_cases id body db items Hi). unfold totalPrice_loop.
    rewrite (loop_all_resolved db items lines zero Hlines), Hc, Hcast, Hl. reflexivity.
  - cbn [orders set_orders]. rewrite lookup_modify by reflexivity. rewrite Hl. reflexivity.
  - exact Hcast.
  - intros k Hk. cbn [orders set_orders].
    apply lookup_modify_other; [reflexivity | exact Hk].
Qed.

(** The routes of a client, once the middleware lets the request through:
    each stops at the first function of a model that it calls without the
    model. Creating with no item calls none. *)
Lemma scoped_reads_past_the_gate (now : Z) (authorization : option string)
      (decoded : Payload) (clientId orderId : string) (db : Db num) :
  gate (num := num) now authorization = inr decoded ->
  ClientOrdersRoutes.get_orders now authorization clientId db =
  (Views.Refused {| status := 400;
                    body := MessageError "Error fetching client orders"
                              (message (NoModel "find")) |}, db)
  /\ ClientOrdersRoutes.get_order now authorization clientId orderId db =
     (Views.Refused {| status := 400;
                       body := MessageError "Error fetching order"
                                 (message (NoModel "findOne")) |}, db).
Proof.
  intros Hg. unfold ClientOrdersRoutes.get_orders, ClientOrdersRoutes.get_order.
  rewrite !authMiddleware_view_cases, Hg. split; reflexivity.
Qed.

Lemma scoped_put_cases (now : Z) (authorization : option string) (decoded : Payload)
      (clientId orderId : string) (body : RequestBody.order num) (db : Db num) :
  gate (num := num) now authorization = inr decoded ->
  ClientOrdersRoutes.put_order now authorization clientId orderId body db =
  ({| status := 400;
      body := MessageError "Error updating order"
                (message match RequestBody.items body with
                         | None => TypeError "items is not iterable"
                         | Some [] => NoModel "findOneAndUpdate"
                         | Some (_ :: _) => NoModel "findById"
                         end) |}, db).
Proof.
  intros Hg. unfold ClientOrdersRoutes.put_order.
  rewrite authMiddleware_gate_cases, Hg.
  destruct (RequestBody.items body) as [[|i rest]|]; reflexivity.
Qed.

Lemma scoped_delete_cases (now : Z) (authorization : option string) (decoded : Payload)
      (clientId orderId : string) (db : Db num) :
  gate (num := num) now authorization = inr decoded ->
  ClientOrdersRoutes.delete_order now authorization clientId orderId db =
  ({| status := 400;
      body := MessageError "Error deleting order"
                (message (NoModel "findOneAndDelete")) |}, db).
Proof.
  intros Hg. unfold ClientOrdersRoutes.delete_order.
  rewrite authMiddleware_gate_cases, Hg. reflexivity.
Qed.

Lemma scoped_post_cases (oid : ObjectId) (now : Z) (authorization : option string)
      (decoded : Payload) (clientId : string) (body : RequestBody.order num)
      (db : Db num) :
  gate (num := num) now authorization = inr decoded ->
  ClientOrdersRoutes.post_orders oid now authorization clientId body db =
  match RequestBody.items body with
  | None => ({| status := 400;
                body := MessageError "Error creating order"
                          (message (TypeError "items is not iterable")) |}, db)
  | Some (_ :: _) => ({| status := 400;
                         body := MessageError "Error creating order"
                                   (message (NoModel "findById")) |}, db)
  | Some [] =>
      match castObjectId clientId with
      | None => ({| status := 400;
                    body := MessageError "Error creating order"
                              (message (ValidationError "Order")) |}, db)
      | Some cid =>
          ({| status := 201; body := OrderBody (created oid now cid [] zero) |},
           set_orders db (orders db ++ [created oid now cid [] zero])%list)
      end
  end.
Proof.
  intros Hg. unfold ClientOrdersRoutes.post_orders.
  rewrite authMiddleware_gate_cases, Hg.
  unfold ClientOrdersRoutes.post_orders_handler.
  destruct (RequestBody.items body) as [[|i rest]|] eqn:Hi; [|reflexivity|reflexivity].
  unfold try_catch. cbv zeta.
  unfold iterable. unfold bind at 1. unfold ret at 1.
  unfold bind at 1.
  change (ClientOrdersRoutes.totalPrice_loop [] db) with (@Value num num zero, db).
  cbv beta iota. unfold bind at 1. rewrite save_cases.
  unfold Order.validate. cbn [Order.clientId Order.items Order.totalPrice].
  destruct (castObjectId clientId) as [cid|]; reflexivity.
Qed.

(** C3 on the client-scoped create route. With a token that verifies and a
    client id that is an ObjectId, a request without items is answered 201
    and its order is stored for this client id, whether a client has it or
    not: the route never looks the client up. (The top-level route answers
    400 "Invalid client ID" to the same body when no client has the id.) A
    request with items does not get that far: the route calls [findById] as a
    function imported by name from the Product model, without the model, so
    the first item is answered 400 and nothing is stored. *)
Theorem client_scoped_create_skips_the_client (oid : ObjectId) (now : Z)
        (authorization : option string) (decoded : Payload) (clientId : string)
        (cid : ObjectId) (body : RequestBody.order num) (db : Db num) :
  gate (num := num) now authorization = inr decoded ->
  castObjectId clientId = Some cid ->
  (RequestBody.items body = Some [] ->
   ClientOrdersRoutes.post_orders oid now authorization clientId body db =
   ({| status := 201; body := OrderBody (created oid now cid [] zero) |},
    set_orders db (orders db ++ [created oid now cid [] zero])%list))
  /\ (forall i rest,
         RequestBody.items body = Some (i :: rest) ->
         ClientOrdersRoutes.post_orders oid now authorization clientId body db =
         ({| status := 400;
             body := MessageError "Error creating order"
                       (message (NoModel "findById")) |}, db))
  /\ (lookup ClientSchema._id cid (clients db) = None ->
      OrderRoutes.post_root oid now
        {| RequestBody.clientId := Some clientId;
           RequestBody.items := RequestBody.items body;
           RequestBody.totalPrice := RequestBody.totalPrice body |} db =
      ({| status := 400; body := Message "Invalid client ID" |}, db)).
Proof.
  intros Hg Hc.
  pose proof (scoped_post_cases oid now authorization decoded clientId body db Hg) as H.
  split; [|split].
  - intros Hi. rewrite H, Hi, Hc. reflexivity.
  - intros i rest Hi. rewrite H, Hi. reflexivity.
  - intros Hl.
    pose proof (post_root_client_cases oid now
                  {| RequestBody.clientId := Some clientId;
                     RequestBody.items := RequestBody.items body;
                     RequestBody.totalPrice := RequestBody.totalPrice body |} db) as Hp.
    cbn [RequestBody.clientId] in Hp. rewrite Hc in Hp. exact (Hp Hl).
Qed.

Lemma order_delete_cases (id : string) (db : Db num) :
  OrderRoutes.delete_id id db =
  match castObjectId id with
  | None => ({| status := 400; body := Message "Invalid ID format" |}, db)
  | Some oid =>
      match lookup OrderSchema._id oid (orders db) with
      | None => ({| status := 404; body := Message "Order not found" |}, db)
      | Some o => ({| status := 200; body := Message "Order deleted successfully" |},
                   set_orders db (remove OrderSchema._id oid (orders db)))
      end
  end.
Proof.
  unfold OrderRoutes.delete_id, Order.findByIdAndDelete, try_catch.
  destruct (castObjectId id) as [oid|]; [|reflexivity].
  unfold bind at 1. unfold bind at 1. unfold get at 1.
  destruct (lookup OrderSchema._id oid (orders db)); reflexivity.
Qed.

(** X11. With a token that verifies, the routes of a client that read,
    update or delete orders are answered 400 whatever the client, the order
    and the body, and change nothing: each calls a function of a model that
    it imports by name, without the model. No order is read, updated or
    deleted through them, whoever it belongs to. *)
Theorem client_routes_answer_400 (now : Z) (authorization : option string)
        (decoded : Payload) (clientId orderId : string)
        (body : RequestBody.order num) (db : Db num) :
  gate (num := num) now authorization = inr decoded ->
  (exists r, ClientOrdersRoutes.get_orders now authorization clientId db
             = (Views.Refused r, db) /\ status r = 400)
  /\ (exists r, ClientOrdersRoutes.get_order now authorization clientId orderId db
                = (Views.Refused r, db) /\ status r = 400)
  /\ (exists r, ClientOrdersRoutes.put_order now authorization clientId orderId body db
                = (r, db) /\ status r = 400)
  /\ (exists r, ClientOrdersRoutes.delete_order now authorization clientId orderId db
                = (r, db) /\ status r = 400).
Proof.
  intros Hg.
  destruct (scoped_reads_past_the_gate now authorization decoded clientId orderId db Hg)
    as [H1 H2].
  split; [|split; [|split]].
  - rewrite H1. eexists. split; reflexivity.
  - rewrite H2. eexists. split; reflexivity.
  - rewrite (scoped_put_cases now authorization decoded clientId orderId body db Hg).
    eexists. split; reflexivity.
  - rewrite (scoped_delete_cases now authorization decoded clientId orderId db Hg).
    eexists. split; reflexivity.
Qed.

(** X12. Without a token that verifies, none of the five routes of a client
    reads or writes anything: each answers the 401 of the middleware and
    leaves the database as it was. *)
Theorem client_routes_need_a_token (oid : ObjectId) (now : Z) (authorization : option string)
        (r : Response num) (clientId orderId : string) (body : RequestBody.order num)
        (db : Db num) :
  gate now authorization = inl r ->
  status r = 401
  /\ ClientOrdersRoutes.get_orders now authorization clientId db = (Views.Refused r, db)
  /\ ClientOrdersRoutes.post_orders oid now authorization clientId body db = (r, db)
  /\ ClientOrdersRoutes.get_order now authorization clientId orderId db = (Views.Refused r, db)
  /\ ClientOrdersRoutes.put_order now authorization clientId orderId body db = (r, db)
  /\ ClientOrdersRoutes.delete_order now authorization clientId orderId db = (r, db).
Proof.
  intros Hg. split; [exact (gate_refusal_401 _ _ _ Hg)|].
  unfold ClientOrdersRoutes.get_orders, ClientOrdersRoutes.post_orders,
    ClientOrdersRoutes.get_order, ClientOrdersRoutes.put_order,
    ClientOrdersRoutes.delete_order.
  rewrite !authMiddleware_gate_cases, !authMiddleware_view_cases, Hg.
  repeat split.
Qed.

End OrderMore.

(* ------------------------------------------------------------------------- *)
(** ** Orders: reading what was written *)
(* ------------------------------------------------------------------------- *)

Lemma set_orders_same {num} (db : Db num) : set_orders db (orders db) = db.
Proof. destruct db; reflexivity. Qed.

Section OrderReads.
Context {num : Type} {NN : Numeric num}.

Lemma order_get_id_cases (id : string) (db : Db num) :
  OrderRoutes.get_id id db =
  match castObjectId id with
  | None => (Views.Refused {| status := 400; body := Message "Invalid ID format" |}, db)
  | Some oid =>
      match lookup OrderSchema._id oid (orders db) with
      | None => (Views.Refused {| status := 404; body := Message "Order not found" |}, db)
      | Some o => (Views.Json (OrderRoutes.by_id db o), db)
      end
  end.
Proof.
  unfold OrderRoutes.get_id, Views.try_catch_view, Order.findById.
  destruct (castObjectId id) as [oid|]; [|reflexivity].
  unfold bind at 1. unfold bind at 1. unfold get at 1. unfold ret at 1.
  destruct (lookup OrderSchema._id oid (orders db)); reflexivity.
Qed.

(** Items that resolve are shown with their products. *)
Lemma resolved_items_populate (db : Db num) (items : list (Order.ItemInput num)) :
  forall lines its,
    line_totals db items = Some lines ->
    Order.castItems items = Some its ->
    Forall (fun v => Views.Item.productId v <> None) (Order.populate_items db its)
    /\ map Views.Item.quantity (Order.populate_items db its) = map Order.quantity items.
Proof.
  induction items as [|i rest IH]; intros lines its Hl Hc.
  - injection Hc as <-. split; [constructor | reflexivity].
  - cbn [line_totals] in Hl. unfold resolve in Hl.
    cbn [Order.castItems] in Hc. unfold Order.castItem in Hc.
    destruct (castObjectId (Order.productId i)) as [pid|]; [|discriminate].
    destruct (lookup ProductSchema._id pid (products db)) as [p|] eqn:Hp; [|discriminate].
    destruct (line_totals db rest) as [ls|]; [|discriminate].
    destruct (Order.castItems rest) as [its'|]; [|discriminate].
    injection Hc as <-. destruct (IH ls its' eq_refl eq_refl) as [H1 H2].
    cbn [Order.populate_items map OrderSchema.productId OrderSchema.quantity
         Views.Item.quantity].
    rewrite Hp. split.
    + constructor; [cbn; discriminate | exact H1].
    + f_equal. exact H2.
Qed.

(** X14. An order created for a client that resolves, with items that resolve
    and quantities of at least 1, under a fresh id, can be read back by the id
    of the answer: the order is shown with the client's name and email, every
    item with its product and the quantity that was sent, the total that was
    computed, the status pending and the time of the creation. *)
Theorem order_create_then_get (oid : ObjectId) (now : Z) (body : RequestBody.order num)
        (db : Db num) (c : string) (cid : ObjectId) (cl : ClientSchema.doc)
        (items : list (Order.ItemInput num)) (lines : list num) :
  RequestBody.clientId body = Some c ->
  castObjectId c = Some cid ->
  lookup ClientSchema._id cid (clients db) = Some cl ->
  RequestBody.items body = Some items ->
  line_totals db items = Some lines ->
  forallb (fun i => leb one (Order.quantity i)) items = true ->
  ~ In oid (map OrderSchema._id (orders db)) ->
  (oid < 2 ^ 96)%N ->
  exists o db' v,
    OrderRoutes.post_root oid now body db = ({| status := 201; body := OrderBody o |}, db')
    /\ OrderRoutes.get_id (toString (OrderSchema._id o)) db' = (Views.Json v, db')
    /\ Views.OrderById.id v = oid
    /\ Views.OrderById.clientId v =
       Some {| Views.PopulatedClient._id := ClientSchema._id cl;
               Views.PopulatedClient.name := ClientSchema.name cl;
               Views.PopulatedClient.email := ClientSchema.email cl |}
    /\ Forall (fun i => Views.Item.productId i <> None) (Views.OrderById.items v)
    /\ map Views.Item.quantity (Views.OrderById.items v) = map Order.quantity items
    /\ Views.OrderById.totalPrice v = sum_in_order lines
    /\ Views.OrderById.status v = OrderSchema.pending
    /\ Views.OrderById.createdAt v = now.
Proof.
  intros Hb Hc Hl Hi Hlines Hq Hfresh Hoid.
  destruct (resolved_items_cast db items lines Hlines) as [its [Hcast Hqs]].
  assert (Hq' : forallb (fun i => leb one (OrderSchema.quantity i)) its = true).
  { rewrite forallb_forall in *. intros x Hx.
    assert (Hin : In (OrderSchema.quantity x) (map Order.quantity items))
      by (rewrite <- Hqs; apply in_map; exact Hx).
    apply in_map_iff in Hin. destruct Hin as [y [Hy Hin]]. rewrite <- Hy.
    apply Hq. exact Hin. }
  set (o := created oid now cid its (sum_in_order lines)).
  set (db' := set_orders db (orders db ++ [o])%list).
  exists o, db', (OrderRoutes.by_id db' o).
  destruct (resolved_items_populate db items lines its Hlines Hcast) as [Hp1 Hp2].
  split; [|split; [|split; [|split; [|split; [|split; [|repeat split]]]]]].
  - rewrite (post_root_known_client oid now body db c cid cl items Hb Hc Hl Hi).
    unfold totalPrice_loop. rewrite (loop_all_resolved db items lines zero Hlines).
    rewrite (validate_priced c cid items its _ Hc Hcast), Hq'. reflexivity.
  - rewrite order_get_id_cases. cbn [OrderSchema._id o created].
    rewrite (cast_toString oid Hoid). unfold db'. cbn [orders set_orders].
    rewrite (lookup_app_fresh OrderSchema._id oid (orders db) o Hfresh eq_refl).
    reflexivity.
  - reflexivity.
  - cbn [Views.OrderById.clientId OrderRoutes.by_id]. unfold Order.populate_client.
    unfold db'. cbn [clients set_orders OrderSchema.clientId o created].
    rewrite Hl. reflexivity.
  - exact Hp1.
  - exact Hp2.
Qed.

(** X15. Creating an order under a fresh id and then deleting the order of
    the id of the answer gives back the database as it was before the
    creation. *)
Theorem order_create_then_delete (oid : ObjectId) (now : Z) (body : RequestBody.order num)
        (db : Db num) (o : OrderSchema.doc num) (db' : Db num) :
  OrderRoutes.post_root oid now body db = ({| status := 201; body := OrderBody o |}, db') ->
  ~ In oid (map OrderSchema._id (orders db)) ->
  (oid < 2 ^ 96)%N ->
  OrderRoutes.delete_id (toString (OrderSchema._id o)) db' =
  ({| status := 200; body := Message "Order deleted successfully" |}, db).
Proof.
  intros H Hfresh Hoid.
  destruct (post_root_stores _ _ _ _ _ _ H)
    as [[_ Hs] | (cid & its & items & lines & Hr & -> & _)]; [discriminate Hs|].
  injection Hr as ->.
  unfold OrderRoutes.delete_id, Order.findByIdAndDelete, try_catch.
  cbn [OrderSchema._id created]. rewrite (cast_toString oid Hoid).
  unfold bind at 1. unfold bind at 1. unfold get at 1.
  cbn [orders set_orders].
  rewrite (lookup_app_fresh OrderSchema._id oid (orders db)
             (created oid now cid its (sum_in_order lines)) Hfresh eq_refl).
  unfold bind at 1. unfold put at 1. cbn [isNull when_].
  unfold bind at 1. unfold ret at 1. unfold send.
  cbn [orders set_orders].
  rewrite (remove_app_fresh OrderSchema._id oid (orders db)
             (created oid now cid its (sum_in_order lines)) Hfresh eq_refl).
  f_equal. destruct db; reflexivity.
Qed.

(** X16. Deleting a client deletes no order: the orders are all left as they
    were, and an order of the deleted client is afterwards read by id with a
    null in place of the client, its items, total and status unchanged. *)
Theorem client_delete_does_not_cascade (id orderId : string) (cid oid : ObjectId)
        (cl : ClientSchema.doc) (o : OrderSchema.doc num) (db : Db num) :
  castObjectId id = Some cid ->
  lookup ClientSchema._id cid (clients db) = Some cl ->
  unique_ids ClientSchema._id (clients db) ->
  castObjectId orderId = Some oid ->
  lookup OrderSchema._id oid (orders db) = Some o ->
  OrderSchema.clientId o = cid ->
  exists db' v,
    ClientRoutes.delete_id id db =
    ({| status := 200; body := Message "Client deleted successfully" |}, db')
    /\ orders db' = orders db
    /\ OrderRoutes.get_id orderId db' = (Views.Json v, db')
    /\ Views.OrderById.clientId v = None
    /\ Views.OrderById.items v = Order.populate_items db (OrderSchema.items o)
    /\ Views.OrderById.totalPrice v = OrderSchema.totalPrice o
    /\ Views.OrderById.status v = OrderSchema.status o.
Proof.
  intros Hc Hl Hu Ho Hlo Hown.
  set (db' := set_clients db (remove ClientSchema._id cid (clients db))).
  exists db', (OrderRoutes.by_id db' o).
  split; [|split; [|split; [|split; [|repeat split]]]].
  - unfold ClientRoutes.delete_id, Client.findByIdAndDelete. run.
    rewrite Hc. cbn. rewrite Hl. reflexivity.
  - reflexivity.
  - rewrite order_get_id_cases, Ho. unfold db'. cbn [orders set_clients].
    rewrite Hlo. reflexivity.
  - cbn [Views.OrderById.clientId OrderRoutes.by_id]. unfold Order.populate_client.
    unfold db'. cbn [clients set_clients]. rewrite Hown.
    rewrite (lookup_remove ClientSchema._id cid (clients db) Hu). reflexivity.
Qed.
End OrderReads.

Lemma in_slice {A} (a b : nat) (x : A) (xs : list A) :
  In x (firstn a (skipn b xs)) -> In x xs.
Proof.
  intros H. rewrite <- (firstn_skipn b xs). apply in_or_app. right.
  rewrite <- (firstn_skipn a (skipn b xs)). apply in_or_app. left. exact H.
Qed.

Section OrderList.
Context {num : Type} {NN : Numeric num}.

Lemma order_get_root_answer (q : OrderRoutes.ListQuery) (db : Db num) (p l : Z) :
  ClientRoutes.parsed 1 (OrderRoutes.page q) = Some p ->
  ClientRoutes.parsed 10 (OrderRoutes.limit q) = Some l ->
  1 <= p -> 1 <= l ->
  OrderRoutes.get_root q db =
  (Views.Json
     {| Views.total := List.length (with_status_of (OrderRoutes.status q) db);
        Views.page := Some p;
        Views.limit := Some l;
        Views.totalPages :=
          Js.ceil_div (List.length (with_status_of (OrderRoutes.status q) db)) (Some l);
        Views.data :=
          let found := firstn (Z.to_nat l)
                              (skipn (Z.to_nat ((p - 1) * l))
                                     (with_status_of (OrderRoutes.status q) db)) in
          map (OrderRoutes.listed (fold_left OrderRoutes.rename found (OrderRoutes.populated db))
                                  db) found |},
   db).
Proof.
  intros Hp Hl Hp1 Hl1.
  unfold OrderRoutes.get_root, Views.try_catch_view. cbv zeta. rewrite Hp, Hl.
  unfold bind at 1. unfold Order.countDocuments at 1.
  unfold bind at 1. unfold get at 1. unfold ret at 1.
  unfold bind at 1. unfold Order.find at 1.
  unfold bind at 1. unfold get at 1.
  unfold Js.offset, skip_limit.
  destruct (Z.ltb_spec ((p - 1) * l) 0) as [Hneg|_]; [nia|].
  destruct (Z.eqb_spec l 0) as [E|_]; [lia|].
  rewrite (Z.abs_eq l) by lia.
  reflexivity.
Qed.

(** X17. The list of orders for a status of the query, with page and limit of
    at least 1, is answered with the number of stored orders of this status
    as total and with at most limit orders, each of this status. A text that
    is not one of the four statuses is not refused: it is answered with total
    0 and no order. *)
Theorem order_list_filters_by_status (q : OrderRoutes.ListQuery) (db : Db num) (p l : Z)
        (s : string) :
  ClientRoutes.parsed 1 (OrderRoutes.page q) = Some p ->
  ClientRoutes.parsed 10 (OrderRoutes.limit q) = Some l ->
  1 <= p -> 1 <= l ->
  OrderRoutes.status q = Some s ->
  s <> "" ->
  exists view,
    OrderRoutes.get_root q db = (Views.Json view, db)
    /\ Views.total view =
       List.length (filter (fun o => String.eqb (Order.status_name (OrderSchema.status o)) s)
                           (orders db))
    /\ Forall (fun v => Order.status_name (Views.ListedOrder.status v) = s) (Views.data view)
    /\ (List.length (Views.data view) <= Z.to_nat l)%nat
    /\ (known_status s = false -> Views.total view = 0%nat /\ Views.data view = []).
Proof.
  intros Hp Hl Hp1 Hl1 Hs Hne.
  assert (Hw : with_status_of (OrderRoutes.status q) db
               = filter (fun o => String.eqb (Order.status_name (OrderSchema.status o)) s)
                        (orders db)).
  { unfold with_status_of. rewrite Hs.
    destruct s; [contradiction|]. reflexivity. }
  eexists. split; [apply (order_get_root_answer q db p l Hp Hl Hp1 Hl1)|].
  cbn [Views.total Views.data]. rewrite Hw.
  split; [reflexivity|]. split; [|split].
  - apply Forall_forall. intros v Hv. apply in_map_iff in Hv.
    destruct Hv as [o [<- Ho]].
    assert (Hin : In o (filter (fun o => String.eqb (Order.status_name (OrderSchema.status o)) s)
                               (orders db)))
      by (apply (in_slice _ _ _ _ Ho)).
    apply filter_In in Hin. destruct Hin as [_ E]. apply String.eqb_eq in E. exact E.
  - rewrite length_map. apply firstn_le_length.
  - intros Hk.
    assert (He : filter (fun o => String.eqb (Order.status_name (OrderSchema.status o)) s)
                        (orders db) = []).
    { clear Hw. induction (orders db) as [|o os IH]; cbn; [reflexivity|].
      destruct (String.eqb_spec (Order.status_name (OrderSchema.status o)) s) as [E|_];
        [|exact IH].
      exfalso. unfold known_status in Hk. rewrite <- E in Hk.
      destruct (OrderSchema.status o); cbn in Hk; discriminate. }
    rewrite He. split; [reflexivity|]. rewrite skipn_nil, firstn_nil. reflexivity.
Qed.

(** The heap after the loop: the object of a client went through the
    renaming once for each order of the page that has this client. *)
Lemma fold_rename (found : list (OrderSchema.doc num)) :
  forall (h : OrderRoutes.Heap) (cid : ObjectId),
    fold_left OrderRoutes.rename found h cid =
    Nat.iter (with_client cid found)
             (fun c => match c with
                       | Some c => Some {| Views.ListedClient._id := None;
                                           Views.ListedClient.id := Views.ListedClient._id c;
                                           Views.ListedClient.name := Views.ListedClient.name c;
                                           Views.ListedClient.email := Views.ListedClient.email c |}
                       | None => None
                       end)
             (h cid).
Proof.
  induction found as [|o found IH]; intros h cid; [reflexivity|].
  cbn [fold_left]. rewrite IH. unfold with_client. cbn [filter].
  unfold OrderRoutes.rename. rewrite (N.eqb_sym cid).
  destruct (OrderSchema.clientId o =? cid)%N; [|reflexivity].
  cbn [List.length]. rewrite Nat.iter_succ_r. reflexivity.
Qed.

Lemma renamed_times (n : nat) (c : Views.ListedClient.t) :
  Views.ListedClient.id c = None ->
  Nat.iter (S n)
           (fun c => match c with
                     | Some c => Some {| Views.ListedClient._id := None;
                                         Views.ListedClient.id := Views.ListedClient._id c;
                                         Views.ListedClient.name := Views.ListedClient.name c;
                                         Views.ListedClient.email := Views.ListedClient.email c |}
                     | None => None
                     end)
           (Some c) =
  Some {| Views.ListedClient._id := None;
          Views.ListedClient.id := if Nat.eqb (S n) 1 then Views.ListedClient._id c else None;
          Views.ListedClient.name := Views.ListedClient.name c;
          Views.ListedClient.email := Views.ListedClient.email c |}.
Proof.
  intros Hid. induction n as [|n IH]; [reflexivity|].
  rewrite Nat.iter_succ, IH. cbn [Views.ListedClient._id Views.ListedClient.name
                                  Views.ListedClient.email].
  destruct n; reflexivity.
Qed.

(** X25. In the list of orders the client of an order is sent with its [id]
    only when no other order of the page has the same client: the orders of
    one client share one populated object, the loop that renames [_id] to
    [id] visits it once per order, and from the second visit on it writes an
    [id] that is undefined. [_id] is never sent. Page and limit are integers
    from 1 to 2^53 whose offset is at most 2^53. *)
Theorem shared_client_loses_its_id (q : OrderRoutes.ListQuery) (db : Db num) (p l : Z) :
  ClientRoutes.parsed 1 (OrderRoutes.page q) = Some p ->
  ClientRoutes.parsed 10 (OrderRoutes.limit q) = Some l ->
  1 <= p <= 2 ^ 53 ->
  1 <= l <= 2 ^ 53 ->
  (p - 1) * l <= 2 ^ 53 ->
  exists view (found : list (OrderSchema.doc num)),
    OrderRoutes.get_root q db = (Views.Json view, db)
    /\ map Views.ListedOrder.id (Views.data view) = map OrderSchema._id found
    /\ (forall o cl,
           In o found ->
           lookup ClientSchema._id (OrderSchema.clientId o) (clients db) = Some cl ->
           exists v,
             In v (Views.data view)
             /\ Views.ListedOrder.id v = OrderSchema._id o
             /\ Views.ListedOrder.client v =
                Some {| Views.ListedClient._id := None;
                        Views.ListedClient.id :=
                          if Nat.eqb (with_client (OrderSchema.clientId o) found) 1
                          then Some (ClientSchema._id cl) else None;
                        Views.ListedClient.name := ClientSchema.name cl;
                        Views.ListedClient.email := ClientSchema.email cl |})
    /\ (forall o,
           In o found ->
           lookup ClientSchema._id (OrderSchema.clientId o) (clients db) = None ->
           exists v,
             In v (Views.data view)
             /\ Views.ListedOrder.id v = OrderSchema._id o
             /\ Views.ListedOrder.client v = None).
Proof.
  intros Hp Hl [Hp1 _] [Hl1 _] _.
  set (found := firstn (Z.to_nat l)
                       (skipn (Z.to_nat ((p - 1) * l))
                              (with_status_of (OrderRoutes.status q) db))).
  eexists. exists found.
  split; [apply (order_get_root_answer q db p l Hp Hl Hp1 Hl1)|].
  cbn [Views.data]. cbv zeta. fold found.
  split; [rewrite map_map; reflexivity|].
  assert (Hmany : forall o, In o found ->
                            exists n, with_client (OrderSchema.clientId o) found = S n).
  { intros o Ho. unfold with_client.
    assert (Hin : In o (filter (fun o' => (OrderSchema.clientId o' =? OrderSchema.clientId o)%N)
                               found))
      by (apply filter_In; split; [exact Ho | apply N.eqb_refl]).
    destruct (filter _ found); [destruct Hin | eexists; reflexivity]. }
  split.
  - intros o cl Ho Hcl.
    exists (OrderRoutes.listed (fold_left OrderRoutes.rename found (OrderRoutes.populated db))
                               db o).
    split; [apply in_map; exact Ho|]. split; [reflexivity|].
    cbn [Views.ListedOrder.client OrderRoutes.listed].
    rewrite fold_rename. destruct (Hmany o Ho) as [n ->].
    unfold OrderRoutes.populated, Order.populate_client. rewrite Hcl.
    rewrite renamed_times by reflexivity. reflexivity.
  - intros o Ho Hcl.
    exists (OrderRoutes.listed (fold_left OrderRoutes.rename found (OrderRoutes.populated db))
                               db o).
    split; [apply in_map; exact Ho|]. split; [reflexivity|].
    cbn [Views.ListedOrder.client OrderRoutes.listed].
    rewrite fold_rename.
    unfold OrderRoutes.populated, Order.populate_client. rewrite Hcl.
    generalize (with_client (OrderSchema.clientId o) found).
    induction n as [|n IH]; [reflexivity|]. rewrite Nat.iter_succ, IH. reflexivity.
Qed.
End OrderList.


(* ------------------------------------------------------------------------- *)
(** ** The further properties on the sample data *)
(* ------------------------------------------------------------------------- *)

Lemma client_create_then_get_witness :
  let view := {| Express.id := toString 7%N; Express.name := "Ann";
                 Express.email := "ann@example.com" |} in
  exists db',
    ClientRoutes.post_root 7%N Sample.ann Sample.db =
    ({| status := 201; body := ClientBody view |}, db')
    /\ ClientRoutes.get_id (Express.id view) db' =
       ({| status := 200; body := ClientBody view |}, db').
Proof.
  apply (client_create_then_get 7%N "Ann" "ann@example.com" Sample.db).
  - discriminate.
  - discriminate.
  - reflexivity.
  - simpl. intuition discriminate.
  - reflexivity.
Defined.

Lemma client_create_refusals_witness :
  ClientRoutes.post_root 7%N
    {| RequestBody.client_name := Some "Ann"; RequestBody.client_email := None |} Sample.db =
  ({| status := 400; body := Message "Name and email are required" |}, Sample.db)
  /\ ClientRoutes.post_root 7%N
       {| RequestBody.client_name := Some "Johnny";
          RequestBody.client_email := Some "john@example.com" |} Sample.db =
     ({| status := 400; body := Message "Error creating client" |}, Sample.db).
Proof.
  split.
  - apply (proj1 (client_create_refusals 7%N
                    {| RequestBody.client_name := Some "Ann"; RequestBody.client_email := None |}
                    Sample.db)).
    right. reflexivity.
  - apply (proj2 (client_create_refusals 7%N
                    {| RequestBody.client_name := Some "Johnny";
                       RequestBody.client_email := Some "john@example.com" |}
                    Sample.db)); reflexivity.
Defined.

Lemma client_writes_keep_ids_and_emails_unique_witness :
  unique_ids ClientSchema._id (clients (set_clients Sample.db [Sample.jane; Sample.alice]))
  /\ unique_emails (clients (set_clients Sample.db [Sample.jane; Sample.alice])).
Proof.
  apply (client_writes_keep_ids_and_emails_unique 7%N Sample.id1 Sample.ann Sample.db
           {| status := 200; body := Message "Client deleted successfully" |}).
  - unfold unique_ids. simpl. repeat constructor; simpl; intuition discriminate.
  - unfold unique_emails. simpl. repeat constructor; simpl; intuition discriminate.
  - right. right. reflexivity.
Defined.

Lemma client_update_changes_one_witness :
  exists db',
    ClientRoutes.put_id Sample.id1
      {| RequestBody.client_name := Some "John D.";
         RequestBody.client_email := Some "jd@example.com" |} Sample.db =
    ({| status := 200;
        body := ClientBody {| Express.id := toString 1%N; Express.name := "John D.";
                              Express.email := "jd@example.com" |} |}, db')
    /\ lookup ClientSchema._id 1%N (clients db') = Some (new_client 1%N "John D." "jd@example.com")
    /\ (forall k, k <> 1%N ->
                  lookup ClientSchema._id k (clients db')
                  = lookup ClientSchema._id k (clients Sample.db))
    /\ List.length (clients db') = List.length (clients Sample.db)
    /\ orders db' = orders Sample.db /\ products db' = products Sample.db
    /\ users db' = users Sample.db.
Proof.
  apply (client_update_changes_one Sample.id1 1%N Sample.john "John D." "jd@example.com"
           Sample.db); reflexivity.
Defined.

Lemma client_update_refusals_witness :
  ClientRoutes.put_id Sample.id1
    {| RequestBody.client_name := None; RequestBody.client_email := Some "jane@example.com" |}
    Sample.db =
  ({| status := 400; body := Message "Invalid ID format" |}, Sample.db)
  /\ ClientRoutes.put_id Sample.id9 Sample.ann Sample.db =
     ({| status := 404; body := Message "Client not found" |}, Sample.db).
Proof.
  split.
  - apply (proj2 (proj2 (client_update_refusals Sample.id1
                           {| RequestBody.client_name := None;
                              RequestBody.client_email := Some "jane@example.com" |}
                           Sample.db)) 1%N Sample.john "jane@example.com"); reflexivity.
  - apply (proj1 (proj2 (client_update_refusals Sample.id9 Sample.ann Sample.db)) 9%N);
      reflexivity.
Defined.

Lemma pages_cover_the_list_witness :
  List.concat
    (map (fun s => data_of (fst (ClientRoutes.get_root (RE := Sample.substring_regexp)
                                   (with_page (Sample.limited "2") s) Sample.db)))
         ["1"; "2"])
  = map ClientRoutes.formatted (matching None None Sample.db).
Proof.
  apply (pages_cover_the_list (RE := Sample.substring_regexp) (Sample.limited "2") Sample.db
           2 None None ["1"; "2"] 2).
  - reflexivity.
  - lia.
  - reflexivity.
  - reflexivity.
  - reflexivity.
  - simpl. lia.
Defined.

Lemma limit_zero_lifts_the_limit_witness :
  ClientRoutes.get_root (RE := Sample.substring_regexp) (Sample.limited "0") Sample.db =
  ({| status := 200;
      body := Page 3 (Some 1) (Some 0) Js.Infinity
                (map ClientRoutes.formatted [Sample.john; Sample.jane; Sample.alice]) |},
   Sample.db).
Proof.
  apply (limit_zero_lifts_the_limit (RE := Sample.substring_regexp) (Sample.limited "0")
           Sample.db 1 None None); try reflexivity.
  lia.
Defined.

Lemma page_past_the_end_is_empty_witness :
  ClientRoutes.get_root (RE := Sample.substring_regexp)
    (with_page (Sample.limited "2") "3") Sample.db =
  ({| status := 200; body := Page 3 (Some 3) (Some 2) (Js.Int 2) [] |}, Sample.db).
Proof.
  apply (page_past_the_end_is_empty (RE := Sample.substring_regexp)
           (with_page (Sample.limited "2") "3") Sample.db 3 2 None None).
  - reflexivity.
  - reflexivity.
  - lia.
  - lia.
  - lia.
  - simpl. lia.
  - reflexivity.
  - reflexivity.
Defined.

Lemma cancel_is_unconditional_and_idempotent_witness :
  exists db',
    OrderRoutes.patch_cancel Sample.id101 Sample.db_orders =
    ({| status := 200;
        body := OrderBody (Order.with_status OrderSchema.canceled Sample.order101) |}, db')
    /\ lookup OrderSchema._id 101%N (orders db')
       = Some (Order.with_status OrderSchema.canceled Sample.order101)
    /\ (forall k, k <> 101%N ->
                  lookup OrderSchema._id k (orders db')
                  = lookup OrderSchema._id k (orders Sample.db_orders))
    /\ OrderRoutes.patch_cancel Sample.id101 db' =
       ({| status := 200;
           body := OrderBody (Order.with_status OrderSchema.canceled Sample.order101) |}, db').
Proof.
  apply (proj1 (cancel_is_unconditional_and_idempotent Sample.id101 101%N Sample.db_orders
                  eq_refl)).
  reflexivity.
Defined.

Lemma order_update_changes_items_only_witness :
  exists o' db',
    OrderRoutes.put_id Sample.id101 Sample.two_P1 Sample.db_orders =
    ({| status := 200; body := OrderBody o' |}, db')
    /\ lookup OrderSchema._id 101%N (orders db') = Some o'
    /\ OrderSchema.totalPrice o' = 20
    /\ OrderSchema.clientId o' = 2%N
    /\ OrderSchema.status o' = OrderSchema.delivered.
Proof.
  destruct (order_update_changes_items_only Sample.id101 101%N Sample.order101 Sample.two_P1
              Sample.db_orders
              [ {| Order.productId := Sample.idP1; Order.quantity := 2 |} ] [20])
    as (o' & db' & H1 & H2 & _ & H4 & _ & H6 & H7 & _).
  - reflexivity.
  - reflexivity.
  - reflexivity.
  - reflexivity.
  - exists o', db'. repeat split; assumption.
Defined.


Lemma client_scoped_create_skips_the_client_witness :
  lookup ClientSchema._id 9%N (clients Sample.db) = None
  /\ ClientOrdersRoutes.post_orders (JWT := Sample.unary_jwt) 100%N 5 (Some "Bearer t1")
       Sample.id9 Sample.no_item Sample.db =
     ({| status := 201; body := OrderBody (created 100%N 5 9%N [] 0) |},
      set_orders Sample.db [ created 100%N 5 9%N [] 0 ])
  /\ OrderRoutes.post_root 100%N 5
       {| RequestBody.clientId := Some Sample.id9; RequestBody.items := Some [];
          RequestBody.totalPrice := None |} Sample.db =
     ({| status := 400; body := Message "Invalid client ID" |}, Sample.db).
Proof.
  destruct (client_scoped_create_skips_the_client (JWT := Sample.unary_jwt) 100%N 5
              (Some "Bearer t1") {| userId := 1%N; iat := 0; exp := 0 |}
              Sample.id9 9%N Sample.no_item Sample.db eq_refl eq_refl)
    as [Hstored [_ Hsibling]].
  split; [reflexivity|]. split.
  - exact (Hstored eq_refl).
  - exact (Hsibling eq_refl).
Defined.

Lemma client_routes_answer_400_witness :
  (exists r, ClientOrdersRoutes.get_orders (JWT := Sample.unary_jwt) 0 (Some "Bearer t1")
               Sample.id1 Sample.db_orders = (Views.Refused r, Sample.db_orders)
             /\ status r = 400)
  /\ (exists r, ClientOrdersRoutes.get_order (JWT := Sample.unary_jwt) 0 (Some "Bearer t1")
                  Sample.id1 Sample.id100 Sample.db_orders = (Views.Refused r, Sample.db_orders)
                /\ status r = 400)
  /\ (exists r, ClientOrdersRoutes.put_order (JWT := Sample.unary_jwt) 0 (Some "Bearer t1")
                  Sample.id1 Sample.id100 Sample.two_P1 Sample.db_orders = (r, Sample.db_orders)
                /\ status r = 400)
  /\ (exists r, ClientOrdersRoutes.delete_order (JWT := Sample.unary_jwt) 0 (Some "Bearer t1")
                  Sample.id1 Sample.id100 Sample.db_orders = (r, Sample.db_orders)
                /\ status r = 400).
Proof.
  apply (client_routes_answer_400 (JWT := Sample.unary_jwt) 0 (Some "Bearer t1")
           {| userId := 1%N; iat := 0; exp := 0 |} Sample.id1 Sample.id100 Sample.two_P1
           Sample.db_orders).
  reflexivity.
Defined.

Lemma client_routes_need_a_token_witness :
  ClientOrdersRoutes.get_orders (JWT := Sample.unary_jwt) 0 None Sample.id1 Sample.db_orders =
  (Views.Refused {| status := 401; body := Message "Access denied. No token provided." |},
   Sample.db_orders)
  /\ ClientOrdersRoutes.delete_order (JWT := Sample.unary_jwt) 0 None Sample.id1 Sample.id100
       Sample.db_orders =
     ({| status := 401; body := Message "Access denied. No token provided." |},
      Sample.db_orders).
Proof.
  destruct (client_routes_need_a_token (JWT := Sample.unary_jwt) 7%N 0 None
              {| status := 401; body := Message "Access denied. No token provided." |}
              Sample.id1 Sample.id100 Sample.two_P1 Sample.db_orders eq_refl)
    as (_ & H1 & _ & _ & _ & H5).
  split; assumption.
Defined.


Lemma order_create_then_get_witness :
  exists o db' v,
    OrderRoutes.post_root 100%N 5 Sample.two_P1 Sample.db =
    ({| status := 201; body := OrderBody o |}, db')
    /\ OrderRoutes.get_id (toString (OrderSchema._id o)) db' = (Views.Json v, db')
    /\ Views.OrderById.clientId v =
       Some {| Views.PopulatedClient._id := 1%N;
               Views.PopulatedClient.name := "John Doe";
               Views.PopulatedClient.email := "john@example.com" |}
    /\ Views.OrderById.totalPrice v = 20.
Proof.
  destruct (order_create_then_get 100%N 5 Sample.two_P1 Sample.db Sample.id1 1%N Sample.john
              [ {| Order.productId := Sample.idP1; Order.quantity := 2 |} ] [20])
    as (o & db' & v & H1 & H2 & H3 & H4 & H5 & H6 & H7 & H8).
  all: try reflexivity.
  - simpl. tauto.
  - exists o, db', v. repeat split; assumption.
Defined.

Lemma order_create_then_delete_witness :
  OrderRoutes.delete_id (toString 100%N) (set_orders Sample.db [Sample.order100]) =
  ({| status := 200; body := Message "Order deleted successfully" |}, Sample.db).
Proof.
  apply (order_create_then_delete 100%N 5 Sample.two_P1 Sample.db Sample.order100).
  - reflexivity.
  - simpl. tauto.
  - reflexivity.
Defined.

Lemma client_delete_does_not_cascade_witness :
  exists db' v,
    ClientRoutes.delete_id Sample.id2 Sample.db_orders =
    ({| status := 200; body := Message "Client deleted successfully" |}, db')
    /\ orders db' = orders Sample.db_orders
    /\ OrderRoutes.get_id Sample.id101 db' = (Views.Json v, db')
    /\ Views.OrderById.clientId v = None
    /\ Views.OrderById.totalPrice v = 10.
Proof.
  destruct (client_delete_does_not_cascade Sample.id2 Sample.id101 2%N 101%N Sample.jane
              Sample.order101 Sample.db_orders eq_refl eq_refl)
    as (db' & v & H1 & H2 & H3 & H4 & _ & H6 & _).
  - unfold unique_ids. simpl. repeat constructor; simpl; intuition discriminate.
  - reflexivity.
  - reflexivity.
  - reflexivity.
  - exists db', v. repeat split; assumption.
Defined.

Lemma order_list_filters_by_status_witness :
  exists view,
    OrderRoutes.get_root (Sample.of_status "delivered") Sample.db_orders
    = (Views.Json view, Sample.db_orders)
    /\ Views.total view = 1%nat
    /\ Forall (fun v => Order.status_name (Views.ListedOrder.status v) = "delivered")
              (Views.data view).
Proof.
  destruct (order_list_filters_by_status (Sample.of_status "delivered") Sample.db_orders
              1 10 "delivered" eq_refl eq_refl ltac:(lia) ltac:(lia) eq_refl)
    as (view & H1 & H2 & H3 & _).
  - discriminate.
  - exists view. repeat split; assumption.
Defined.



(* ------------------------------------------------------------------------- *)
(** ** What reads and refusals leave alone *)
(* ------------------------------------------------------------------------- *)

Section ReadOnly.
Context {num : Type}.

Lemma reads_bind {A B} (m : M num A) (k : A -> M num B) :
  (forall db, snd (m db) = db) ->
  (forall a db, snd (k a db) = db) ->
  forall db, snd (bind m k db) = db.
Proof.
  intros Hm Hk db. unfold bind. specialize (Hm db).
  destruct (m db) as [[a|e|r] db1]; cbn in Hm; subst db1; [apply Hk | reflexivity..].
Qed.

Lemma reads_try_catch (m : M num Empty_set) (handler : Error -> Response num) :
  (forall db, snd (m db) = db) ->
  forall db, snd (try_catch m handler db) = db.
Proof.
  intros Hm db. unfold try_catch. specialize (Hm db).
  destruct (m db) as [[[]|e|r] db1]; exact Hm.
Qed.

Lemma reads_try_catch_view {A} (m : M num A) (handler : Error -> Response num) :
  (forall db, snd (m db) = db) ->
  forall db, snd (Views.try_catch_view m handler db) = db.
Proof.
  intros Hm db. unfold Views.try_catch_view. specialize (Hm db).
  destruct (m db) as [[a|e|r] db1]; exact Hm.
Qed.
End ReadOnly.

Ltac reads :=
  repeat first
    [ reflexivity
    | apply reads_try_catch
    | apply reads_try_catch_view
    | apply reads_bind; intros
    | match goal with
      | |- forall _, _ => intro
      | |- context [match ?x with _ => _ end] => destruct x
      | |- context [if ?x then _ else _] => destruct x
      end ].

Section Reads.
Context {num : Type} {NN : Numeric num} {JWT : Jwt} {RE : RegExpEngine}.

(** X20. No GET route writes: whatever the query, the parameters and the
    header, and whatever the answer, the database after the request is the
    database before it. *)
Theorem reads_do_not_write (db : Db num) :
  (forall q, snd (ClientRoutes.get_root q db) = db)
  /\ (forall id, snd (ClientRoutes.get_id id db) = db)
  /\ (forall q, snd (OrderRoutes.get_root q db) = db)
  /\ (forall id, snd (OrderRoutes.get_id id db) = db)
  /\ (forall clientId, snd (OrderRoutes.get_client_orders clientId db) = db)
  /\ (forall now authorization clientId,
         snd (ClientOrdersRoutes.get_orders now authorization clientId db) = db)
  /\ (forall now authorization clientId orderId,
         snd (ClientOrdersRoutes.get_order now authorization clientId orderId db) = db).
Proof.
  repeat split.
  - intros q. revert db. unfold ClientRoutes.get_root. cbv zeta.
    unfold ClientRoutes.filter_of, Client.countDocuments, Client.find. reads.
  - intros id. revert db. unfold ClientRoutes.get_id, Client.findById. reads.
  - intros q. revert db. unfold OrderRoutes.get_root. cbv zeta.
    unfold Order.countDocuments, Order.find. reads.
  - intros id. rewrite order_get_id_cases.
    destruct (castObjectId id); [|reflexivity].
    destruct (lookup _ _ _); reflexivity.
  - intros c. revert db. unfold OrderRoutes.get_client_orders, Order.find_of_client. reads.
  - intros now a c. unfold ClientOrdersRoutes.get_orders. rewrite authMiddleware_view_cases.
    destruct (gate now a); reflexivity.
  - intros now a c o. unfold ClientOrdersRoutes.get_order. rewrite authMiddleware_view_cases.
    destruct (gate now a); reflexivity.
Qed.
End Reads.

Ltac settle H :=
  repeat match type of H with
         | context [match ?x with _ => _ end] => destruct x
         | context [if ?x then _ else _] => destruct x
         end;
  try (injection H as <- <-); try reflexivity; try (exfalso; cbn in *; congruence).

Section Refusals.
Context {num : Type} {NN : Numeric num} {JWT : Jwt} {BC : Bcrypt} {VA : Validator}.

Lemma keeps_client_post (oid : ObjectId) (body : RequestBody.client)
      (db : Db num) (r : Response num) (db' : Db num) :
  ClientRoutes.post_root oid body db = (r, db') -> status r <> 201 -> db' = db.
Proof.
  intros H H201.
  destruct (Js.truthy (RequestBody.client_name body)) eqn:Hn.
  2:{ rewrite post_root_missing in H by (left; exact Hn). injection H as <- <-. reflexivity. }
  destruct (Js.truthy (RequestBody.client_email body)) eqn:He.
  2:{ rewrite post_root_missing in H by (right; exact He). injection H as <- <-. reflexivity. }
  destruct (email_taken db (ClientRoutes.text (RequestBody.client_email body))) eqn:Ht.
  - rewrite (post_root_taken oid body db Hn He Ht) in H. injection H as <- <-. reflexivity.
  - rewrite (post_root_created oid body db Hn He Ht) in H. injection H as <- <-.
    contradiction H201. reflexivity.
Qed.

Lemma keeps_client_delete (id : string) (db : Db num) (r : Response num) (db' : Db num) :
  ClientRoutes.delete_id id db = (r, db') -> status r <> 200 -> db' = db.
Proof.
  unfold ClientRoutes.delete_id, Client.findByIdAndDelete. run.
  destruct (castObjectId id) as [oid|]; cbn.
  - destruct (lookup ClientSchema._id oid (clients db)); cbn; intros [= <- <-] H200;
      [contradiction H200 |]; reflexivity.
  - intros [= <- <-] _. reflexivity.
Qed.

Lemma keeps_order_post_v1 (oid : ObjectId) (now : Z) (body : RequestBody.order num)
      (db : Db num) (r : Response num) (db' : Db num) :
  OrderRoutesV1.post_root oid now body db = (r, db') -> status r <> 201 -> db' = db.
Proof.
  unfold OrderRoutesV1.post_root, try_catch. cbv zeta. unfold bind at 1.
  assert (Hr : snd (Client.findById (num := num) (RequestBody.clientId body) db) = db).
  { unfold Client.findById. destruct (RequestBody.clientId body) as [c|]; [|reflexivity].
    destruct (castObjectId c); reflexivity. }
  destruct (Client.findById (RequestBody.clientId body) db) as [[c|e|r0] db1];
    cbn in Hr; subst db1.
  - unfold bind at 1. destruct (isNull c); cbn [when_].
    + unfold send at 1. intros [= <- <-] _. reflexivity.
    + unfold ret at 1. unfold bind at 1. rewrite save_cases.
      destruct (Order.validate _) as [e|[[cid its] t']].
      * intros [= <- <-] _. reflexivity.
      * unfold send at 1. intros [= <- <-] H201. contradiction H201. reflexivity.
  - intros [= <- <-] _. reflexivity.
  - intros [= <- <-] _. reflexivity.
Qed.

(** X21. A write route that refuses writes nothing: whenever a POST, PUT,
    PATCH or DELETE handler answers with a status other than 200 and 201,
    the database after the request is the database before it. *)
Theorem refusals_do_not_write (h : Handler num) (db : Db num) (r : Response num)
        (db' : Db num) :
  writes h ->
  h db = (r, db') ->
  status r <> 200 ->
  status r <> 201 ->
  db' = db.
Proof.
  intros Hw H H200 H201.
  destruct Hw as [ oid cbody | id cbody | id | oid now body | oid now body | id body | id | id
                 | oid now authorization clientId body
                 | now authorization clientId orderId body
                 | now authorization clientId orderId
                 | oid creds | now creds ].
  - exact (keeps_client_post _ _ _ _ _ H H201).
  - rewrite client_put_id_cases in H. cbv zeta in H. settle H.
  - exact (keeps_client_delete _ _ _ _ H H200).
  - destruct (post_root_stores _ _ _ _ _ _ H) as [[-> _] | (cid & its & items & lines & Hr & _)];
      [reflexivity|]. cbv zeta in Hr. subst r. contradiction H201. reflexivity.
  - exact (keeps_order_post_v1 _ _ _ _ _ _ H H201).
  - destruct (RequestBody.items body) as [items|] eqn:Hi.
    + rewrite (put_id_cases id body db items Hi) in H. settle H.
    + revert H. unfold OrderRoutes.put_id. rewrite Hi. run. intros [= <- <-]. reflexivity.
  - rewrite patch_cancel_cases in H. settle H.
  - rewrite order_delete_cases in H. settle H.
  - destruct (gate (num := num) now authorization) as [r0|p] eqn:Hg.
    + unfold ClientOrdersRoutes.post_orders in H.
      rewrite authMiddleware_gate_cases, Hg in H. injection H as <- <-. reflexivity.
    + rewrite (scoped_post_cases oid now authorization p clientId body db Hg) in H.
      settle H.
  - destruct (gate (num := num) now authorization) as [r0|p] eqn:Hg.
    + unfold ClientOrdersRoutes.put_order in H. rewrite authMiddleware_gate_cases, Hg in H.
      injection H as <- <-. reflexivity.
    + rewrite (scoped_put_cases now authorization p clientId orderId body db Hg) in H.
      injection H as <- <-. reflexivity.
  - destruct (gate (num := num) now authorization) as [r0|p] eqn:Hg.
    + unfold ClientOrdersRoutes.delete_order in H.
      rewrite authMiddleware_gate_cases, Hg in H. injection H as <- <-. reflexivity.
    + rewrite (scoped_delete_cases now authorization p clientId orderId db Hg) in H.
      injection H as <- <-. reflexivity.
  - destruct (register_cases oid creds db) as [r0 [E _]].
    rewrite E in H. injection H as <- <-. reflexivity.
  - destruct (login_cases now creds db) as [r0 [E _]].
    rewrite E in H. injection H as <- <-. reflexivity.
Qed.
End Refusals.

(* ------------------------------------------------------------------------- *)
(** ** The orders of a client *)
(* ------------------------------------------------------------------------- *)

Section ClientOrders.
Context {num : Type} {NN : Numeric num}.

(** X22. Under /orders, for a client id that is an ObjectId, the orders of a
    client are answered 200 with a list: it holds exactly the stored orders
    of this client id, stored or not as a client, so it is empty, not a 404,
    when there is none. *)
Theorem orders_of_a_client (c : string) (cid : ObjectId) (db : Db num) :
  castObjectId c = Some cid ->
  exists views,
    OrderRoutes.get_client_orders c db = (Views.Json views, db)
    /\ Forall (fun v => Views.ClientOrder.clientId v = cid) views
    /\ (forall oid,
           In oid (map Views.ClientOrder._id views) <->
           exists o, In o (orders db) /\ OrderSchema._id o = oid
                     /\ OrderSchema.clientId o = cid)
    /\ ((forall o, In o (orders db) -> OrderSchema.clientId o <> cid) -> views = []).
Proof.
  intros Hc.
  exists (map (OrderRoutes.of_client db)
              (filter (fun o => (OrderSchema.clientId o =? cid)%N) (orders db))).
  split; [|split; [|split]].
  - unfold OrderRoutes.get_client_orders, Views.try_catch_view, Order.find_of_client.
    rewrite Hc. reflexivity.
  - apply Forall_forall. intros v Hv. apply in_map_iff in Hv.
    destruct Hv as [o [<- Ho]]. apply filter_In in Ho. destruct Ho as [_ Ho].
    apply N.eqb_eq in Ho. exact Ho.
  - intros oid. rewrite map_map. cbn [Views.ClientOrder._id OrderRoutes.of_client].
    rewrite in_map_iff. split.
    + intros [o [Hid Ho]]. apply filter_In in Ho. destruct Ho as [Hin Ho].
      apply N.eqb_eq in Ho. exists o. repeat split; assumption.
    + intros [o [Hin [Hid Ho]]]. exists o. split; [exact Hid|].
      apply filter_In. split; [exact Hin|]. apply N.eqb_eq. exact Ho.
  - intros Hnone.
    assert (He : forall l : list (OrderSchema.doc num),
               (forall o, In o l -> OrderSchema.clientId o <> cid) ->
               filter (fun o => (OrderSchema.clientId o =? cid)%N) l = []).
    { induction l as [|o l IH]; intros Hl; [reflexivity|].
      cbn [filter]. destruct (N.eqb_spec (OrderSchema.clientId o) cid) as [E|N].
      - exfalso. apply (Hl o); [left; reflexivity | exact E].
      - apply IH. intros o' Ho'. apply Hl. right. exact Ho'. }
    rewrite (He _ Hnone). reflexivity.
Qed.
End ClientOrders.

Lemma shared_client_loses_its_id_witness :
  exists view (found : list (OrderSchema.doc Z)),
    OrderRoutes.get_root Sample.all_orders Sample.db_two_of_john
    = (Views.Json view, Sample.db_two_of_john)
    /\ map Views.ListedOrder.id (Views.data view) = map OrderSchema._id found
    /\ (forall o cl,
           In o found ->
           lookup ClientSchema._id (OrderSchema.clientId o) (clients Sample.db_two_of_john)
           = Some cl ->
           exists v,
             In v (Views.data view)
             /\ Views.ListedOrder.id v = OrderSchema._id o
             /\ Views.ListedOrder.client v =
                Some {| Views.ListedClient._id := None;
                        Views.ListedClient.id :=
                          if Nat.eqb (with_client (OrderSchema.clientId o) found) 1
                          then Some (ClientSchema._id cl) else None;
                        Views.ListedClient.name := ClientSchema.name cl;
                        Views.ListedClient.email := ClientSchema.email cl |})
    /\ (forall o,
           In o found ->
           lookup ClientSchema._id (OrderSchema.clientId o) (clients Sample.db_two_of_john)
           = None ->
           exists v,
             In v (Views.data view)
             /\ Views.ListedOrder.id v = OrderSchema._id o
             /\ Views.ListedOrder.client v = None).
Proof.
  apply (shared_client_loses_its_id Sample.all_orders Sample.db_two_of_john 1 10).
  - reflexivity.
  - reflexivity.
  - lia.
  - lia.
  - lia.
Defined.

Lemma orders_of_a_client_witness :
  exists views,
    OrderRoutes.get_client_orders Sample.id1 Sample.db_orders
    = (Views.Json views, Sample.db_orders)
    /\ Forall (fun v => Views.ClientOrder.clientId v = 1%N) views
    /\ (forall oid,
           In oid (map Views.ClientOrder._id views) <->
           exists o, In o (orders Sample.db_orders) /\ OrderSchema._id o = oid
                     /\ OrderSchema.clientId o = 1%N)
    /\ ((forall o, In o (orders Sample.db_orders) -> OrderSchema.clientId o <> 1%N) ->
        views = []).
Proof.
  apply (orders_of_a_client Sample.id1 1%N Sample.db_orders). reflexivity.
Defined.

Lemma refusals_do_not_write_witness :
  snd (OrderRoutes.delete_id Sample.id9 Sample.db_orders) = Sample.db_orders.
Proof.
  apply (refusals_do_not_write (JWT := Sample.unary_jwt) (BC := Sample.prefix_bcrypt)
           (VA := Sample.at_validator)
           (OrderRoutes.delete_id Sample.id9) Sample.db_orders
           {| status := 404; body := Message "Order not found" |}).
  - apply writes_order_delete.
  - reflexivity.
  - discriminate.
  - discriminate.
Defined.


(* ------------------------------------------------------------------------- *)
(** ** What an update does not check *)
(* ------------------------------------------------------------------------- *)

Lemma forallb_through {A B} (p : B -> bool) (g : A -> B) (l : list A) :
  forallb (fun x => p (g x)) l = forallb p (map g l).
Proof. induction l as [|x l IH]; cbn; [reflexivity | rewrite IH; reflexivity]. Qed.

Section Unchecked.
Context {num : Type} {NN : Numeric num}.

(** X24. The minimum quantity of the schema is checked when an order is
    created, not when it is updated: items that all resolve to products, one
    of them with a quantity below 1, are refused with 400 by the create route,
    and the update route stores them in a stored order, with their total, and
    answers 200. *)
Theorem update_skips_the_quantity_check (oid : ObjectId) (now : Z) (id : string)
        (oid' : ObjectId) (o : OrderSchema.doc num) (body : RequestBody.order num)
        (db : Db num) (c : string) (cid : ObjectId) (cl : ClientSchema.doc)
        (items : list (Order.ItemInput num)) (lines : list num) :
  RequestBody.clientId body = Some c ->
  castObjectId c = Some cid ->
  lookup ClientSchema._id cid (clients db) = Some cl ->
  RequestBody.items body = Some items ->
  line_totals db items = Some lines ->
  forallb (fun i => leb one (Order.quantity i)) items = false ->
  castObjectId id = Some oid' ->
  lookup OrderSchema._id oid' (orders db) = Some o ->
  (exists r, OrderRoutes.post_root oid now body db = (r, db) /\ status r = 400)
  /\ exists o' db',
      OrderRoutes.put_id id body db = ({| status := 200; body := OrderBody o' |}, db')
      /\ lookup OrderSchema._id oid' (orders db') = Some o'
      /\ map OrderSchema.quantity (OrderSchema.items o') = map Order.quantity items
      /\ OrderSchema.totalPrice o' = sum_in_order lines.
Proof.
  intros Hb Hc Hl Hi Hlines Hq Hc' Hl'.
  destruct (resolved_items_cast db items lines Hlines) as [its [Hcast Hqs]].
  assert (Hq' : forallb (fun i => leb one (OrderSchema.quantity i)) its = false).
  { rewrite (forallb_through (leb one) OrderSchema.quantity), Hqs.
    rewrite <- (forallb_through (leb one) Order.quantity). exact Hq. }
  split.
  - rewrite (post_root_known_client oid now body db c cid cl items Hb Hc Hl Hi).
    unfold totalPrice_loop. rewrite (loop_all_resolved db items lines zero Hlines).
    rewrite (validate_priced c cid items its _ Hc Hcast), Hq'.
    eexists. split; reflexivity.
  - exists (Order.with_items its (sum_in_order lines) o).
    exists (set_orders db (modify OrderSchema._id oid'
                                  (Order.with_items its (sum_in_order lines)) (orders db))).
    split; [|split; [|split]].
    + rewrite (put_id_cases id body db items Hi). unfold totalPrice_loop.
      rewrite (loop_all_resolved db items lines zero Hlines), Hc', Hcast, Hl'. reflexivity.
    + cbn [orders set_orders]. rewrite lookup_modify by reflexivity. rewrite Hl'. reflexivity.
    + exact Hqs.
    + reflexivity.
Qed.
End Unchecked.

Lemma update_skips_the_quantity_check_witness :
  (exists r, OrderRoutes.post_root 102%N 7 Sample.none_of_P1 Sample.db_orders
             = (r, Sample.db_orders) /\ status r = 400)
  /\ exists o' db',
      OrderRoutes.put_id Sample.id100 Sample.none_of_P1 Sample.db_orders
      = ({| status := 200; body := OrderBody o' |}, db')
      /\ lookup OrderSchema._id 100%N (orders db') = Some o'
      /\ map OrderSchema.quantity (OrderSchema.items o') = [0]
      /\ OrderSchema.totalPrice o' = 0.
Proof.
  destruct (update_skips_the_quantity_check 102%N 7 Sample.id100 100%N Sample.order100
              Sample.none_of_P1 Sample.db_orders Sample.id1 1%N Sample.john
              [ {| Order.productId := Sample.idP1; Order.quantity := 0 |} ] [0])
    as [Hpost (o' & db' & H1 & H2 & H3 & H4)]; try reflexivity.
  split; [exact Hpost|].
  exists o', db'. repeat split; assumption.
Defined.
